(** * github_stats: the badge generator [generate_images.py]

    A shallow embedding of [generate_images.py] and the properties of its
    rendering and orchestration layer.

    Layout of the development:
    - [Text]: Python [str] values and the text primitives the script uses;
    - [Py]: the pieces of the Python runtime the script calls ([sorted],
      [re.sub], number formatting, [str.strip], [str.lower], [str.split]);
    - [World]: the process environment, the file system and the effects;
    - [Script]: the functions of [generate_images.py], in source order;
    - the properties, one section per topic. *)

From Stdlib Require Import ZArith Lia Bool Ascii String List.
From Stdlib Require Import DecimalString Floats.SpecFloat.
From Stdlib Require Import Sorting.Sorted Sorting.Permutation.
From stdpp Require Import gmap strings list sorting.

Local Open Scope Z_scope.

(** ** Python text

    A Python [str] is modelled by [string], one [ascii] per code point, so the
    model covers the code points below 256 (ASCII and Latin-1). *)

Module Text.

Definition backslash : ascii := "092"%char.

Fixpoint starts_with (t s : string) : bool :=
  match t, s with
  | EmptyString, _ => true
  | String _ _, EmptyString => false
  | String a t', String b s' => Ascii.eqb a b && starts_with t' s'
  end.

(** [contains t s] is Python's [t in s]. *)
Fixpoint contains (t s : string) : bool :=
  starts_with t s ||
  match s with
  | EmptyString => false
  | String _ s' => contains t s'
  end.

Fixpoint has_char (c : ascii) (s : string) : bool :=
  match s with
  | EmptyString => false
  | String a s' => Ascii.eqb c a || has_char c s'
  end.

Fixpoint skip (n : nat) (s : string) : string :=
  match n, s with
  | O, _ => s
  | S _, EmptyString => EmptyString
  | S k, String _ s' => skip k s'
  end.

(** Every non-overlapping occurrence of the non-empty text [t] in [s],
    leftmost first, is replaced by [r].  [pending] counts the characters of
    the current occurrence that remain to be consumed. *)
Fixpoint replace_from (t r : string) (pending : nat) (s : string) : string :=
  match s with
  | EmptyString => EmptyString
  | String c s' =>
      match pending with
      | S k => replace_from t r k s'
      | O =>
          if starts_with t s
          then r +:+ replace_from t r (String.length t - 1) s'
          else String c (replace_from t r 0 s')
      end
  end.

Definition replace_all (t r s : string) : string := replace_from t r 0 s.

Fixpoint concat (l : list string) : string :=
  match l with
  | [] => EmptyString
  | x :: l' => x +:+ concat l'
  end.

(** Every character of [s] satisfies [p]. *)
Fixpoint all_chars (p : ascii -> bool) (s : string) : bool :=
  match s with
  | EmptyString => true
  | String a s' => p a && all_chars p s'
  end.

End Text.

(** ** The Python runtime, as far as the script uses it *)

Inductive exn : Type :=
| FileExistsError (path : string)
| FileNotFoundError (msg : string)
| NotADirectoryError (path : string)
| IsADirectoryError (path : string)
| PermissionError (msg : string)
| TypeError (msg : string)
| OverflowError (msg : string)
| ReError (msg : string)
| RuntimeError (msg : string)
| Exception (msg : string).

Inductive result (A : Type) : Type :=
| Ok (a : A)
| Raise (e : exn).

Arguments Ok {A} a.
Arguments Raise {A} e.

Definition rbind {A B} (r : result A) (k : A -> result B) : result B :=
  match r with
  | Ok a => k a
  | Raise e => Raise e
  end.

Declare Scope result_scope.
Delimit Scope result_scope with result.
Notation "'do' x <- r ; k" := (rbind r (fun x => k))
  (at level 10, x name, r at level 100, k at level 200) : result_scope.

Module Py.
Import Text.

(** *** [str] methods *)

(** [str.isspace] on one code point: the Unicode white space below 256. *)
Definition isspace (c : ascii) : bool :=
  let n := N_of_ascii c in
  ((9 <=? n) && (n <=? 13) || (28 <=? n) && (n <=? 32)
   || (n =? 133) || (n =? 160))%N.

(** [str.lower] on one code point: the cased letters below 256. *)
Definition lower_char (c : ascii) : ascii :=
  let n := N_of_ascii c in
  if ((65 <=? n) && (n <=? 90)
      || (192 <=? n) && (n <=? 222) && negb (n =? 215))%N
  then ascii_of_N (n + 32)
  else c.

Fixpoint lower (s : string) : string :=
  match s with
  | EmptyString => EmptyString
  | String c s' => String (lower_char c) (lower s')
  end.

Fixpoint lstrip (s : string) : string :=
  match s with
  | EmptyString => EmptyString
  | String c s' => if isspace c then lstrip s' else s
  end.

Fixpoint rstrip (s : string) : string :=
  match s with
  | EmptyString => EmptyString
  | String c s' =>
      match rstrip s' with
      | EmptyString => if isspace c then EmptyString else String c EmptyString
      | t => String c t
      end
  end.

(** [s.strip()] *)
Definition strip (s : string) : string := rstrip (lstrip s).

(** [s.split(sep)] for a one-character separator. *)
Fixpoint split (sep : ascii) (s : string) : list string :=
  match s with
  | EmptyString => [EmptyString]
  | String c s' =>
      if Ascii.eqb c sep then EmptyString :: split sep s'
      else match split sep s' with
           | [] => [String c EmptyString]
           | w :: ws => String c w :: ws
           end
  end.

(** *** Numbers and their formatting *)

(** The decimal digits of a natural number, most significant first. *)
Definition digits (n : N) : string :=
  DecimalString.NilZero.string_of_uint (N.to_uint n).

(** [str(z)] for an [int]. *)
Definition str_int (z : Z) : string :=
  (if z <? 0 then "-" else "") +:+ digits (Z.abs_N z).

(** A comma before every digit that is followed by a positive multiple of
    three digits. *)
Fixpoint group3 (s : string) : string :=
  match s with
  | EmptyString => EmptyString
  | String c s' =>
      let n := String.length s' in
      String c (if (0 <? n)%nat && (n mod 3 =? 0)%nat
                then String "," (group3 s') else group3 s')
  end.

(** [f"{z:,}"] for an [int]. *)
Definition format_comma (z : Z) : string :=
  (if z <? 0 then "-" else "") +:+ group3 (digits (Z.abs_N z)).

(** The values [data.get("prop", 0)] yields: the [int] default or the
    stored [float] (IEEE binary64, as [spec_float]). *)
Inductive number : Type :=
| PyInt (z : Z)
| PyFloat (f : spec_float).

(** [float(z)]: round to nearest even at 53 bits; too large an [int] raises. *)
Definition float_of_int (z : Z) : result spec_float :=
  match binary_normalize 53 1024 z 0 false with
  | S754_infinity _ => Raise (OverflowError "int too large to convert to float")
  | f => Ok f
  end.

(** The integer nearest to [m * 2^e * 10^p], ties to even. *)
Definition scaled_round (p : nat) (m : positive) (e : Z) : Z :=
  let n := Z.pos m * 10 ^ Z.of_nat p in
  if 0 <=? e then n * 2 ^ e
  else
    let d := 2 ^ (- e) in
    let q := n / d in
    let r := n mod d in
    match 2 * r ?= d with
    | Lt => q
    | Gt => q + 1
    | Eq => if Z.even q then q else q + 1
    end.

Fixpoint zeros (n : nat) : string :=
  match n with
  | O => EmptyString
  | S k => String "0" (zeros k)
  end.

(** The digits [ds] of a scaled integer with the decimal point [p] places
    from the right, zero-padded on the left to at least one integer digit. *)
Definition place_point (p : nat) (ds : string) : string :=
  let ds := zeros (S p - String.length ds) +:+ ds in
  let k := (String.length ds - p)%nat in
  match p with
  | O => ds
  | S _ => String.substring 0 k ds +:+ "." +:+ skip k ds
  end.

(** [format(f, ".pf")] for a [float]. *)
Definition format_float_f (p : nat) (f : spec_float) : string :=
  match f with
  | S754_nan => "nan"
  | S754_infinity s => (if s then "-" else "") +:+ "inf"
  | S754_zero s => (if s then "-" else "") +:+ place_point p "0"
  | S754_finite s m e =>
      (if s then "-" else "")
        +:+ place_point p (digits (Z.to_N (scaled_round p m e)))
  end.

(** [format(v, ".pf")]: an [int] is converted to [float] first. *)
Definition format_f (p : nat) (v : number) : result string :=
  match v with
  | PyFloat f => Ok (format_float_f p f)
  | PyInt z => (do f <- float_of_int z; Ok (format_float_f p f))%result
  end.

(** *** [sorted]

    [sorted(xs, key=key, reverse=reverse)] is a stable sort that compares
    keys with [<] only, a comparison that may raise.  It is modelled by the
    insertion sort of the list from its right end: an element goes before
    the first element of the sorted rest that is not smaller.  With
    [reverse=True] the list is reversed, sorted and reversed again, which is
    how the runtime keeps equal keys in their original order. *)

Section Sorted.
Context {A K : Type}.
Variable lt : K -> K -> result bool.
Variable key : A -> K.

Fixpoint insert (x : A) (l : list A) : result (list A) :=
  match l with
  | [] => Ok [x]
  | y :: l' =>
      (do b <- lt (key y) (key x);
       if b then (do r <- insert x l'; Ok (y :: r)) else Ok (x :: y :: l'))%result
  end.

Fixpoint sort (l : list A) : result (list A) :=
  match l with
  | [] => Ok []
  | x :: l' => (do s <- sort l'; insert x s)%result
  end.

Definition sorted (reverse : bool) (l : list A) : result (list A) :=
  if reverse then (do s <- sort (rev l); Ok (rev s))%result else sort l.
End Sorted.

(** [a < b] on the values [data.get("size")] yields: an [int], or [None]
    when the key is missing.  [None] supports no ordering. *)
Definition lt_size (a b : option Z) : result bool :=
  match a, b with
  | Some x, Some y => Ok (x <? y)
  | None, None =>
      Raise (TypeError "'<' not supported between instances of 'NoneType' and 'NoneType'")
  | None, Some _ =>
      Raise (TypeError "'<' not supported between instances of 'NoneType' and 'int'")
  | Some _, None =>
      Raise (TypeError "'<' not supported between instances of 'int' and 'NoneType'")
  end.

(** *** [re.sub]

    Every pattern the script passes to [re.sub] is a literal text: a brace
    that opens no [{m,n}] quantifier stands for itself, as do the letters,
    the blank, the underscore and the closing brace.  So [re.sub(pat, repl,
    s)] replaces the non-overlapping occurrences of [pat], leftmost first.
    A replacement without backslash is used as it is; one with a backslash
    goes through the replacement-template parser of [re], which is left
    abstract: [template repl m] is the expansion of [repl] for the matched
    text [m], or the error of the parser. *)

Section ReSub.
Variable template : string -> string -> result string.

Definition re_sub (pat repl s : string) : result string :=
  if has_char backslash repl
  then (do r <- template repl pat; Ok (replace_all pat r s))%result
  else Ok (replace_all pat repl s).
End ReSub.

End Py.

(** ** The statistics provider

    The class [Stats] lives in the module [github_stats], outside this
    script; the script only reads its accessors.  A [Stats] value below is
    what the accessors of one run return. *)

(** One value of the language mapping: a [dict] in which each of the keys
    the script reads may be missing; a present ["color"] may be [None]. *)
Record lang_data : Type := {
  size : option Z;
  color : option (option string);
  prop : option spec_float
}.

Record Stats : Type := {
  name : string;
  stargazers : Z;
  forks : Z;
  total_contributions : Z;
  lines_changed : Z * Z;
  views : Z;
  repos : gset string;
  (** a [dict], in its iteration order *)
  languages : list (string * lang_data)
}.

(** The arguments of the [Stats] constructor, the session apart. *)
Record stats_config : Type := {
  cfg_username : string;
  cfg_access_token : string;
  cfg_exclude_repos : option (gset string);
  cfg_exclude_langs : option (gset string);
  cfg_ignore_forked_repos : bool
}.

(** ** The process and its surroundings *)

Module World.

Inductive who : Type := Owner | Group | Other.
Inductive perm : Type := R_OK | W_OK | X_OK.

Inductive node : Type :=
| Dir (mode : Z) (cls : who)
| File (mode : Z) (cls : who) (data : string).

Definition node_mode (n : node) : Z :=
  match n with Dir m _ | File m _ _ => m end.
Definition node_cls (n : node) : who :=
  match n with Dir _ c | File _ c _ => c end.
Definition set_mode (m : Z) (n : node) : node :=
  match n with Dir _ c => Dir m c | File _ c d => File m c d end.

Inductive event : Type :=
| EvPrint (msg : string)
| EvSessionOpen
| EvStatsNew (cfg : stats_config)
| EvSessionClose.

(** The file system holds the entries of the working directory and of its
    sub-directories, keyed by relative path; [cls] says which permission
    triple of an entry applies to the process. *)
Record world : Type := {
  fs : gmap string node;
  cwd_mode : Z;
  cwd_cls : who;
  is_root : bool;
  umask : Z;
  env : gmap string string;
  log : list event
}.

Definition with_fs (f : gmap string node) (w : world) : world :=
  {| fs := f; cwd_mode := cwd_mode w; cwd_cls := cwd_cls w;
     is_root := is_root w; umask := umask w; env := env w; log := log w |}.

Definition with_log (l : list event) (w : world) : world :=
  {| fs := fs w; cwd_mode := cwd_mode w; cwd_cls := cwd_cls w;
     is_root := is_root w; umask := umask w; env := env w; log := l |}.

Definition with_env (e : gmap string string) (w : world) : world :=
  {| fs := fs w; cwd_mode := cwd_mode w; cwd_cls := cwd_cls w;
     is_root := is_root w; umask := umask w; env := e; log := log w |}.

(** Effectful code: a state transformer that may raise. *)
Definition M (A : Type) : Type := world -> world * result A.

Definition ret {A} (a : A) : M A := fun w => (w, Ok a).
Definition raise {A} (e : exn) : M A := fun w => (w, Raise e).
Definition bind {A B} (m : M A) (k : A -> M B) : M B :=
  fun w =>
    match m w with
    | (w', Ok a) => k a w'
    | (w', Raise e) => (w', Raise e)
    end.
Definition lift {A} (r : result A) : M A := fun w => (w, r).

Declare Scope M_scope.
Delimit Scope M_scope with M.
Notation "'do' x <- m ; k" := (bind m (fun x => k))
  (at level 10, x name, m at level 100, k at level 200) : M_scope.
Notation "m ;; k" := (bind m (fun _ => k))
  (at level 100, k at level 200, right associativity) : M_scope.

(** *** Permissions *)

Definition perm_bit (c : who) (p : perm) : Z :=
  (match c with Owner => 6 | Group => 3 | Other => 0 end)
  + (match p with R_OK => 2 | W_OK => 1 | X_OK => 0 end).

Definition may (w : world) (mode : Z) (c : who) (p : perm) : bool :=
  is_root w || Z.testbit mode (perm_bit c p).

(** *** Paths: a name in the working directory, or [dir/name] *)

Inductive errno : Type := ENOENT | EACCES | ENOTDIR | EEXIST | EISDIR | EPERM.

Definition os_error (e : errno) (path : string) : exn :=
  match e with
  | ENOENT => FileNotFoundError path
  | EACCES | EPERM => PermissionError path
  | ENOTDIR => NotADirectoryError path
  | EEXIST => FileExistsError path
  | EISDIR => IsADirectoryError path
  end.

(** The text before the last ["/"] of a path, when there is one. *)
Fixpoint dirname (p : string) : option string :=
  match p with
  | EmptyString => None
  | String c p' =>
      match dirname p' with
      | Some d => Some (String c d)
      | None => if Ascii.eqb c "/" then Some EmptyString else None
      end
  end.

(** The directory that holds [p], checked for search permission: [None] is
    the working directory. *)
Definition parent (w : world) (p : string) : errno + option string :=
  if negb (may w (cwd_mode w) (cwd_cls w) X_OK) then inl EACCES
  else
    match dirname p with
    | None => inr None
    | Some d =>
        match fs w !! d with
        | None => inl ENOENT
        | Some (File _ _ _) => inl ENOTDIR
        | Some (Dir m c) => if may w m c X_OK then inr (Some d) else inl EACCES
        end
    end.

Definition parent_writable (w : world) (d : option string) : bool :=
  match d with
  | None => may w (cwd_mode w) (cwd_cls w) W_OK
  | Some d =>
      match fs w !! d with
      | Some (Dir m c) => may w m c W_OK
      | _ => false
      end
  end.

Definition stat (w : world) (p : string) : errno + node :=
  match parent w p with
  | inl e => inl e
  | inr _ =>
      match fs w !! p with
      | Some n => inr n
      | None => inl ENOENT
      end
  end.

(** *** The [os] functions and the built-ins the script calls *)

Definition os_path_isdir (p : string) : M bool :=
  fun w => (w, Ok match stat w p with inr (Dir _ _) => true | _ => false end).

Definition os_path_isfile (p : string) : M bool :=
  fun w => (w, Ok match stat w p with inr (File _ _ _) => true | _ => false end).

Definition os_access (p : string) (a : perm) : M bool :=
  fun w =>
    (w, Ok match stat w p with
           | inr n => may w (node_mode n) (node_cls n) a
           | inl _ => false
           end).

(** [os.mkdir(p)]: the new directory gets mode [0o777 & ~umask]. *)
Definition os_mkdir (p : string) : M unit :=
  fun w =>
    match parent w p with
    | inl e => (w, Raise (os_error e p))
    | inr d =>
        match fs w !! p with
        | Some _ => (w, Raise (os_error EEXIST p))
        | None =>
            if parent_writable w d
            then (with_fs (<[p := Dir (Z.land 511 (Z.lnot (umask w))) Owner]> (fs w)) w,
                  Ok tt)
            else (w, Raise (os_error EACCES p))
        end
    end.

(** [os.chmod(p, mode)]: for the owner of [p] and for root. *)
Definition os_chmod (p : string) (mode : Z) : M unit :=
  fun w =>
    match stat w p with
    | inl e => (w, Raise (os_error e p))
    | inr n =>
        if is_root w || match node_cls n with Owner => true | _ => false end
        then (with_fs (<[p := set_mode mode n]> (fs w)) w, Ok tt)
        else (w, Raise (os_error EPERM p))
    end.

Definition os_getenv (k : string) : M (option string) :=
  fun w => (w, Ok (env w !! k)).

Definition print (msg : string) : M unit :=
  fun w => (with_log (log w ++ [EvPrint msg]) w, Ok tt).

Definition emit (e : event) : M unit :=
  fun w => (with_log (log w ++ [e]) w, Ok tt).

(** [with open(p, "r") as f: f.read()] *)
Definition read_file (p : string) : M string :=
  fun w =>
    match stat w p with
    | inl e => (w, Raise (os_error e p))
    | inr (Dir _ _) => (w, Raise (os_error EISDIR p))
    | inr (File m c d) =>
        if may w m c R_OK then (w, Ok d) else (w, Raise (os_error EACCES p))
    end.

(** [open(p, "w")] followed by [f.write(data)]: the file is created with
    mode [0o666 & ~umask], or truncated and rewritten. *)
Definition write_file (p data : string) : M unit :=
  fun w =>
    match parent w p with
    | inl e => (w, Raise (os_error e p))
    | inr d =>
        match fs w !! p with
        | Some (Dir _ _) => (w, Raise (os_error EISDIR p))
        | Some (File m c _) =>
            if may w m c W_OK
            then (with_fs (<[p := File m c data]> (fs w)) w, Ok tt)
            else (w, Raise (os_error EACCES p))
        | None =>
            if parent_writable w d
            then (with_fs (<[p := File (Z.land 438 (Z.lnot (umask w))) Owner data]> (fs w)) w,
                  Ok tt)
            else (w, Raise (os_error EACCES p))
        end
    end.

End World.

(** ** The script [generate_images.py] *)

Module Script.
Import Text Py World.

(** The double quote and the line feed, for the markup the script emits. *)
Definition dq : string := String (ascii_of_nat 34) EmptyString.
Definition nl : string := String (ascii_of_nat 10) EmptyString.

(** Truth value of an [Optional[str]]: [None] and the empty text are false. *)
Definition truthy (o : option string) : bool :=
  match o with
  | None | Some EmptyString => false
  | Some (String _ _) => true
  end.

(** *** Helper functions *)

Definition generate_output_folder : M unit :=
  (do there <- os_path_isdir "generated";
   if negb there then
     os_mkdir "generated" ;;
     os_chmod "generated" 511 (* 0o777 *) ;;
     print "Created directory: generated with permissions 777"
   else
     print "Directory already exists: generated")%M.

Definition check_permissions : M unit :=
  (do d <- os_path_isdir "templates";
   if negb d then
     raise (FileNotFoundError "The 'templates' directory does not exist")
   else
   do f1 <- os_path_isfile "templates/overview.svg";
   if negb f1 then
     raise (FileNotFoundError "The file 'templates/overview.svg' does not exist")
   else
   do f2 <- os_path_isfile "templates/languages.svg";
   if negb f2 then
     raise (FileNotFoundError "The file 'templates/languages.svg' does not exist")
   else
   do r1 <- os_access "templates/overview.svg" R_OK;
   if negb r1 then raise (PermissionError "Cannot read 'templates/overview.svg'")
   else
   do r2 <- os_access "templates/languages.svg" R_OK;
   if negb r2 then raise (PermissionError "Cannot read 'templates/languages.svg'")
   else
   do g <- os_access "generated" W_OK;
   if negb g then raise (PermissionError "Cannot write to 'generated' directory")
   else ret tt)%M.

Section Rendering.
(** The replacement-template parser of [re] (see [Py.re_sub]). *)
Variable template : string -> string -> result string.

(** *** Individual image generation functions *)

(** [generate_overview], the substitutions (the seven [re.sub] calls). *)
Definition overview_text (s : Stats) (output : string) : result string :=
  (do output <- re_sub template "{{ name }}" (name s) output;
   do output <- re_sub template "{{ stars }}" (format_comma (stargazers s)) output;
   do output <- re_sub template "{{ forks }}" (format_comma (forks s)) output;
   do output <- re_sub template "{{ contributions }}"
                  (format_comma (total_contributions s)) output;
   let changed := fst (lines_changed s) + snd (lines_changed s) in
   do output <- re_sub template "{{ lines_changed }}" (format_comma changed) output;
   do output <- re_sub template "{{ views }}" (format_comma (views s)) output;
   re_sub template "{{ repos }}"
     (format_comma (Z.of_nat (base.size (repos s)))) output)%result.

Definition generate_overview (s : Stats) : M unit :=
  (do output <- read_file "templates/overview.svg";
   do output <- lift (overview_text s output);
   generate_output_folder ;;
   write_file "generated/overview.svg" output ;;
   print "Generated file: generated/overview.svg")%M.

(** [data.get("color")], then the fallback. *)
Definition resolve_color (data : lang_data) : string :=
  match color data with
  | Some (Some c) => c
  | Some None | None => "#000000"
  end.

(** [data.get("prop", 0)] *)
Definition get_prop (data : lang_data) : number :=
  match prop data with
  | Some p => PyFloat p
  | None => PyInt 0
  end.

Definition delay_between : Z := 150.

(** The first f-string of the loop, by its two interpolated texts. *)
Definition progress_markup (color width : string) : string :=
  "<span style=" +:+ dq +:+ "background-color: " +:+ color +:+ ";"
  +:+ "width: " +:+ width +:+ "%;" +:+ dq +:+ " "
  +:+ "class=" +:+ dq +:+ "progress-item" +:+ dq +:+ "></span>".

(** The second f-string of the loop, by its four interpolated texts. *)
Definition item_markup (delay color lang percent : string) : string :=
  nl
  +:+ "<li style=" +:+ dq +:+ "animation-delay: " +:+ delay +:+ "ms;" +:+ dq +:+ ">" +:+ nl
  +:+ "<svg xmlns=" +:+ dq +:+ "http://www.w3.org/2000/svg" +:+ dq
  +:+ " class=" +:+ dq +:+ "octicon" +:+ dq
  +:+ " style=" +:+ dq +:+ "fill:" +:+ color +:+ ";" +:+ dq +:+ nl
  +:+ "viewBox=" +:+ dq +:+ "0 0 16 16" +:+ dq
  +:+ " version=" +:+ dq +:+ "1.1" +:+ dq
  +:+ " width=" +:+ dq +:+ "16" +:+ dq
  +:+ " height=" +:+ dq +:+ "16" +:+ dq +:+ "><path" +:+ nl
  +:+ "fill-rule=" +:+ dq +:+ "evenodd" +:+ dq
  +:+ " d=" +:+ dq +:+ "M8 4a4 4 0 100 8 4 4 0 000-8z" +:+ dq
  +:+ "></path></svg>" +:+ nl
  +:+ "<span class=" +:+ dq +:+ "lang" +:+ dq +:+ ">" +:+ lang +:+ "</span>" +:+ nl
  +:+ "<span class=" +:+ dq +:+ "percent" +:+ dq +:+ ">" +:+ percent +:+ "%</span>" +:+ nl
  +:+ "</li>" +:+ nl +:+ nl.

(** The text one iteration appends to [progress]. *)
Definition progress_item (data : lang_data) : result string :=
  (do width <- format_f 3 (get_prop data);
   Ok (progress_markup (resolve_color data) width))%result.

(** The text one iteration appends to [lang_list]. *)
Definition lang_item (i : Z) (lang : string) (data : lang_data) : result string :=
  (do percent <- format_f 2 (get_prop data);
   Ok (item_markup (str_int (i * delay_between)) (resolve_color data) lang percent))%result.

(** The loop over [enumerate(sorted_languages)], from index [i] on. *)
Fixpoint render_loop (i : Z) (l : list (string * lang_data))
    (progress lang_list : string) : result (string * string) :=
  match l with
  | [] => Ok (progress, lang_list)
  | (lang, data) :: l' =>
      (do seg <- progress_item data;
       do item <- lang_item i lang data;
       render_loop (i + 1) l' (progress +:+ seg) (lang_list +:+ item))%result
  end.

Definition sorted_languages (s : Stats) : result (list (string * lang_data)) :=
  sorted lt_size (fun t : string * lang_data => size (snd t)) true (languages s).

(** [generate_languages], from the sort to the two [re.sub] calls. *)
Definition languages_text (s : Stats) (output : string) : result string :=
  (do sl <- sorted_languages s;
   do frags <- render_loop 0 sl "" "";
   do output <- re_sub template "{{ progress }}" (fst frags) output;
   re_sub template "{{ lang_list }}" (snd frags) output)%result.

Definition generate_languages (s : Stats) : M unit :=
  (do output <- read_file "templates/languages.svg";
   do output <- lift (languages_text s output);
   generate_output_folder ;;
   write_file "generated/languages.svg" output ;;
   print "Generated file: generated/languages.svg")%M.

(** *** Main function *)

(** The provider: what the accessors of [Stats(...)] return in this run. *)
Variable fetch : stats_config -> Stats.

(** [{x.strip() for x in v.split(",")} if v else None] *)
Definition parse_set (v : option string) : option (gset string) :=
  match v with
  | Some (String c v') => Some (list_to_set (map strip (split "," (String c v'))))
  | Some EmptyString | None => None
  end.

(** [not not raw and raw.strip().lower() != "false"] *)
Definition ignore_forked_repos (raw : option string) : bool :=
  truthy raw &&
  match raw with
  | Some r => negb (String.eqb (lower (strip r)) "false")
  | None => false
  end.

(** [asyncio.gather(a, b)] when no accessor suspends: [a] runs to its end,
    then [b]; the first failure, in that order, is the one raised. *)
Definition gather (a b : M unit) : M unit :=
  fun w =>
    let (w1, r1) := a w in
    let (w2, r2) := b w1 in
    (w2, match r1 with Raise e => Raise e | Ok _ => r2 end).

(** [async with aiohttp.ClientSession() as session: body] *)
Definition with_session (body : M unit) : M unit :=
  fun w =>
    let (w1, _) := emit EvSessionOpen w in
    let (w2, r) := body w1 in
    let (w3, _) := emit EvSessionClose w2 in
    (w3, r).

Definition main : M unit :=
  (generate_output_folder ;;
   check_permissions ;;
   do access_token <- os_getenv "ACCESS_TOKEN";
   if negb (truthy access_token) then
     raise (Exception "A personal access token is required to proceed!")
   else
   do user <- os_getenv "GITHUB_ACTOR";
   match user with
   | None => raise (RuntimeError "Environment variable GITHUB_ACTOR must be set.")
   | Some user =>
       do exclude_repos <- os_getenv "EXCLUDED";
       let excluded_repos := parse_set exclude_repos in
       do exclude_langs <- os_getenv "EXCLUDED_LANGS";
       let excluded_langs := parse_set exclude_langs in
       do raw_ignore_forked_repos <- os_getenv "EXCLUDE_FORKED_REPOS";
       let cfg :=
         {| cfg_username := user;
            cfg_access_token := default "" access_token;
            cfg_exclude_repos := excluded_repos;
            cfg_exclude_langs := excluded_langs;
            cfg_ignore_forked_repos := ignore_forked_repos raw_ignore_forked_repos |} in
       with_session
         (emit (EvStatsNew cfg) ;;
          let s := fetch cfg in
          gather (generate_languages s) (generate_overview s))
   end)%M.

End Rendering.
End Script.

(** ** Vocabulary of the properties *)

Module Spec.
Import Text Py.

(** [c] is the letter [l] in lower or in upper case. *)
Definition letter (l u c : ascii) : Prop := c = l \/ c = u.

(** [s] is the word "false" in some letter case. *)
Definition spells_false (s : string) : Prop :=
  exists c1 c2 c3 c4 c5,
    s = String c1 (String c2 (String c3 (String c4 (String c5 ""))))
    /\ letter "f" "F" c1 /\ letter "a" "A" c2 /\ letter "l" "L" c3
    /\ letter "s" "S" c4 /\ letter "e" "E" c5.

(** Equality of two texts up to letter case. *)
Definition equal_ignoring_case (a b : string) : bool :=
  String.eqb (lower a) (lower b).

(** The flag as the specification words it: present, non-empty and not
    equal to "false" up to letter case. *)
Definition flag_as_specified (raw : option string) : bool :=
  match raw with
  | None => false
  | Some r => negb (String.eqb r "") && negb (equal_ignoring_case r "false")
  end.

(** *** Sorting *)

(** An entry has a key; its key as a number; its key is [v]. *)
Definition keyed {A} (key : A -> option Z) (x : A) : Prop := key x <> None.

Definition rank {A} (key : A -> option Z) (x : A) : Z := default 0 (key x).

Definition has_key {A} (key : A -> option Z) (v : Z) (x : A) : bool :=
  match key x with
  | Some k => k =? v
  | None => false
  end.

(** The size of a language entry, for the entries that have one. *)
Definition entry_size (t : string * lang_data) : Z := default 0 (size (snd t)).

(** The entry has the size [v]. *)
Definition has_size (v : Z) (t : string * lang_data) : bool :=
  match size (snd t) with
  | Some k => k =? v
  | None => false
  end.

(** The text [format(data.get("prop", 0), ".pf")] gives. *)
Definition prop_text (p : nat) (data : lang_data) : string :=
  match prop data with
  | Some f => format_float_f p f
  | None => format_float_f p (S754_zero false)
  end.

(** *** Formatted numbers *)

Definition is_digit (c : ascii) : bool := has_char c "0123456789".

(** The characters of a number written with thousands separators. *)
Definition numeric_char (c : ascii) : bool := has_char c "0123456789,-".

Fixpoint without_commas (s : string) : string :=
  match s with
  | EmptyString => EmptyString
  | String c s' =>
      if Ascii.eqb c "," then without_commas s' else String c (without_commas s')
  end.

(** Groups of three characters, the first group apart, which holds one, two
    or three. *)
Definition grouped_in_threes (groups : list string) : Prop :=
  match groups with
  | [] => False
  | g :: rest =>
      (1 <= String.length g <= 3)%nat
      /\ Forall (fun h => String.length h = 3%nat) rest
  end.

(** *** Placeholders *)

Definition overview_tokens : list string :=
  ["{{ name }}"; "{{ stars }}"; "{{ forks }}"; "{{ contributions }}";
   "{{ lines_changed }}"; "{{ views }}"; "{{ repos }}"].

Definition numeric_tokens : list string :=
  ["{{ stars }}"; "{{ forks }}"; "{{ contributions }}";
   "{{ lines_changed }}"; "{{ views }}"; "{{ repos }}"].

Definition languages_tokens : list string :=
  ["{{ progress }}"; "{{ lang_list }}"].

(** A placeholder: two opening braces, then a text without opening brace
    that is not empty. *)
Definition is_token (t : string) : bool :=
  match t with
  | String a (String b (String c body)) =>
      Ascii.eqb a "{" && Ascii.eqb b "{"
      && negb (Ascii.eqb c "{") && negb (has_char "{" body)
  | _ => false
  end.

(** In [s], every pair of opening braces begins one of the [tokens]. *)
Fixpoint guarded (tokens : list string) (s : string) : bool :=
  match s with
  | EmptyString => true
  | String _ s' =>
      (if starts_with "{{" s then existsb (fun t => starts_with t s) tokens else true)
      && guarded tokens s'
  end.

(** None of the [tokens] occurs in [s]. *)
Definition free_of (tokens : list string) (s : string) : bool :=
  forallb (fun t => negb (contains t s)) tokens.

(** The substitutions [pairs], each a placeholder and its replacement,
    applied in order, each to every occurrence of its placeholder. *)
Definition substitute (pairs : list (string * string)) (s : string) : string :=
  fold_left (fun acc pr => replace_all (fst pr) (snd pr) acc) pairs s.

(** The placeholders of the overview badge with their values. *)
Definition overview_values (s : Stats) : list (string * string) :=
  [("{{ name }}", name s);
   ("{{ stars }}", format_comma (stargazers s));
   ("{{ forks }}", format_comma (forks s));
   ("{{ contributions }}", format_comma (total_contributions s));
   ("{{ lines_changed }}",
    format_comma (fst (lines_changed s) + snd (lines_changed s)));
   ("{{ views }}", format_comma (views s));
   ("{{ repos }}", format_comma (Z.of_nat (base.size (repos s))))].

(** The placeholders of the languages badge with the two fragments. *)
Definition languages_values (frags : string * string) : list (string * string) :=
  [("{{ progress }}", fst frags); ("{{ lang_list }}", snd frags)].

(** A text a replacement may hold without being reread: no opening brace,
    no backslash. *)
Definition plain_char (c : ascii) : bool :=
  negb (Ascii.eqb c "{") && negb (Ascii.eqb c backslash).

Definition plain (s : string) : bool := all_chars plain_char s.

(** *** Effects *)

(** [w'] differs from [w] by messages on standard output and at most by
    the entry ["generated"] of the file system. *)
Definition quiet (w w' : World.world) : Prop :=
  World.env w' = World.env w
  /\ (exists msgs, World.log w' = World.log w ++ map World.EvPrint msgs)
  /\ (forall p, p <> "generated" -> World.fs w' !! p = World.fs w !! p).

(** The log of [w'] continues the log of [w]. *)
Definition extends (w w' : World.world) : Prop :=
  exists l, World.log w' = World.log w ++ l.

Definition log_grows {A} (m : World.M A) : Prop := forall w, extends w (m w).1.

(** Code that does not read the environment. *)
Definition env_blind {A} (m : World.M A) : Prop :=
  forall e w, m (World.with_env e w) = (World.with_env e (m w).1, (m w).2).

End Spec.

(** Concrete states and snapshots, for the examples. *)
Module Examples.
Import World.

(** An unprivileged process in a directory of its own, mode 755. *)
Definition world_of (files : gmap string node) (vars : gmap string string) : world :=
  {| fs := files; cwd_mode := 493; cwd_cls := Owner; is_root := false;
     umask := 18; env := vars; log := [] |}.

Definition fresh_world : world := world_of ∅ ∅.

(** ["generated"] is already there, with mode 755. *)
Definition world_with_folder : world :=
  world_of {[ "generated" := Dir 493 Owner ]} ∅.

Definition templates : gmap string node :=
  {[ "templates" := Dir 493 Owner;
     "templates/overview.svg" := File 420 Owner "<text>{{ name }}: {{ stars }}</text>";
     "templates/languages.svg" := File 420 Owner "<ul>{{ lang_list }}</ul>" ]}.

Definition no_template (repl m : string) : result string :=
  Raise (ReError "bad escape").

(** A user whose display name is the text of a placeholder. *)
Definition placeholder_name : Stats :=
  {| name := "{{ name }}"; stargazers := 7; forks := 0; total_contributions := 0;
     lines_changed := (0, 0); views := 0; repos := ∅; languages := [] |}.

(** A user whose display name is one letter. *)
Definition letter_a : Stats :=
  {| name := "a"; stargazers := 7; forks := 0; total_contributions := 0;
     lines_changed := (0, 0); views := 0; repos := ∅; languages := [] |}.

Definition nobody : Stats :=
  {| name := "nobody"; stargazers := 0; forks := 0; total_contributions := 0;
     lines_changed := (0, 0); views := 0; repos := ∅; languages := [] |}.

(** An entry with nothing but a size, and one with nothing but a color. *)
Definition bare : lang_data := {| size := Some 1; color := None; prop := None |}.

Definition python : lang_data :=
  {| size := Some 1; color := Some (Some "#3572A5"); prop := None |}.

Definition colorless : lang_data :=
  {| size := Some 1; color := Some None; prop := Some (S754_finite false 25 (-1)) |}.



Definition octocat : Stats :=
  {| name := "The Octocat"; stargazers := 1234; forks := 56;
     total_contributions := 7890; lines_changed := (1000000, 234567);
     views := 12; repos := {[ "hello-world" ]};
     languages := [("Python", python); ("Rust", colorless)] |}.

Definition lang (sz : Z) : lang_data :=
  {| size := Some sz; color := None; prop := None |}.

(** Two languages tied at 500 and a third at 100, in three iteration orders. *)
Definition tied (a b c : string * lang_data) : Stats :=
  {| name := "nobody"; stargazers := 0; forks := 0; total_contributions := 0;
     lines_changed := (0, 0); views := 0; repos := ∅; languages := [a; b; c] |}.

End Examples.

(** ** Further vocabulary: the renderers and the run as a whole *)

Module Props.
Import Text Py World Script.

(** The shape the two renderers share: read the template, substitute,
    prepare the folder, write the badge, report. *)
Definition render (template_path output_path : string)
    (text : string -> result string) (msg : string) : M unit :=
  (do output <- read_file template_path;
   do output <- lift (text output);
   generate_output_folder ;;
   write_file output_path output ;;
   print msg)%M.

(** The attributes of the process, which no step changes. *)
Definition same_process (w w' : world) : Prop :=
  cwd_mode w' = cwd_mode w /\ cwd_cls w' = cwd_cls w
  /\ is_root w' = is_root w /\ umask w' = umask w /\ env w' = env w.

(** [w'] has the log of [w] followed by messages on standard output. *)
Definition printed (w w' : world) : Prop :=
  exists msgs, log w' = log w ++ map EvPrint msgs.

(** The bar segment of one entry and the list item of the entry at index
    [k], as the loop of [generate_languages] emits them. *)
Definition segment_of (t : string * lang_data) : string :=
  progress_markup (resolve_color (snd t)) (Spec.prop_text 3 (snd t)).

Definition item_of (k : Z) (t : string * lang_data) : string :=
  item_markup (str_int (k * 150)) (resolve_color (snd t)) (fst t)
    (Spec.prop_text 2 (snd t)).

(** The value of the first pair of [pairs] whose placeholder is [t]. *)
Fixpoint value_of (t : string) (pairs : list (string * string)) : option string :=
  match pairs with
  | [] => None
  | (u, r) :: rest => if String.eqb u t then Some r else value_of t rest
  end.

(** [sep.join(l)] for a one-character separator. *)
Fixpoint join (sep : ascii) (l : list string) : string :=
  match l with
  | [] => EmptyString
  | [x] => x
  | x :: rest => x +:+ String sep (join sep rest)
  end.

(** A text that does not begin with white space. *)
Definition left_trimmed (s : string) : bool :=
  match s with
  | EmptyString => true
  | String c _ => negb (isspace c)
  end.

(** [u] has the process attributes of [w], and the entry [p] and the
    directory that holds it are the same in both. *)
Definition agree_at (p : string) (w u : world) : Prop :=
  same_process w u
  /\ fs u !! p = fs w !! p
  /\ forall d, dirname p = Some d -> fs u !! d = fs w !! d.

(** The configuration [main] hands to the provider. *)
Definition config_of (vars : gmap string string) (user token : string) : stats_config :=
  {| cfg_username := user;
     cfg_access_token := token;
     cfg_exclude_repos := parse_set (vars !! "EXCLUDED");
     cfg_exclude_langs := parse_set (vars !! "EXCLUDED_LANGS");
     cfg_ignore_forked_repos := ignore_forked_repos (vars !! "EXCLUDE_FORKED_REPOS") |}.

(** The state in which the renderers start: the session is open and the
    provider constructed. *)
Definition in_session (cfg : stats_config) (w : world) : world :=
  with_log (log w ++ [EvSessionOpen] ++ [EvStatsNew cfg]) w.

End Props.

(** Further states, for the examples. *)
Module Cases.
Import World.

(** ["generated"] is there, but as a regular file. *)
Definition world_with_file : world :=
  Examples.world_of {[ "generated" := File 420 Owner "not a directory" ]} ∅.

(** A working directory of mode 555, which the process cannot write. *)
Definition read_only_world : world :=
  {| fs := ∅; cwd_mode := 365; cwd_cls := Owner; is_root := false;
     umask := 18; env := ∅; log := [] |}.

(** The templates are in place and both credentials are set. *)
Definition ready_world : world :=
  Examples.world_of Examples.templates
    {[ "ACCESS_TOKEN" := "token"; "GITHUB_ACTOR" := "octocat";
       "EXCLUDED" := "a, b ,c" ]}.

(** As [ready_world], under a umask that takes the write bit from every
    file the process creates (0o222). *)
Definition masked_world : world :=
  {| fs := Examples.templates; cwd_mode := 493; cwd_cls := Owner; is_root := false;
     umask := 146; env := env ready_world; log := [] |}.

(** Credentials are set but there is no template directory. *)
Definition world_without_templates : world :=
  Examples.world_of ∅ {[ "ACCESS_TOKEN" := "token"; "GITHUB_ACTOR" := "octocat" ]}.

End Cases.

(** ** Facts about text *)

Module TextFacts.
Import Text.

Lemma app_nil_l (s : string) : "" +:+ s = s.
Proof. reflexivity. Qed.

Lemma app_cons (c : ascii) (s t : string) :
  String c s +:+ t = String c (s +:+ t).
Proof. reflexivity. Qed.

Lemma app_nil_r (s : string) : s +:+ "" = s.
Proof. induction s as [|c s IH]; [reflexivity|]. now rewrite app_cons, IH. Qed.

Lemma app_assoc (a b c : string) : (a +:+ b) +:+ c = a +:+ (b +:+ c).
Proof.
  induction a as [|x a IH]; [reflexivity|].
  now rewrite !app_cons, IH.
Qed.

Lemma eqb_true (a b : ascii) : Ascii.eqb a b = true <-> a = b.
Proof. apply Ascii.eqb_eq. Qed.

Lemma eqb_false (a b : ascii) : Ascii.eqb a b = false <-> a <> b.
Proof. apply Ascii.eqb_neq. Qed.

(** *** [starts_with] *)

Lemma starts_with_app (t u : string) : starts_with t (t +:+ u) = true.
Proof.
  induction t as [|c t IH]; [reflexivity|].
  rewrite app_cons. simpl. now rewrite Ascii.eqb_refl, IH.
Qed.

Lemma starts_with_split (t s : string) :
  starts_with t s = true -> exists u, s = t +:+ u.
Proof.
  revert s. induction t as [|c t IH]; intros s H.
  - now exists s.
  - destruct s as [|d s]; [discriminate|]. simpl in H.
    apply andb_true_iff in H as [Hc Ht]. apply eqb_true in Hc as ->.
    destruct (IH _ Ht) as [u ->]. now exists u.
Qed.

Lemma starts_with_trans (u t s : string) :
  starts_with u t = true -> starts_with t s = true -> starts_with u s = true.
Proof.
  intros [v ->]%starts_with_split [w ->]%starts_with_split.
  rewrite app_assoc. apply starts_with_app.
Qed.

Lemma skip_app (t u : string) : skip (String.length t) (t +:+ u) = u.
Proof. induction t as [|c t IH]; [now destruct u|]. exact IH. Qed.

(** *** [has_char] and [all_chars] *)

Lemma has_char_app (c : ascii) (a b : string) :
  has_char c (a +:+ b) = has_char c a || has_char c b.
Proof.
  induction a as [|x a IH]; [reflexivity|].
  rewrite app_cons. simpl. now rewrite IH, orb_assoc.
Qed.

Lemma all_chars_app (p : ascii -> bool) (a b : string) :
  all_chars p (a +:+ b) = all_chars p a && all_chars p b.
Proof.
  induction a as [|x a IH]; [reflexivity|].
  rewrite app_cons. simpl. now rewrite IH, andb_assoc.
Qed.

Lemma all_chars_weaken (p q : ascii -> bool) (s : string) :
  (forall c, p c = true -> q c = true) ->
  all_chars p s = true -> all_chars q s = true.
Proof.
  intros Hpq. induction s as [|c s IH]; [reflexivity|]. simpl.
  intros [Hc Hs]%andb_true_iff. now rewrite (Hpq _ Hc), IH.
Qed.

Lemma all_chars_has_char (p : ascii -> bool) (c : ascii) (s : string) :
  all_chars p s = true -> p c = false -> has_char c s = false.
Proof.
  intros Hs Hc. induction s as [|x s IH]; [reflexivity|]. simpl in *.
  apply andb_true_iff in Hs as [Hx Hs].
  rewrite (IH Hs), orb_false_r. apply eqb_false. congruence.
Qed.

(** *** [replace_all] *)

Lemma replace_from_skip (t r : string) (n : nat) (s : string) :
  replace_from t r n s = replace_all t r (skip n s).
Proof.
  revert n. induction s as [|c s IH]; intros [|n]; try reflexivity.
  simpl. apply IH.
Qed.

Lemma replace_all_nil (t r : string) : replace_all t r "" = "".
Proof. reflexivity. Qed.

Lemma replace_all_miss (t r : string) (c : ascii) (s : string) :
  starts_with t (String c s) = false ->
  replace_all t r (String c s) = String c (replace_all t r s).
Proof. unfold replace_all. simpl. now intros ->. Qed.

(** At an occurrence of [t], the replacement is emitted and the
    substitution resumes after the occurrence. *)
Lemma replace_all_hit (t r u : string) :
  t <> "" -> replace_all t r (t +:+ u) = r +:+ replace_all t r u.
Proof.
  intros Ht. destruct t as [|c t]; [congruence|].
  unfold replace_all at 1. rewrite app_cons.
  cbn [replace_from]. rewrite <- app_cons, starts_with_app.
  rewrite replace_from_skip. f_equal. f_equal.
  replace (String.length (String c t) - 1)%nat with (String.length t)
    by (cbn [String.length]; lia).
  apply skip_app.
Qed.

(** A text in which [t] does not occur is left as it is. *)
Lemma replace_all_absent (t r s : string) :
  contains t s = false -> replace_all t r s = s.
Proof.
  induction s as [|c s IH]; [reflexivity|]. simpl.
  intros [H1 H2]%orb_false_iff.
  rewrite replace_all_miss by exact H1. now rewrite IH.
Qed.

Lemma contains_cons (t : string) (c : ascii) (s : string) :
  contains t (String c s) = starts_with t (String c s) || contains t s.
Proof. reflexivity. Qed.

Lemma contains_skip (t s : string) (n : nat) :
  contains t s = false -> contains t (skip n s) = false.
Proof.
  revert s. induction n as [|n IH]; intros s H; [now destruct s|].
  destruct s as [|c s]; [exact H|]. simpl. apply IH.
  rewrite contains_cons in H. now apply orb_false_iff in H.
Qed.

(** A text that has an occurrence of [t] has one of each prefix of [t]. *)
Lemma contains_prefix (u t s : string) :
  starts_with u t = true -> contains u s = false -> contains t s = false.
Proof.
  intros Hu. induction s as [|c s IH].
  - simpl. rewrite !orb_false_r. intros H.
    destruct (starts_with t "") eqn:E; [|reflexivity].
    now rewrite (starts_with_trans _ _ _ Hu E) in H.
  - rewrite !contains_cons. intros [H1 H2]%orb_false_iff.
    rewrite (IH H2), orb_false_r.
    destruct (starts_with t (String c s)) eqn:E; [|reflexivity].
    now rewrite (starts_with_trans _ _ _ Hu E) in H1.
Qed.

Lemma starts_with_absent (c : ascii) (t s : string) :
  has_char c s = false -> starts_with (String c t) s = false.
Proof.
  destruct s as [|d s]; [reflexivity|]. simpl.
  intros [H _]%orb_false_iff. now rewrite H.
Qed.

Lemma contains_absent (c : ascii) (t s : string) :
  has_char c s = false -> contains (String c t) s = false.
Proof.
  induction s as [|d s IH]; [reflexivity|]. intros H.
  rewrite contains_cons, (starts_with_absent _ _ _ H). simpl in H.
  apply orb_false_iff in H as [_ H]. now apply IH.
Qed.

(** A prefix without the first character of [t] is copied. *)
Lemma replace_all_prefix (c : ascii) (t r pre s : string) :
  has_char c pre = false ->
  replace_all (String c t) r (pre +:+ s) = pre +:+ replace_all (String c t) r s.
Proof.
  induction pre as [|d pre IH]; [reflexivity|]. simpl.
  intros [Hd Hp]%orb_false_iff. rewrite !app_cons.
  rewrite replace_all_miss; [now rewrite IH|].
  simpl. now rewrite Hd.
Qed.

End TextFacts.

(** ** The "exclude forked repos" flag *)

Module FlagFacts.
Import Text Py Script Spec.

Lemma lower_char_letter (l u c : ascii) :
  lower_char u = l -> lower_char l = l ->
  (forall x, lower_char x = l -> x = l \/ x = u) ->
  lower_char c = l <-> letter l u c.
Proof.
  intros Hu Hl Hinv. split; [apply Hinv|].
  now intros [-> | ->].
Qed.

Ltac by_cases_on_char c :=
  destruct c as [[] [] [] [] [] [] [] []]; vm_compute;
  intros H; first [discriminate H | now left | now right].

Lemma lower_f c : lower_char c = "f"%char <-> letter "f" "F" c.
Proof. apply lower_char_letter; [reflexivity..|]. intros x. by_cases_on_char x. Qed.
Lemma lower_a c : lower_char c = "a"%char <-> letter "a" "A" c.
Proof. apply lower_char_letter; [reflexivity..|]. intros x. by_cases_on_char x. Qed.
Lemma lower_l c : lower_char c = "l"%char <-> letter "l" "L" c.
Proof. apply lower_char_letter; [reflexivity..|]. intros x. by_cases_on_char x. Qed.
Lemma lower_s c : lower_char c = "s"%char <-> letter "s" "S" c.
Proof. apply lower_char_letter; [reflexivity..|]. intros x. by_cases_on_char x. Qed.
Lemma lower_e c : lower_char c = "e"%char <-> letter "e" "E" c.
Proof. apply lower_char_letter; [reflexivity..|]. intros x. by_cases_on_char x. Qed.

(** [s.lower() == "false"] exactly for the 32 spellings of the word. *)
Lemma lower_is_false (s : string) : lower s = "false" <-> spells_false s.
Proof.
  split.
  - destruct s as [|c1 [|c2 [|c3 [|c4 [|c5 [|c6 s]]]]]]; try discriminate.
    simpl. intros H. injection H as H1 H2 H3 H4 H5.
    exists c1, c2, c3, c4, c5. split; [reflexivity|].
    now rewrite <- lower_f, <- lower_a, <- lower_l, <- lower_s, <- lower_e.
  - intros (c1 & c2 & c3 & c4 & c5 & -> & H1 & H2 & H3 & H4 & H5). simpl.
    apply lower_f in H1. apply lower_a in H2. apply lower_l in H3.
    apply lower_s in H4. apply lower_e in H5. congruence.
Qed.

Lemma truthy_spec (raw : option string) :
  truthy raw = true <-> exists r, raw = Some r /\ r <> "".
Proof.
  split.
  - destruct raw as [[|c r]|]; try discriminate. intros _.
    now exists (String c r).
  - intros (r & -> & Hr). destruct r; [congruence|reflexivity].
Qed.

End FlagFacts.

(** C1 (as amended): the flag [main] computes from [EXCLUDE_FORKED_REPOS] is
    true exactly when the variable is set, is not the empty text and, once
    its surrounding white space is stripped, is not the word "false" in any
    letter case.  So unset, empty, and every spelling of "false", padded with
    white space or not, give false; every other non-empty value gives true. *)
Theorem ignore_forked_repos_spec (raw : option string) :
  Script.ignore_forked_repos raw = true <->
  exists r, raw = Some r /\ r <> "" /\ ~ Spec.spells_false (Py.strip r).
Proof.
  unfold Script.ignore_forked_repos. rewrite andb_true_iff, FlagFacts.truthy_spec.
  split.
  - intros [(r & -> & Hr) H]. exists r. repeat split; [exact Hr|].
    rewrite <- FlagFacts.lower_is_false. intros E. rewrite E in H. discriminate H.
  - intros (r & -> & Hr & H). split; [now exists r|].
    apply negb_true_iff, String.eqb_neq. now rewrite FlagFacts.lower_is_false.
Qed.

(** C1, as stated, fails on a padded spelling: for [" false "] the
    specified flag is true and the computed one is false. *)
Lemma ignore_forked_repos_padded_false :
  Spec.flag_as_specified (Some " false ") = true
  /\ Script.ignore_forked_repos (Some " false ") = false.
Proof. split; reflexivity. Qed.

(** ** The output folder *)

Module FolderFacts.
Import World Script.

Lemma stat_with_log (l : list event) (w : world) (p : string) :
  stat (with_log l w) p = stat w p.
Proof. reflexivity. Qed.

(** What [generate_output_folder] does, by the state it starts in. *)
Lemma generate_output_folder_cases (w : world) :
  match stat w "generated" with
  | inr (Dir _ _) =>
      generate_output_folder w
      = (with_log (log w ++ [EvPrint "Directory already exists: generated"]) w, Ok tt)
  | _ =>
      (exists e, generate_output_folder w = (w, Raise e))
      \/ ((exists d, parent w "generated" = inr d)
          /\ fs w !! "generated" = None
          /\ generate_output_folder w
             = (with_log (log w ++ [EvPrint "Created directory: generated with permissions 777"])
                  (with_fs (<["generated" := Dir 511 Owner]> (fs w)) w), Ok tt))
  end.
Proof.
  unfold generate_output_folder, bind, os_path_isdir.
  destruct (stat w "generated") as [e|[m c|m c d]] eqn:Est; cbn [negb].
  - unfold os_mkdir. unfold stat in Est.
    destruct (parent w "generated") as [e'|d] eqn:Ep; [left; eauto|].
    destruct (fs w !! "generated") as [n|] eqn:Efs; [discriminate Est|].
    destruct (parent_writable w d); [|left; eauto]. right.
    split; [now exists d|]. split; [reflexivity|].
    unfold os_chmod, stat.
    assert (Hp : forall f, parent (with_fs f w) "generated" = parent w "generated").
    { intros f. unfold parent. reflexivity. }
    rewrite Hp, Ep. cbn [fs with_fs]. rewrite lookup_insert_eq.
    cbn [node_cls set_mode]. rewrite orb_true_r.
    cbn [fs with_fs]. rewrite insert_insert_eq. reflexivity.
  - reflexivity.
  - unfold os_mkdir. unfold stat in Est.
    destruct (parent w "generated") as [e'|d'] eqn:Ep; [discriminate Est|].
    destruct (fs w !! "generated") as [n|] eqn:Efs; [|discriminate Est].
    left. eauto.
Qed.

End FolderFacts.

(** C2 (as amended): when [generate_output_folder] returns normally,
    ["generated"] is a directory; it has mode 777 when the call created it,
    and the file system is unchanged when the directory was already there
    (whatever its mode).  A second call returns normally and changes nothing
    on the file system. *)
Theorem generate_output_folder_spec (w w' : World.world) :
  Script.generate_output_folder w = (w', Ok tt) ->
  (exists m c, World.fs w' !! "generated" = Some (World.Dir m c)
     /\ (World.fs w !! "generated" = None -> m = 511)
     /\ (World.fs w !! "generated" <> None -> World.fs w' = World.fs w))
  /\ exists w'', Script.generate_output_folder w' = (w'', Ok tt)
       /\ World.fs w'' = World.fs w'.
Proof.
  intros H. pose proof (FolderFacts.generate_output_folder_cases w) as Hc.
  destruct (World.stat w "generated") as [e|[m c|m c d]] eqn:Est.
  - destruct Hc as [[e' He]|([d Hd] & Hnone & Hc)]; [congruence|].
    rewrite Hc in H. injection H as <-. split.
    + exists 511, World.Owner. cbn. rewrite lookup_insert_eq. now repeat split.
    + pose proof (FolderFacts.generate_output_folder_cases
        (World.with_log
           (World.log w ++ [World.EvPrint "Created directory: generated with permissions 777"])
           (World.with_fs (<["generated" := World.Dir 511 World.Owner]> (World.fs w)) w))) as H2.
      rewrite FolderFacts.stat_with_log in H2.
      unfold World.stat in Est, H2.
      change (World.parent (World.with_fs _ w) "generated")
        with (World.parent w "generated") in H2.
      rewrite Hd in H2.
      cbn [World.fs World.with_fs] in H2. rewrite lookup_insert_eq in H2.
      eexists. split; [exact H2|reflexivity].
  - rewrite Hc in H. injection H as <-. split.
    + unfold World.stat in Est.
      destruct (World.parent w "generated"); [discriminate|].
      destruct (World.fs w !! "generated") as [n|] eqn:Efs; [|discriminate].
      injection Est as ->. exists m, c. cbn. repeat split; [exact Efs|congruence].
    + pose proof (FolderFacts.generate_output_folder_cases
        (World.with_log
           (World.log w ++ [World.EvPrint "Directory already exists: generated"]) w)) as H2.
      rewrite FolderFacts.stat_with_log, Est in H2.
      eexists. split; [exact H2|reflexivity].
  - destruct Hc as [[e' He]|(_ & Hnone & Hc)]; [congruence|].
    unfold World.stat in Est. destruct (World.parent w "generated"); [discriminate|].
    rewrite Hnone in Est. discriminate.
Qed.

Lemma generate_output_folder_spec_witness :
  Script.generate_output_folder Examples.fresh_world
  = ((Script.generate_output_folder Examples.fresh_world).1, Ok tt)
  /\ (exists m c,
        World.fs (Script.generate_output_folder Examples.fresh_world).1 !! "generated"
        = Some (World.Dir m c)
        /\ (World.fs Examples.fresh_world !! "generated" = None -> m = 511)
        /\ (World.fs Examples.fresh_world !! "generated" <> None ->
            World.fs (Script.generate_output_folder Examples.fresh_world).1
            = World.fs Examples.fresh_world))
  /\ exists w'',
       Script.generate_output_folder (Script.generate_output_folder Examples.fresh_world).1
       = (w'', Ok tt)
       /\ World.fs w'' = World.fs (Script.generate_output_folder Examples.fresh_world).1.
Proof.
  assert (H : Script.generate_output_folder Examples.fresh_world
              = ((Script.generate_output_folder Examples.fresh_world).1, Ok tt))
    by (vm_compute; reflexivity).
  split; [exact H|].
  exact (generate_output_folder_spec Examples.fresh_world _ H).
Defined.

(** C2, as stated, fails when the directory is already there with another
    mode: the call returns normally and the mode is still 755. *)
Lemma generate_output_folder_keeps_mode :
  (Script.generate_output_folder Examples.world_with_folder).2 = Ok tt
  /\ World.fs (Script.generate_output_folder Examples.world_with_folder).1 !! "generated"
     = Some (World.Dir 493 World.Owner)
  /\ Z.eqb 493 511 = false.
Proof. repeat split; vm_compute; reflexivity. Qed.

(** ** The orchestrator *)

Module MainFacts.
Import World Script Spec.

Lemma quiet_refl (w : world) : quiet w w.
Proof.
  split; [reflexivity|]. split; [|reflexivity].
  exists []. simpl. now rewrite app_nil_r.
Qed.

Lemma generate_output_folder_quiet (w : world) :
  quiet w (generate_output_folder w).1.
Proof.
  pose proof (FolderFacts.generate_output_folder_cases w) as H.
  destruct (stat w "generated") as [e|[m c|m c d]].
  - destruct H as [[e' ->]|(_ & _ & ->)]; [apply quiet_refl|].
    split; [reflexivity|]. split; [now eexists [_]|].
    intros p Hp. cbn. now rewrite lookup_insert_ne.
  - rewrite H. split; [reflexivity|]. split; [now eexists [_]|reflexivity].
  - destruct H as [[e' ->]|(_ & _ & ->)]; [apply quiet_refl|].
    split; [reflexivity|]. split; [now eexists [_]|].
    intros p Hp. cbn. now rewrite lookup_insert_ne.
Qed.

(** [check_permissions] only looks. *)
Lemma check_permissions_pure (w : world) :
  (check_permissions w).1 = w.
Proof.
  unfold check_permissions, bind, os_path_isdir, os_path_isfile, os_access,
    raise, ret.
  repeat match goal with
         | |- context [negb ?b] => destruct b; cbn [negb fst]
         end; reflexivity.
Qed.

(** *** Code that does not read the environment *)

Lemma env_blind_bind {A B} (m : M A) (k : A -> M B) :
  env_blind m -> (forall a, env_blind (k a)) -> env_blind (bind m k).
Proof.
  intros Hm Hk e w. unfold bind. rewrite Hm.
  destruct (m w) as [w1 [a|x]]; cbn [fst snd]; [apply Hk|reflexivity].
Qed.

Lemma env_blind_ret {A} (a : A) : env_blind (ret a).
Proof. now intros e w. Qed.

Lemma env_blind_raise {A} (x : exn) : env_blind (@raise A x).
Proof. now intros e w. Qed.

Lemma env_blind_if {A} (b : bool) (m1 m2 : M A) :
  env_blind m1 -> env_blind m2 -> env_blind (if b then m1 else m2).
Proof. now destruct b. Qed.

Ltac by_cases :=
  intros e w;
  unfold os_mkdir, os_chmod, stat, parent, parent_writable, may;
  cbn [fs cwd_mode cwd_cls is_root umask env log with_env with_fs with_log];
  repeat (case_match; try reflexivity).

Lemma env_blind_isdir p : env_blind (os_path_isdir p).
Proof. now intros e w. Qed.
Lemma env_blind_isfile p : env_blind (os_path_isfile p).
Proof. now intros e w. Qed.
Lemma env_blind_access p a : env_blind (os_access p a).
Proof. now intros e w. Qed.
Lemma env_blind_print msg : env_blind (print msg).
Proof. now intros e w. Qed.
Lemma env_blind_mkdir p : env_blind (os_mkdir p).
Proof. by_cases. Qed.
Lemma env_blind_chmod p m : env_blind (os_chmod p m).
Proof. by_cases. Qed.

Create HintDb blind.
#[local] Hint Resolve env_blind_ret env_blind_raise env_blind_isdir
  env_blind_isfile env_blind_access env_blind_print env_blind_mkdir
  env_blind_chmod : blind.

Ltac blind :=
  repeat first
    [ apply env_blind_bind; [|intros ?]
    | apply env_blind_if
    | solve [auto with blind] ].

Lemma generate_output_folder_blind : env_blind generate_output_folder.
Proof. unfold generate_output_folder. blind. Qed.

Lemma check_permissions_blind : env_blind check_permissions.
Proof. unfold check_permissions. blind. Qed.

Lemma bind_ok {A B} (m : M A) (k : A -> M B) (w w1 : world) (a : A) :
  m w = (w1, Ok a) -> bind m k w = k a w1.
Proof. unfold bind. now intros ->. Qed.

Lemma bind_raise {A B} (m : M A) (k : A -> M B) (w w1 : world) (x : exn) :
  m w = (w1, Raise x) -> bind m k w = (w1, Raise x).
Proof. unfold bind. now intros ->. Qed.

(** *** The log only grows *)

Lemma extends_refl (w : world) : extends w w.
Proof. exists []. now rewrite app_nil_r. Qed.

Lemma extends_trans (w1 w2 w3 : world) :
  extends w1 w2 -> extends w2 w3 -> extends w1 w3.
Proof.
  intros [l1 H1] [l2 H2]. exists (l1 ++ l2).
  now rewrite H2, H1, app_assoc.
Qed.

Lemma log_grows_bind {A B} (m : M A) (k : A -> M B) :
  log_grows m -> (forall a, log_grows (k a)) -> log_grows (bind m k).
Proof.
  intros Hm Hk w. unfold bind. specialize (Hm w).
  destruct (m w) as [w1 [a|x]]; cbn [fst] in *; [|exact Hm].
  eapply extends_trans; [exact Hm|apply Hk].
Qed.

Lemma log_grows_same {A} (m : M A) :
  (forall w, log (m w).1 = log w) -> log_grows m.
Proof. intros H w. exists []. now rewrite H, app_nil_r. Qed.

Lemma log_grows_emit (e : event) : log_grows (emit e).
Proof. intros w. now exists [e]. Qed.

Lemma log_grows_print (msg : string) : log_grows (print msg).
Proof. intros w. now exists [EvPrint msg]. Qed.

Lemma log_grows_lift {A} (r : result A) : log_grows (lift r).
Proof. now apply log_grows_same. Qed.

Lemma log_grows_read (p : string) : log_grows (read_file p).
Proof.
  apply log_grows_same. intros w. unfold read_file.
  repeat (case_match; try reflexivity).
Qed.

Lemma log_grows_write (p d : string) : log_grows (write_file p d).
Proof.
  apply log_grows_same. intros w. unfold write_file.
  repeat (case_match; try reflexivity).
Qed.

Lemma log_grows_folder : log_grows generate_output_folder.
Proof.
  intros w. destruct (generate_output_folder_quiet w) as (_ & [msgs H] & _).
  now exists (map EvPrint msgs).
Qed.

Lemma log_grows_gather (a b : M unit) :
  log_grows a -> log_grows b -> log_grows (gather a b).
Proof.
  intros Ha Hb w. unfold gather. specialize (Ha w).
  destruct (a w) as [w1 r1]. specialize (Hb w1).
  destruct (b w1) as [w2 r2]. cbn [fst] in *.
  eapply extends_trans; eassumption.
Qed.

Section Renderers.
Variable template : string -> string -> result string.

Lemma log_grows_overview (s : Stats) : log_grows (generate_overview template s).
Proof.
  unfold generate_overview.
  repeat first
    [ solve [auto using log_grows_read, log_grows_lift, log_grows_folder,
               log_grows_write, log_grows_print]
    | apply log_grows_bind; [|intros ?] ].
Qed.

Lemma log_grows_languages (s : Stats) : log_grows (generate_languages template s).
Proof.
  unfold generate_languages.
  repeat first
    [ solve [auto using log_grows_read, log_grows_lift, log_grows_folder,
               log_grows_write, log_grows_print]
    | apply log_grows_bind; [|intros ?] ].
Qed.

Variable fetch : stats_config -> Stats.

(** What [main] does once both preparation steps have passed, by the
    two required variables. *)
Lemma main_after_preparation (w w1 w2 : world) :
  generate_output_folder w = (w1, Ok tt) ->
  check_permissions w1 = (w2, Ok tt) ->
  match env w !! "ACCESS_TOKEN", env w !! "GITHUB_ACTOR" with
  | None, _ | Some EmptyString, _ =>
      main template fetch w
      = (w1, Raise (Exception "A personal access token is required to proceed!"))
  | Some (String _ _), None =>
      main template fetch w
      = (w1, Raise (RuntimeError "Environment variable GITHUB_ACTOR must be set."))
  | Some (String c t), Some user =>
      let cfg :=
        {| cfg_username := user;
           cfg_access_token := String c t;
           cfg_exclude_repos := parse_set (env w !! "EXCLUDED");
           cfg_exclude_langs := parse_set (env w !! "EXCLUDED_LANGS");
           cfg_ignore_forked_repos :=
             ignore_forked_repos (env w !! "EXCLUDE_FORKED_REPOS") |} in
      exists l,
        log (main template fetch w).1
        = log w1 ++ [EvSessionOpen; EvStatsNew cfg] ++ l
  end.
Proof.
  intros HG HC. pose proof (check_permissions_pure w1) as Hp.
  rewrite HC in Hp. cbn in Hp. subst w2.
  pose proof (generate_output_folder_quiet w) as (He & _ & _).
  rewrite HG in He. cbn [fst] in He.
  unfold main. rewrite (bind_ok _ _ _ _ _ HG), (bind_ok _ _ _ _ _ HC).
  rewrite (bind_ok _ _ w1 w1 (env w !! "ACCESS_TOKEN"))
    by (unfold os_getenv; now rewrite He).
  destruct (env w !! "ACCESS_TOKEN") as [[|c t]|]; cbn [truthy negb];
    [reflexivity| |reflexivity].
  rewrite (bind_ok _ _ w1 w1 (env w !! "GITHUB_ACTOR"))
    by (unfold os_getenv; now rewrite He).
  destruct (env w !! "GITHUB_ACTOR") as [user|]; [|reflexivity].
  rewrite (bind_ok _ _ w1 w1 (env w !! "EXCLUDED"))
    by (unfold os_getenv; now rewrite He).
  rewrite (bind_ok _ _ w1 w1 (env w !! "EXCLUDED_LANGS"))
    by (unfold os_getenv; now rewrite He).
  rewrite (bind_ok _ _ w1 w1 (env w !! "EXCLUDE_FORKED_REPOS"))
    by (unfold os_getenv; now rewrite He).
  cbn [default from_option id]. cbn zeta.
  set (cfg := Build_stats_config _ _ _ _ _).
  unfold with_session, emit at 1.
  match goal with |- context [bind ?m ?k] => set (body := bind m k) end.
  assert (Hb : forall w0, exists l, log (body w0).1 = log w0 ++ EvStatsNew cfg :: l).
  { intros w0. unfold body, bind, emit at 1.
    destruct (log_grows_gather _ _
                (log_grows_languages (fetch cfg)) (log_grows_overview (fetch cfg))
                (with_log (log w0 ++ [EvStatsNew cfg]) w0)) as [l Hl].
    exists l. rewrite Hl. cbn [log with_log]. now rewrite <- app_assoc. }
  match goal with |- context [body ?w0] => destruct (Hb w0) as [l Hl];
    destruct (body w0) as [w3 r3] end.
  cbn [fst log with_log emit] in *. exists (l ++ [EvSessionClose]).
  rewrite Hl. cbn [log with_log]. rewrite <- !app_assoc. reflexivity.
Qed.

End Renderers.

End MainFacts.

(** C8: when [ACCESS_TOKEN] or [GITHUB_ACTOR] is missing, [main] ends with an
    error; up to then it has only printed messages (no session was opened
    and no provider was constructed) and has touched no entry of the file
    system other than the directory ["generated"], so no output file was
    written. *)
Theorem main_stops_without_credentials
    (template : string -> string -> result string)
    (fetch : stats_config -> Stats) (w : World.world) :
  World.env w !! "ACCESS_TOKEN" = None \/ World.env w !! "GITHUB_ACTOR" = None ->
  exists w' e,
    Script.main template fetch w = (w', Raise e)
    /\ (exists msgs, World.log w' = World.log w ++ map World.EvPrint msgs)
    /\ (forall p, p <> "generated" -> World.fs w' !! p = World.fs w !! p).
Proof.
  intros H. pose proof (MainFacts.generate_output_folder_quiet w) as (_ & Hl & Hf).
  destruct (Script.generate_output_folder w) as [w1 [[]|x]] eqn:HG; cbn [fst] in *.
  - pose proof (MainFacts.check_permissions_pure w1) as Hp.
    destruct (Script.check_permissions w1) as [w2 [[]|x]] eqn:HC;
      cbn [fst] in Hp; subst w2.
    + pose proof (MainFacts.main_after_preparation template fetch w w1 w1 HG HC) as Hm.
      destruct (World.env w !! "ACCESS_TOKEN") as [[|c t]|]; [eauto 6| |eauto 6].
      destruct H as [H|H]; [discriminate H|]. rewrite H in Hm. eauto 6.
    + exists w1, x. split; [|now split]. unfold Script.main.
      rewrite (MainFacts.bind_ok _ _ _ _ _ HG).
      now rewrite (MainFacts.bind_raise _ _ _ _ _ HC).
  - exists w1, x. split; [|now split]. unfold Script.main.
    now rewrite (MainFacts.bind_raise _ _ _ _ _ HG).
Qed.

Lemma main_stops_without_credentials_witness :
  exists w' e,
    Script.main Examples.no_template (fun _ => Examples.nobody)
      (Examples.world_of Examples.templates {[ "GITHUB_ACTOR" := "octocat" ]})
    = (w', Raise e)
    /\ (exists msgs,
          World.log w'
          = World.log (Examples.world_of Examples.templates {[ "GITHUB_ACTOR" := "octocat" ]})
              ++ map World.EvPrint msgs)
    /\ (forall p, p <> "generated" ->
          World.fs w' !! p
          = World.fs (Examples.world_of Examples.templates {[ "GITHUB_ACTOR" := "octocat" ]}) !! p).
Proof.
  apply (main_stops_without_credentials Examples.no_template (fun _ => Examples.nobody)
           (Examples.world_of Examples.templates {[ "GITHUB_ACTOR" := "octocat" ]})).
  left. vm_compute. reflexivity.
Defined.

(** C10: with both preparation steps passing, [main] rejects an empty
    [ACCESS_TOKEN] with the same error, at the same point, as an unset one;
    with a non-empty token, an empty [GITHUB_ACTOR] is accepted and handed to
    the provider as the user name, and only an unset [GITHUB_ACTOR] is
    rejected. *)
Theorem main_empty_credentials
    (template : string -> string -> result string)
    (fetch : stats_config -> Stats) (w w1 w2 : World.world)
    (c : ascii) (token : string) :
  Script.generate_output_folder w = (w1, Ok tt) ->
  Script.check_permissions w1 = (w2, Ok tt) ->
  let missing := Exception "A personal access token is required to proceed!" in
  let vars := <["ACCESS_TOKEN" := String c token]> (World.env w) in
  (Script.main template fetch (World.with_env (<["ACCESS_TOKEN" := ""]> (World.env w)) w)).2
  = Raise missing
  /\ (Script.main template fetch (World.with_env (delete "ACCESS_TOKEN" (World.env w)) w)).2
     = Raise missing
  /\ (exists cfg l,
        World.log (Script.main template fetch
                     (World.with_env (<["GITHUB_ACTOR" := ""]> vars) w)).1
        = World.log w1 ++ [World.EvSessionOpen; World.EvStatsNew cfg] ++ l
        /\ cfg_username cfg = "" /\ cfg_access_token cfg = String c token)
  /\ (Script.main template fetch (World.with_env (delete "GITHUB_ACTOR" vars) w)).2
     = Raise (RuntimeError "Environment variable GITHUB_ACTOR must be set.").
Proof.
  intros HG HC missing vars. subst missing.
  pose proof (MainFacts.check_permissions_pure w1) as Hp.
  rewrite HC in Hp. cbn in Hp. subst w2.
  assert (Hprep : forall e,
    Script.generate_output_folder (World.with_env e w) = (World.with_env e w1, Ok tt)
    /\ Script.check_permissions (World.with_env e w1) = (World.with_env e w1, Ok tt)).
  { intros e. rewrite MainFacts.generate_output_folder_blind, HG.
    rewrite MainFacts.check_permissions_blind, HC. now split. }
  assert (Hm : forall e, _) by
    (intros e; exact (MainFacts.main_after_preparation template fetch _ _ _
                        (proj1 (Hprep e)) (proj2 (Hprep e)))).
  repeat split.
  - specialize (Hm (<["ACCESS_TOKEN" := ""]> (World.env w))).
    cbn [World.env World.with_env] in Hm. rewrite lookup_insert_eq in Hm. now rewrite Hm.
  - specialize (Hm (delete "ACCESS_TOKEN" (World.env w))).
    cbn [World.env World.with_env] in Hm. rewrite lookup_delete_eq in Hm. now rewrite Hm.
  - specialize (Hm (<["GITHUB_ACTOR" := ""]> vars)).
    cbn [World.env World.with_env] in Hm. unfold vars in Hm |- *.
    rewrite lookup_insert_eq, lookup_insert_ne, lookup_insert_eq in Hm by discriminate.
    cbn zeta in Hm. destruct Hm as [l Hl]. eexists _, l. split; [exact Hl|now split].
  - specialize (Hm (delete "GITHUB_ACTOR" vars)).
    cbn [World.env World.with_env] in Hm. unfold vars in Hm |- *.
    rewrite lookup_delete_eq, lookup_delete_ne, lookup_insert_eq in Hm by discriminate.
    now rewrite Hm.
Qed.

Lemma main_empty_credentials_witness :
  let w := Examples.world_of Examples.templates ∅ in
  let w1 := (Script.generate_output_folder w).1 in
  let main := Script.main Examples.no_template (fun _ => Examples.nobody) in
  let vars := <["ACCESS_TOKEN" := "token"]> (World.env w) in
  (main (World.with_env (<["ACCESS_TOKEN" := ""]> (World.env w)) w)).2
  = Raise (Exception "A personal access token is required to proceed!")
  /\ (main (World.with_env (delete "ACCESS_TOKEN" (World.env w)) w)).2
     = Raise (Exception "A personal access token is required to proceed!")
  /\ (exists cfg l,
        World.log (main (World.with_env (<["GITHUB_ACTOR" := ""]> vars) w)).1
        = World.log w1 ++ [World.EvSessionOpen; World.EvStatsNew cfg] ++ l
        /\ cfg_username cfg = "" /\ cfg_access_token cfg = "token")
  /\ (main (World.with_env (delete "GITHUB_ACTOR" vars) w)).2
     = Raise (RuntimeError "Environment variable GITHUB_ACTOR must be set.").
Proof.
  refine (main_empty_credentials Examples.no_template (fun _ => Examples.nobody)
            (Examples.world_of Examples.templates ∅)
            (Script.generate_output_folder (Examples.world_of Examples.templates ∅)).1
            (Script.generate_output_folder (Examples.world_of Examples.templates ∅)).1
            "t" "oken" _ _); vm_compute; reflexivity.
Defined.

(** ** Sorting the languages *)

Module SortFacts.
Import Py.

Section Keys.
Context {A : Type}.
Variable key : A -> option Z.

Local Abbreviation rank := (Spec.rank key).
Local Abbreviation has_key := (Spec.has_key key).
Local Abbreviation keyed := (Spec.keyed key).
Local Abbreviation insert := (Py.insert lt_size key).
Local Abbreviation sort := (Py.sort lt_size key).

Lemma lt_size_rank (x y : A) :
  keyed x -> keyed y -> lt_size (key x) (key y) = Ok (rank x <? rank y).
Proof.
  unfold Spec.keyed, Spec.rank. destruct (key x), (key y); try congruence. reflexivity.
Qed.

Lemma has_key_rank (v : Z) (x : A) :
  keyed x -> has_key v x = (rank x =? v).
Proof. unfold Spec.keyed, Spec.has_key, Spec.rank. now destruct (key x). Qed.

(** Insertion into a list of keyed entries: the result has the same
    entries, stays ordered, and [x] stands before the entries with its
    own key. *)
Lemma insert_keyed (x : A) (l : list A) :
  keyed x -> Forall keyed l ->
  exists l',
    insert x l = Ok l'
    /\ Permutation (x :: l) l'
    /\ (forall v, List.filter (has_key v) l' = List.filter (has_key v) (x :: l))
    /\ (StronglySorted (fun a b => rank a <= rank b) l ->
        StronglySorted (fun a b => rank a <= rank b) l').
Proof.
  intros Hx. induction l as [|y l IH]; intros Hl.
  - exists [x]. repeat split; trivial.
    intros _. repeat constructor.
  - apply Forall_cons in Hl as [Hy Hl]. destruct (IH Hl) as (l' & E & P & F & S).
    cbn [Py.insert]. rewrite (lt_size_rank y x Hy Hx). cbn [rbind].
    destruct (rank y <? rank x) eqn:Hlt.
    + rewrite E. cbn [rbind]. exists (y :: l'). split; [reflexivity|].
      split; [|split].
      * rewrite perm_swap. now apply Permutation_cons.
      * intros v. cbn [List.filter]. rewrite F. cbn [List.filter].
        rewrite !has_key_rank by assumption.
        destruct (rank y =? v) eqn:E1, (rank x =? v) eqn:E2; try reflexivity.
        apply Z.eqb_eq in E1, E2. apply Z.ltb_lt in Hlt. lia.
      * intros Hs. apply StronglySorted_inv in Hs as [Hs Hy'].
        constructor; [now apply S|].
        rewrite <- P. constructor; [apply Z.ltb_lt in Hlt; lia|exact Hy'].
    + exists (x :: y :: l). repeat split; trivial.
      intros Hs. constructor; [exact Hs|].
      apply Z.ltb_ge in Hlt.
      constructor; [exact Hlt|].
      apply StronglySorted_inv in Hs as [_ Hy'].
      eapply Forall_impl; [exact Hy'|]. cbn. intros; lia.
Qed.

Lemma sort_keyed (l : list A) :
  Forall keyed l ->
  exists l',
    sort l = Ok l'
    /\ Permutation l l'
    /\ (forall v, List.filter (has_key v) l' = List.filter (has_key v) l)
    /\ StronglySorted (fun a b => rank a <= rank b) l'.
Proof.
  induction l as [|x l IH]; intros Hl.
  - exists []. repeat split; constructor.
  - apply Forall_cons in Hl as [Hx Hl]. destruct (IH Hl) as (l1 & E & P & F & S).
    assert (Hl1 : Forall keyed l1) by now rewrite <- P.
    destruct (insert_keyed x l1 Hx Hl1) as (l2 & E2 & P2 & F2 & S2).
    exists l2. cbn [Py.sort]. rewrite E. cbn [rbind]. split; [exact E2|].
    split; [|split].
    + rewrite <- P2. now apply Permutation_cons.
    + intros v. rewrite F2. cbn [List.filter]. now rewrite F.
    + now apply S2.
Qed.

(** *** Entries without key *)

Lemma lt_size_none (a b : option Z) :
  a = None \/ b = None -> exists msg, lt_size a b = Raise (TypeError msg).
Proof. destruct a, b; intros [H|H]; try discriminate; cbn; eauto. Qed.

Lemma unkeyed_or_keyed (l : list A) :
  Exists (fun x => key x = None) l \/ Forall keyed l.
Proof.
  induction l as [|x l [IH|IH]]; [right; constructor|left; now constructor|].
  destruct (key x) eqn:E; [right|left; now constructor].
  constructor; [unfold Spec.keyed; congruence|exact IH].
Qed.

Lemma insert_unkeyed (x : A) (l : list A) :
  key x = None -> l <> [] -> exists msg, insert x l = Raise (TypeError msg).
Proof.
  intros Hx. destruct l as [|y l]; [congruence|]. intros _.
  cbn [Py.insert].
  destruct (lt_size_none (key y) (key x) (or_intror Hx)) as [msg ->].
  now exists msg.
Qed.

Lemma sort_unkeyed (l : list A) :
  (2 <= length l)%nat -> Exists (fun x => key x = None) l ->
  exists msg, sort l = Raise (TypeError msg).
Proof.
  induction l as [|x l IH]; [cbn; lia|]. intros Hlen Hex.
  cbn [Py.sort].
  destruct l as [|z [|z' l]].
  - cbn in Hlen. lia.
  - cbn [Py.sort Py.insert rbind].
    destruct (lt_size_none (key z) (key x)) as [msg ->]; [|now exists msg].
    apply Exists_cons in Hex as [H|H]; [now right|].
    apply Exists_cons in H as [H|H]; [now left|]. now apply Exists_nil in H.
  - destruct (unkeyed_or_keyed (z :: z' :: l)) as [H|Hk].
    + destruct IH as [msg ->]; [cbn; lia|exact H|]. now exists msg.
    + apply Exists_cons in Hex as [Hx|Hex].
      2:{ apply Exists_exists in Hex as (a & Ha & Hn).
          rewrite Forall_forall in Hk. now destruct (Hk a Ha). }
      destruct (sort_keyed _ Hk) as (l1 & -> & P & _). cbn [rbind].
      apply insert_unkeyed; [exact Hx|].
      intros ->. apply Permutation_nil_r in P. discriminate P.
Qed.

End Keys.
End SortFacts.

Module OrderFacts.
Import Py Script Spec.

Lemma StronglySorted_rev {A} (R : relation A) (l : list A) :
  StronglySorted R l -> StronglySorted (flip R) (rev l).
Proof.
  induction 1 as [|x l Hs IH Hx]; [constructor|].
  cbn [rev]. apply StronglySorted_app_2; [|exact IH|repeat constructor].
  intros x1 x2 H1 H2. apply list_elem_of_singleton in H2 as ->.
  rewrite Forall_forall in Hx. apply Hx.
  now apply list_elem_of_In, in_rev, list_elem_of_In.
Qed.

(** [sorted(..., reverse=True)] on keyed entries: same entries, largest key
    first, equal keys in their original order. *)
Lemma sorted_reverse_keyed {A} (key : A -> option Z) (l : list A) :
  Forall (Spec.keyed key) l ->
  exists l',
    sorted lt_size key true l = Ok l'
    /\ Permutation l l'
    /\ StronglySorted (fun a b => Spec.rank key b <= Spec.rank key a) l'
    /\ forall v, List.filter (Spec.has_key key v) l'
                 = List.filter (Spec.has_key key v) l.
Proof.
  intros Hl. assert (Hr : Forall (Spec.keyed key) (rev l)).
  { rewrite Forall_forall in *. intros x Hx. apply Hl.
    now apply list_elem_of_In, in_rev, list_elem_of_In. }
  destruct (SortFacts.sort_keyed key _ Hr) as (l1 & E & P & F & S).
  exists (rev l1). unfold sorted. rewrite E. cbn [rbind]. split; [reflexivity|].
  split; [|split].
  - rewrite <- (Permutation_rev l1), <- P. apply Permutation_rev.
  - apply (StronglySorted_rev _ _ S).
  - intros v. now rewrite List.filter_rev, F, List.filter_rev, rev_involutive.
Qed.

End OrderFacts.

(** C4: when every entry has a size, [generate_languages] goes through the
    entries of the mapping sorted by size, largest first, and entries of
    equal size keep the order they have in the mapping. *)
Theorem sorted_languages_stable
    (template : string -> string -> result string) (s : Stats) :
  Forall (fun t => size (snd t) <> None) (languages s) ->
  exists sl,
    Script.sorted_languages s = Ok sl
    /\ Permutation (languages s) sl
    /\ StronglySorted (fun a b => Spec.entry_size b <= Spec.entry_size a) sl
    /\ (forall v, List.filter (Spec.has_size v) sl
                  = List.filter (Spec.has_size v) (languages s))
    /\ forall output,
         Script.languages_text template s output
         = rbind (Script.render_loop 0 sl "" "")
             (fun frags =>
                rbind (Py.re_sub template "{{ progress }}" (fst frags) output)
                  (Py.re_sub template "{{ lang_list }}" (snd frags))).
Proof.
  intros H.
  destruct (OrderFacts.sorted_reverse_keyed (fun t : string * lang_data => size (snd t))
              (languages s) H) as (sl & E & P & S & F).
  exists sl. repeat split; try assumption.
  intros output. unfold Script.languages_text, Script.sorted_languages.
  now rewrite E.
Qed.

Lemma sorted_languages_stable_witness :
  let a := ("Python", Examples.lang 500) in
  let b := ("Rust", Examples.lang 500) in
  let c := ("C", Examples.lang 100) in
  Script.sorted_languages (Examples.tied a b c) = Ok [a; b; c]
  /\ Script.sorted_languages (Examples.tied b a c) = Ok [b; a; c]
  /\ Script.sorted_languages (Examples.tied c b a) = Ok [b; a; c]
  /\ exists sl,
       Script.sorted_languages (Examples.tied c a b) = Ok sl
       /\ Permutation (languages (Examples.tied c a b)) sl
       /\ StronglySorted (fun a b => Spec.entry_size b <= Spec.entry_size a) sl
       /\ (forall v, List.filter (Spec.has_size v) sl
                     = List.filter (Spec.has_size v) (languages (Examples.tied c a b)))
       /\ forall output,
            Script.languages_text Examples.no_template (Examples.tied c a b) output
            = rbind (Script.render_loop 0 sl "" "")
                (fun frags =>
                   rbind (Py.re_sub Examples.no_template "{{ progress }}" (fst frags) output)
                     (Py.re_sub Examples.no_template "{{ lang_list }}" (snd frags))).
Proof.
  repeat (split; [vm_compute; reflexivity|]).
  apply (sorted_languages_stable Examples.no_template
           (Examples.tied ("C", Examples.lang 100) ("Python", Examples.lang 500)
              ("Rust", Examples.lang 500))).
  repeat constructor; discriminate.
Defined.

(** C9: with two entries or more, one entry without size makes the sort, and
    so [generate_languages], raise a [TypeError]: its key is [None], which
    cannot be compared. *)
Theorem sorted_languages_missing_size
    (template : string -> string -> result string) (s : Stats) :
  (2 <= length (languages s))%nat ->
  Exists (fun t => size (snd t) = None) (languages s) ->
  exists msg,
    Script.sorted_languages s = Raise (TypeError msg)
    /\ forall output, Script.languages_text template s output = Raise (TypeError msg).
Proof.
  intros Hlen Hex.
  destruct (SortFacts.sort_unkeyed (fun t : string * lang_data => size (snd t))
              (rev (languages s))) as [msg E].
  - now rewrite length_rev.
  - apply Exists_exists in Hex as (t & Ht & Hn). apply Exists_exists.
    exists t. split; [|exact Hn].
    apply list_elem_of_In. rewrite <- in_rev. now apply list_elem_of_In.
  - exists msg. unfold Script.languages_text, Script.sorted_languages, Py.sorted.
    rewrite E. now split.
Qed.

Lemma sorted_languages_missing_size_witness :
  exists msg,
    Script.sorted_languages
      (Examples.tied ("Python", Examples.lang 500)
         ("Rust", {| size := None; color := None; prop := None |})
         ("C", Examples.lang 100))
    = Raise (TypeError msg)
    /\ forall output,
         Script.languages_text Examples.no_template
           (Examples.tied ("Python", Examples.lang 500)
              ("Rust", {| size := None; color := None; prop := None |})
              ("C", Examples.lang 100)) output
         = Raise (TypeError msg).
Proof.
  apply (sorted_languages_missing_size Examples.no_template
           (Examples.tied ("Python", Examples.lang 500)
              ("Rust", {| size := None; color := None; prop := None |})
              ("C", Examples.lang 100))).
  - vm_compute. lia.
  - right. left. reflexivity.
Defined.

(** ** Formatted numbers *)

Module FormatFacts.
Import Text TextFacts Py Spec.

Lemma digits_uint (d : Decimal.uint) :
  all_chars is_digit (NilEmpty.string_of_uint d) = true.
Proof. induction d; cbn [NilEmpty.string_of_uint all_chars]; trivial. Qed.

Lemma digits_all (n : N) : all_chars is_digit (digits n) = true.
Proof.
  unfold digits, NilZero.string_of_uint.
  destruct (N.to_uint n) eqn:E; try apply digits_uint. reflexivity.
Qed.

Lemma digits_not_empty (n : N) : digits n <> "".
Proof.
  unfold digits, NilZero.string_of_uint.
  destruct (N.to_uint n); cbn; discriminate.
Qed.

Lemma is_digit_numeric (c : ascii) : is_digit c = true -> numeric_char c = true.
Proof.
  unfold is_digit, numeric_char. cbn [has_char]. rewrite !orb_false_r.
  intros H. repeat (apply orb_true_iff in H as [->|H]; [now rewrite ?orb_true_r|]).
  rewrite H. now rewrite ?orb_true_r.
Qed.

Lemma is_digit_plain (c : ascii) : is_digit c = true -> plain_char c = true.
Proof.
  unfold is_digit. cbn [has_char]. rewrite !orb_false_r. intros H.
  repeat (apply orb_true_iff in H as [->%eqb_true|H]; [reflexivity|]).
  apply eqb_true in H as ->. reflexivity.
Qed.

(** *** Thousands separators *)

Lemma group3_numeric (s : string) :
  all_chars is_digit s = true -> all_chars numeric_char (group3 s) = true.
Proof.
  induction s as [|c s IH]; [reflexivity|]. cbn [all_chars group3].
  intros [Hc Hs]%andb_true_iff.
  destruct ((0 <? String.length s)%nat && _); cbn [all_chars];
    now rewrite (is_digit_numeric _ Hc), IH.
Qed.

Lemma group3_not_empty (s : string) : s <> "" -> group3 s <> "".
Proof. destruct s; [congruence|discriminate]. Qed.

Lemma format_comma_numeric (z : Z) : all_chars numeric_char (format_comma z) = true.
Proof.
  unfold format_comma. rewrite all_chars_app, group3_numeric by apply digits_all.
  now destruct (z <? 0).
Qed.

Lemma format_comma_not_empty (z : Z) : format_comma z <> "".
Proof.
  unfold format_comma.
  pose proof (group3_not_empty _ (digits_not_empty (Z.abs_N z))) as H.
  destruct (z <? 0); [discriminate|]. now rewrite app_nil_l.
Qed.

Lemma numeric_plain (s : string) :
  all_chars numeric_char s = true -> plain s = true.
Proof.
  apply all_chars_weaken. intros c. unfold numeric_char. cbn [has_char].
  rewrite !orb_false_r. intros H.
  repeat (apply orb_true_iff in H as [->%eqb_true|H]; [reflexivity|]).
  apply eqb_true in H as ->. reflexivity.
Qed.

Lemma without_commas_group3 (s : string) :
  all_chars is_digit s = true -> without_commas (group3 s) = s.
Proof.
  induction s as [|c s IH]; [reflexivity|]. cbn [all_chars group3 without_commas].
  intros [Hc Hs]%andb_true_iff.
  assert (Ascii.eqb c "," = false) as ->.
  { apply eqb_false. intros ->. discriminate Hc. }
  destruct ((0 <? String.length s)%nat && _); cbn [without_commas Ascii.eqb];
    now rewrite ?IH.
Qed.

Lemma split_group3 (s : string) :
  s <> "" -> all_chars is_digit s = true ->
  exists g rest,
    split "," (group3 s) = g :: rest
    /\ String.length g = S ((String.length s - 1) mod 3)
    /\ Forall (fun h => String.length h = 3%nat) rest.
Proof.
  induction s as [|c s IH]; [congruence|]. intros _.
  cbn [all_chars]. intros [Hc Hs]%andb_true_iff.
  assert (Hcomma : Ascii.eqb c "," = false).
  { apply eqb_false. intros ->. discriminate Hc. }
  cbn [group3 split]. rewrite Hcomma.
  destruct s as [|c' s'].
  - exists (String c ""), []. cbn. repeat split. constructor.
  - destruct (IH ltac:(discriminate) Hs) as (g & rest & E & Hg & Hrest).
    set (n := String.length (String c' s')) in *.
    assert (Hn : (0 < n)%nat) by (unfold n; cbn; lia).
    destruct (n mod 3 =? 0)%nat eqn:Hmod.
    + apply Nat.eqb_eq in Hmod.
      replace (0 <? n)%nat with true by (symmetry; now apply Nat.ltb_lt).
      cbn [andb split Ascii.eqb]. rewrite E.
      exists (String c ""), (g :: rest). split; [reflexivity|]. split.
      * change (String.length (String c "")) with 1%nat.
        change (String.length (String c (String c' s'))) with (S n).
        replace (S n - 1)%nat with n by lia. now rewrite Hmod.
      * constructor; [|exact Hrest]. rewrite Hg.
        pose proof (Nat.div_mod_eq n 3). pose proof (Nat.div_mod_eq (n - 1) 3).
        pose proof (Nat.mod_upper_bound (n - 1) 3). lia.
    + apply Nat.eqb_neq in Hmod. rewrite andb_false_r. rewrite E.
      exists (String c g), rest. split; [reflexivity|]. split; [|exact Hrest].
      change (String.length (String c g)) with (S (String.length g)).
      change (String.length (String c (String c' s'))) with (S n).
      rewrite Hg. replace (S n - 1)%nat with n by lia.
      pose proof (Nat.div_mod_eq n 3). pose proof (Nat.div_mod_eq (n - 1) 3).
      pose proof (Nat.mod_upper_bound (n - 1) 3). pose proof (Nat.mod_upper_bound n 3).
      lia.
Qed.

Lemma grouped_group3 (s : string) :
  s <> "" -> all_chars is_digit s = true ->
  grouped_in_threes (split "," (group3 s)).
Proof.
  intros H1 H2. destruct (split_group3 s H1 H2) as (g & rest & -> & Hg & Hr).
  split; [|exact Hr]. rewrite Hg.
  pose proof (Nat.mod_upper_bound (String.length s - 1) 3). lia.
Qed.

(** *** Fixed-point notation *)

Lemma all_chars_substring (p : ascii -> bool) (n m : nat) (s : string) :
  all_chars p s = true -> all_chars p (String.substring n m s) = true.
Proof.
  revert n m. induction s as [|c s IH]; intros [|n] [|m]; cbn; trivial.
  - intros [Hc Hs]%andb_true_iff. now rewrite Hc, IH.
  - intros [Hc Hs]%andb_true_iff. now apply IH.
  - intros [Hc Hs]%andb_true_iff. now apply IH.
Qed.

Lemma all_chars_skip (p : ascii -> bool) (n : nat) (s : string) :
  all_chars p s = true -> all_chars p (skip n s) = true.
Proof.
  revert s. induction n as [|n IH]; intros [|c s]; cbn; trivial.
  intros [Hc Hs]%andb_true_iff. now apply IH.
Qed.

Lemma plain_app (a b : string) : plain (a +:+ b) = plain a && plain b.
Proof. apply all_chars_app. Qed.

Lemma zeros_plain (n : nat) : plain (zeros n) = true.
Proof. induction n as [|n IH]; [reflexivity|exact IH]. Qed.

Lemma digits_plain (n : N) : plain (digits n) = true.
Proof.
  eapply all_chars_weaken; [apply is_digit_plain|apply digits_all].
Qed.

Lemma place_point_plain (p : nat) (ds : string) :
  plain ds = true -> plain (place_point p ds) = true.
Proof.
  intros H. unfold place_point.
  assert (Hz : plain (zeros (S p - String.length ds) +:+ ds) = true).
  { now rewrite plain_app, H, zeros_plain. }
  destruct p; [exact Hz|].
  rewrite !plain_app. unfold plain in *.
  now rewrite all_chars_substring, all_chars_skip by exact Hz.
Qed.

Lemma format_float_plain (p : nat) (f : spec_float) :
  plain (format_float_f p f) = true.
Proof.
  destruct f as [s|s| |s m e]; cbn [format_float_f].
  - rewrite plain_app, (place_point_plain p "0" eq_refl). now destruct s.
  - now destruct s.
  - reflexivity.
  - rewrite plain_app, (place_point_plain p _ (digits_plain _)). now destruct s.
Qed.

Lemma str_int_plain (z : Z) : plain (str_int z) = true.
Proof.
  unfold str_int. rewrite plain_app, digits_plain. now destruct (z <? 0).
Qed.

End FormatFacts.

(** ** Substitution of placeholders *)

Module SubstFacts.
Import Text TextFacts Py Spec.

Lemma re_sub_literal (template : string -> string -> result string) (t r s : string) :
  has_char backslash r = false -> re_sub template t r s = Ok (replace_all t r s).
Proof. unfold re_sub. now intros ->. Qed.

Lemma plain_no_brace (s : string) : plain s = true -> has_char "{" s = false.
Proof. intros H. now apply (all_chars_has_char _ _ _ H). Qed.

Lemma plain_no_backslash (s : string) : plain s = true -> has_char backslash s = false.
Proof. intros H. now apply (all_chars_has_char _ _ _ H). Qed.

(** The shape [is_token] checks. *)
Lemma is_token_shape (t : string) :
  is_token t = true ->
  exists c body,
    t = String "{" (String "{" (String c body))
    /\ c <> "{"%char /\ has_char "{" (String c body) = false.
Proof.
  destruct t as [|a [|b [|c body]]]; try discriminate. cbn [is_token].
  rewrite !andb_true_iff, !negb_true_iff.
  intros [[[->%eqb_true ->%eqb_true] Hc] Hb].
  exists c, body. split; [reflexivity|]. split; [now apply eqb_false|].
  cbn [has_char]. rewrite Hb, orb_false_r.
  apply eqb_false. apply eqb_false in Hc. congruence.
Qed.

(** A placeholder other than the one being replaced is copied. *)
Lemma replace_all_other (t r u s : string) :
  is_token t = true -> is_token u = true ->
  starts_with t (u +:+ s) = false ->
  replace_all t r (u +:+ s) = u +:+ replace_all t r s.
Proof.
  intros (c & body & -> & Hc & Hb)%is_token_shape
         (d & rest & -> & Hd & Hr)%is_token_shape Hmiss.
  rewrite !app_cons in *. rewrite replace_all_miss by exact Hmiss. f_equal.
  rewrite replace_all_miss.
  2:{ cbn [starts_with]. rewrite Ascii.eqb_refl. cbn [andb].
      destruct (Ascii.eqb "{" d) eqn:E; [|reflexivity].
      apply eqb_true in E. congruence. }
  f_equal. rewrite <- app_cons. now apply replace_all_prefix.
Qed.

Lemma replace_all_cons_hit (t r : string) (c : ascii) (s : string) :
  starts_with t (String c s) = true ->
  replace_all t r (String c s) = r +:+ replace_from t r (String.length t - 1) s.
Proof. unfold replace_all. cbn [replace_from]. now intros ->. Qed.

(** *** Replacements that share no character with a placeholder

    [p] holds of the characters of the replacement and of none of the text
    [u] looked for. *)

Section Disjoint.
Variable p : ascii -> bool.
Variables t r : string.
Hypothesis r_chars : all_chars p r = true.
Hypothesis r_not_empty : r <> "".

Lemma starts_with_disjoint (u x : string) :
  u <> "" -> all_chars (fun c => negb (p c)) u = true ->
  starts_with u (r +:+ x) = false.
Proof.
  destruct u as [|a u]; [congruence|]. destruct r as [|b r']; [congruence|].
  intros _ Hu. cbn [all_chars] in Hu, r_chars. rewrite app_cons. cbn [starts_with].
  apply andb_true_iff in Hu as [Ha _]. apply andb_true_iff in r_chars as [Hb _].
  assert (Ascii.eqb a b = false) as ->; [|reflexivity].
  apply eqb_false. intros ->. rewrite Hb in Ha. discriminate Ha.
Qed.

Lemma contains_disjoint (u x : string) :
  u <> "" -> all_chars (fun c => negb (p c)) u = true ->
  contains u (r +:+ x) = contains u x.
Proof.
  intros Hne Hu. clear r_not_empty. induction r as [|b r' IH]; [reflexivity|].
  cbn [all_chars] in r_chars. apply andb_true_iff in r_chars as [Hb Hr].
  rewrite app_cons, contains_cons, (IH Hr).
  destruct u as [|a u']; [congruence|]. cbn [starts_with].
  cbn [all_chars] in Hu. apply andb_true_iff in Hu as [Ha _].
  assert (Ascii.eqb a b = false) as ->; [|reflexivity].
  apply eqb_false. intros ->. rewrite Hb in Ha. discriminate Ha.
Qed.

(** What the result begins with, up to the first replacement, the text
    began with. *)
Lemma starts_with_replaced (u s : string) :
  all_chars (fun c => negb (p c)) u = true ->
  starts_with u (replace_all t r s) = true -> starts_with u s = true.
Proof.
  revert u. induction s as [|c s IH]; intros [|a u] Hu; trivial.
  destruct (starts_with t (String c s)) eqn:Hit.
  - rewrite (replace_all_cons_hit _ _ _ _ Hit).
    now rewrite starts_with_disjoint.
  - rewrite (replace_all_miss _ _ _ _ Hit). cbn [starts_with].
    cbn [all_chars] in Hu. apply andb_true_iff in Hu as [_ Hu].
    intros [-> H]%andb_true_iff. now rewrite (IH u Hu H).
Qed.

(** A text absent before a substitution is absent after it. *)
Lemma absent_preserved (u s : string) (n : nat) :
  all_chars (fun c => negb (p c)) u = true ->
  contains u s = false -> contains u (replace_from t r n s) = false.
Proof.
  intros Hu. revert n. induction s as [|c s IH]; intros n H; [exact H|].
  assert (Hne : u <> "") by (intros ->; discriminate H).
  rewrite contains_cons in H. apply orb_false_iff in H as [H1 H2].
  destruct n as [|n]; [|now apply IH]. cbn [replace_from].
  destruct (starts_with t (String c s)) eqn:Hit.
  - rewrite contains_disjoint by assumption. now apply IH.
  - rewrite contains_cons, (IH 0%nat H2), orb_false_r.
    destruct (starts_with u (String c (replace_from t r 0 s))) eqn:E; [|reflexivity].
    change (String c (replace_from t r 0 s)) with (String c (replace_all t r s)) in E.
    rewrite <- (replace_all_miss _ _ _ _ Hit) in E.
    apply starts_with_replaced in E; [congruence|exact Hu].
Qed.

(** The text replaced is absent after its substitution. *)
Lemma replaced_absent (s : string) (n : nat) :
  t <> "" -> all_chars (fun c => negb (p c)) t = true ->
  contains t (replace_from t r n s) = false.
Proof.
  intros Hne Ht. revert n. induction s as [|c s IH]; intros n.
  - destruct t; [congruence|reflexivity].
  - destruct n as [|n]; [|apply IH]. cbn [replace_from].
    destruct (starts_with t (String c s)) eqn:Hit.
    + rewrite contains_disjoint by assumption. apply IH.
    + rewrite contains_cons, (IH 0%nat), orb_false_r.
      destruct (starts_with t (String c (replace_from t r 0 s))) eqn:E; [|reflexivity].
      change (String c (replace_from t r 0 s)) with (String c (replace_all t r s)) in E.
      rewrite <- (replace_all_miss _ _ _ _ Hit) in E.
      apply starts_with_replaced in E; [congruence|exact Ht].
Qed.

End Disjoint.

(** *** Texts in which every pair of braces begins a placeholder *)

Lemma guarded_app (tokens : list string) (r x : string) :
  has_char "{" r = false -> guarded tokens x = true -> guarded tokens (r +:+ x) = true.
Proof.
  intros Hr Hx. induction r as [|b r IH]; [exact Hx|].
  cbn [has_char] in Hr. apply orb_false_iff in Hr as [Hb Hr].
  rewrite app_cons. cbn [guarded starts_with]. rewrite Hb. cbn [andb].
  now apply IH.
Qed.

Lemma guarded_nil (s : string) : guarded [] s = true -> contains "{{" s = false.
Proof.
  induction s as [|c s IH]; [reflexivity|]. cbn [guarded existsb].
  rewrite contains_cons. intros [H1 H2]%andb_true_iff.
  rewrite (IH H2), orb_false_r. now destruct (starts_with "{{" (String c s)).
Qed.

Lemma starts_with_brace_replaced (t r s : string) :
  is_token t = true ->
  starts_with "{" (replace_all t r s) = true -> starts_with "{" s = true.
Proof.
  intros (c & body & -> & _)%is_token_shape. destruct s as [|d s]; [trivial|].
  destruct (starts_with (String "{" (String "{" (String c body))) (String d s)) eqn:Hit.
  - intros _. eapply starts_with_trans; [|exact Hit]. reflexivity.
  - now rewrite (replace_all_miss _ _ _ _ Hit).
Qed.

(** Replacing one placeholder by a text without brace leaves every pair of
    braces at the beginning of one of the other placeholders. *)
Lemma guarded_replaced (t r : string) (tokens : list string) (s : string) (n : nat) :
  is_token t = true -> forallb is_token tokens = true ->
  has_char "{" r = false ->
  guarded (t :: tokens) s = true ->
  guarded tokens (replace_from t r n s) = true.
Proof.
  intros Ht Hts Hr. revert n. induction s as [|c s IH]; intros n H; [reflexivity|].
  cbn [guarded] in H. apply andb_true_iff in H as [Hhead Htail].
  destruct n as [|n]; [|now apply IH]. cbn [replace_from].
  destruct (starts_with t (String c s)) eqn:Hit.
  - apply guarded_app; [exact Hr|now apply IH].
  - cbn [guarded]. rewrite (IH 0%nat Htail), andb_true_r.
    change (replace_from t r 0 s) with (replace_all t r s).
    destruct (starts_with "{{" (String c (replace_all t r s))) eqn:E; [|reflexivity].
    cbn [starts_with] in E. apply andb_true_iff in E as [Ec E].
    assert (E' : starts_with "{" (replace_all t r s) = true).
    { destruct (replace_all t r s); [discriminate E|]. cbn [starts_with] in *.
      apply andb_true_iff in E as [-> _]. reflexivity. }
    apply (starts_with_brace_replaced _ _ _ Ht) in E'.
    assert (Hpair : starts_with "{{" (String c s) = true).
    { cbn [starts_with]. rewrite Ec. cbn [andb]. destruct s; [discriminate E'|].
      cbn [starts_with] in *. apply andb_true_iff in E' as [-> _]. reflexivity. }
    rewrite Hpair in Hhead. cbn [existsb] in Hhead. rewrite Hit in Hhead.
    cbn [orb] in Hhead. apply existsb_exists in Hhead as (u & Hin & Hu).
    apply existsb_exists. exists u. split; [exact Hin|].
    destruct (starts_with_split _ _ Hu) as [x Hx].
    rewrite <- (replace_all_miss _ _ _ _ Hit), Hx.
    rewrite replace_all_other; [apply starts_with_app|exact Ht| |now rewrite <- Hx].
    rewrite forallb_forall in Hts. now apply Hts.
Qed.

(** *** Substitutions in sequence *)

Lemma guarded_substitute (pairs : list (string * string)) (s : string) :
  forallb is_token (map fst pairs) = true ->
  forallb (fun pr => negb (has_char "{" (snd pr))) pairs = true ->
  guarded (map fst pairs) s = true ->
  contains "{{" (substitute pairs s) = false.
Proof.
  revert s. induction pairs as [|[t r] pairs IH]; intros s Ht Hr Hg.
  - now apply guarded_nil.
  - cbn [forallb map fst snd] in Ht, Hr. apply andb_true_iff in Ht as [Ht Hts].
    apply andb_true_iff in Hr as [Hr Hrs]. apply negb_true_iff in Hr.
    cbn [substitute fold_left fst snd]. apply IH; trivial.
    now apply (guarded_replaced t r _ s 0).
Qed.

Lemma numeric_substitute (pairs : list (string * string)) (u s : string) :
  Forall (fun pr => fst pr <> ""
                    /\ all_chars (fun c => negb (numeric_char c)) (fst pr) = true
                    /\ snd pr <> "" /\ all_chars numeric_char (snd pr) = true) pairs ->
  all_chars (fun c => negb (numeric_char c)) u = true ->
  contains u s = false \/ In u (map fst pairs) ->
  contains u (substitute pairs s) = false.
Proof.
  revert s. induction pairs as [|[t r] pairs IH]; intros s Hp Hu H.
  - destruct H as [H|[]]. exact H.
  - apply Forall_cons in Hp as [(Ht & Htc & Hr & Hrc) Hp]. cbn [fst snd] in *.
    cbn [substitute fold_left fst snd]. apply IH; trivial.
    cbn [map In fst snd] in H. destruct H as [H|[->|H]]; [left|left|now right].
    + now apply (absent_preserved numeric_char t r Hrc Hr u s 0).
    + now apply (replaced_absent numeric_char u r Hrc Hr s 0).
Qed.

End SubstFacts.

(** ** The languages badge *)

Module LanguagesFacts.
Import Text TextFacts Py Script Spec.

(** Formatting never fails on the values the mapping holds. *)
Lemma format_prop (p : nat) (data : lang_data) :
  format_f p (get_prop data) = Ok (prop_text p data).
Proof. unfold get_prop, prop_text. now destruct (prop data). Qed.


Lemma prop_text_plain (p : nat) (data : lang_data) : plain (prop_text p data) = true.
Proof. unfold prop_text. destruct (prop data); apply FormatFacts.format_float_plain. Qed.

(** One iteration of the loop. *)
Lemma render_loop_step (i : Z) (lang : string) (data : lang_data)
    (l : list (string * lang_data)) (progress lang_list : string) :
  render_loop i ((lang, data) :: l) progress lang_list
  = render_loop (i + 1) l
      (progress +:+ progress_markup (resolve_color data) (prop_text 3 data))
      (lang_list +:+ item_markup (str_int (i * delay_between)) (resolve_color data)
                       lang (prop_text 2 data)).
Proof.
  cbn [render_loop]. unfold progress_item, lang_item.
  now rewrite !format_prop.
Qed.

End LanguagesFacts.

(** ** No placeholder is left *)

Module PlaceholderFacts.
Import Text TextFacts Py Script Spec.

Lemma format_comma_plain (z : Z) : plain (format_comma z) = true.
Proof. apply FormatFacts.numeric_plain, FormatFacts.format_comma_numeric. Qed.

Lemma format_comma_literal (z : Z) : has_char backslash (format_comma z) = false.
Proof. apply SubstFacts.plain_no_backslash, format_comma_plain. Qed.

(** With a name free of backslash, the seven [re.sub] calls are the seven
    substitutions of [overview_values], in order. *)
Lemma overview_text_substitute
    (template : string -> string -> result string) (s : Stats) (tpl : string) :
  has_char backslash (name s) = false ->
  overview_text template s tpl = Ok (substitute (overview_values s) tpl).
Proof.
  intros Hname. unfold overview_text.
  rewrite SubstFacts.re_sub_literal by exact Hname. cbn [rbind].
  repeat (rewrite SubstFacts.re_sub_literal by apply format_comma_literal; cbn [rbind]).
  reflexivity.
Qed.

Lemma progress_markup_plain (c w : string) :
  plain c = true -> plain w = true -> plain (progress_markup c w) = true.
Proof.
  intros Hc Hw. unfold progress_markup.
  rewrite !FormatFacts.plain_app, Hc, Hw. reflexivity.
Qed.

Lemma item_markup_plain (d c l w : string) :
  plain d = true -> plain c = true -> plain l = true -> plain w = true ->
  plain (item_markup d c l w) = true.
Proof.
  intros Hd Hc Hl Hw. unfold item_markup.
  rewrite !FormatFacts.plain_app, Hd, Hc, Hl, Hw. reflexivity.
Qed.

(** The fragments hold neither brace nor backslash when the names and the
    colors hold none. *)
Lemma render_loop_plain (l : list (string * lang_data)) (i : Z)
    (progress lang_list : string) :
  Forall (fun t => plain (fst t) = true /\ plain (resolve_color (snd t)) = true) l ->
  plain progress = true -> plain lang_list = true ->
  exists frags,
    render_loop i l progress lang_list = Ok frags
    /\ plain (fst frags) = true /\ plain (snd frags) = true.
Proof.
  revert i progress lang_list.
  induction l as [|[lang data] l IH]; intros i progress lang_list Hl Hp Hq.
  - now exists (progress, lang_list).
  - apply Forall_cons in Hl as [[Hn Hc] Hl]. cbn [fst snd] in Hn, Hc.
    rewrite LanguagesFacts.render_loop_step. apply IH; [exact Hl| |].
    + rewrite FormatFacts.plain_app, Hp.
      apply progress_markup_plain; [exact Hc|apply LanguagesFacts.prop_text_plain].
    + rewrite FormatFacts.plain_app, Hq.
      apply item_markup_plain;
        [apply FormatFacts.str_int_plain|exact Hc|exact Hn
        |apply LanguagesFacts.prop_text_plain].
Qed.

Lemma free_of_braces (tokens : list string) (s : string) :
  forallb (starts_with "{{") tokens = true ->
  contains "{{" s = false -> free_of tokens s = true.
Proof.
  intros Ht Hs. unfold free_of. apply forallb_forall. intros t Hin.
  rewrite forallb_forall in Ht. apply negb_true_iff.
  exact (contains_prefix "{{" t s (Ht t Hin) Hs).
Qed.

Lemma numeric_values (s : Stats) :
  Forall (fun pr => fst pr <> ""
                    /\ all_chars (fun c => negb (numeric_char c)) (fst pr) = true
                    /\ snd pr <> "" /\ all_chars numeric_char (snd pr) = true)
    (tl (overview_values s)).
Proof.
  repeat constructor; cbn [fst snd]; try discriminate;
    first [apply FormatFacts.format_comma_not_empty
          |apply FormatFacts.format_comma_numeric].
Qed.

End PlaceholderFacts.

(** C3 (as amended): take a snapshot whose name holds neither brace nor
    backslash, whose language entries all have a size, and whose language
    names and colors hold neither brace nor backslash; take templates in
    which every pair of opening braces begins a placeholder of the badge.
    Then both renderers return; each [re.sub] call replaces every occurrence
    of its placeholder, in source order; and the outputs hold no pair of
    opening braces, hence none of the seven, respectively two, placeholders.
    For any overview template at all, the output holds none of the six
    numeric placeholders. *)
Theorem placeholders_substituted
    (template : string -> string -> result string) (s : Stats)
    (overview_svg languages_svg : string) :
  Spec.plain (name s) = true ->
  Spec.guarded Spec.overview_tokens overview_svg = true ->
  Forall (fun t => size (snd t) <> None
                   /\ Spec.plain (fst t) = true
                   /\ Spec.plain (Script.resolve_color (snd t)) = true) (languages s) ->
  Spec.guarded Spec.languages_tokens languages_svg = true ->
  (exists out,
     Script.overview_text template s overview_svg = Ok out
     /\ out = Spec.substitute (Spec.overview_values s) overview_svg
     /\ Text.contains "{{" out = false
     /\ Spec.free_of Spec.overview_tokens out = true)
  /\ (exists out frags,
        Script.languages_text template s languages_svg = Ok out
        /\ out = Spec.substitute (Spec.languages_values frags) languages_svg
        /\ Text.contains "{{" out = false
        /\ Spec.free_of Spec.languages_tokens out = true)
  /\ forall any_svg, exists out,
       Script.overview_text template s any_svg = Ok out
       /\ Spec.free_of Spec.numeric_tokens out = true.
Proof.
  intros Hname Ho Hl Hg.
  pose proof (SubstFacts.plain_no_backslash _ Hname) as Hbs.
  pose proof (SubstFacts.plain_no_brace _ Hname) as Hbr.
  split; [|split].
  - eexists. split; [now apply PlaceholderFacts.overview_text_substitute|].
    split; [reflexivity|].
    assert (Hc : Text.contains "{{" (Spec.substitute (Spec.overview_values s) overview_svg)
                 = false).
    { apply SubstFacts.guarded_substitute; [reflexivity| |exact Ho].
      cbn [forallb Spec.overview_values snd]. rewrite Hbr.
      now rewrite !(SubstFacts.plain_no_brace _ (PlaceholderFacts.format_comma_plain _)). }
    split; [exact Hc|]. now apply PlaceholderFacts.free_of_braces.
  - assert (Hsz : Forall (fun t => size (snd t) <> None) (languages s))
      by (eapply Forall_impl; [exact Hl|]; now intros t (H & _)).
    destruct (OrderFacts.sorted_reverse_keyed
                (fun t : string * lang_data => size (snd t)) (languages s) Hsz)
      as (sl & E & P & _).
    assert (Hpl : Forall (fun t => Spec.plain (fst t) = true
                                   /\ Spec.plain (Script.resolve_color (snd t)) = true) sl).
    { rewrite <- P. eapply Forall_impl; [exact Hl|]. now intros t (_ & H). }
    destruct (PlaceholderFacts.render_loop_plain sl 0 "" "" Hpl eq_refl eq_refl)
      as (frags & Ef & Hp1 & Hp2).
    assert (Hout : Script.languages_text template s languages_svg
                   = Ok (Spec.substitute (Spec.languages_values frags) languages_svg)).
    { unfold Script.languages_text, Script.sorted_languages. rewrite E. cbn [rbind].
      rewrite Ef. cbn [rbind].
      rewrite SubstFacts.re_sub_literal by now apply SubstFacts.plain_no_backslash.
      cbn [rbind].
      now rewrite SubstFacts.re_sub_literal by now apply SubstFacts.plain_no_backslash. }
    exists (Spec.substitute (Spec.languages_values frags) languages_svg), frags.
    split; [exact Hout|]. split; [reflexivity|].
    assert (Hc : Text.contains "{{"
                   (Spec.substitute (Spec.languages_values frags) languages_svg) = false).
    { apply SubstFacts.guarded_substitute; [reflexivity| |exact Hg].
      cbn [forallb Spec.languages_values snd].
      now rewrite !SubstFacts.plain_no_brace. }
    split; [exact Hc|]. now apply PlaceholderFacts.free_of_braces.
  - intros any_svg. eexists.
    split; [now apply PlaceholderFacts.overview_text_substitute|].
    unfold Spec.free_of. apply forallb_forall. intros u Hu. apply negb_true_iff.
    change (Spec.substitute (Spec.overview_values s) any_svg)
      with (Spec.substitute (tl (Spec.overview_values s))
              (Text.replace_all "{{ name }}" (name s) any_svg)).
    apply SubstFacts.numeric_substitute.
    + apply PlaceholderFacts.numeric_values.
    + cbn [Spec.numeric_tokens] in Hu.
      repeat (destruct Hu as [<-|Hu]; [reflexivity|]). destruct Hu.
    + right. exact Hu.
Qed.

Lemma placeholders_substituted_witness :
  (exists out,
     Script.overview_text Examples.no_template Examples.octocat
       "<text>{{ name }}: {{ stars }} stars, {{ repos }} repos</text>" = Ok out
     /\ out = Spec.substitute (Spec.overview_values Examples.octocat)
                "<text>{{ name }}: {{ stars }} stars, {{ repos }} repos</text>"
     /\ Text.contains "{{" out = false
     /\ Spec.free_of Spec.overview_tokens out = true)
  /\ (exists out frags,
        Script.languages_text Examples.no_template Examples.octocat
          "<div>{{ progress }}</div><ul>{{ lang_list }}</ul>" = Ok out
        /\ out = Spec.substitute (Spec.languages_values frags)
                   "<div>{{ progress }}</div><ul>{{ lang_list }}</ul>"
        /\ Text.contains "{{" out = false
        /\ Spec.free_of Spec.languages_tokens out = true)
  /\ forall any_svg, exists out,
       Script.overview_text Examples.no_template Examples.octocat any_svg = Ok out
       /\ Spec.free_of Spec.numeric_tokens out = true.
Proof.
  apply (placeholders_substituted Examples.no_template Examples.octocat
           "<text>{{ name }}: {{ stars }} stars, {{ repos }} repos</text>"
           "<div>{{ progress }}</div><ul>{{ lang_list }}</ul>").
  - reflexivity.
  - reflexivity.
  - repeat constructor; discriminate.
  - reflexivity.
Defined.

(** C3, as stated, fails for a user whose display name is the text of a
    placeholder: the output still holds [{{ name }}].  A placeholder that
    stands twice in the template is replaced twice.  And a template whose
    braces do not all begin a placeholder can yield one: around a
    placeholder, the name ["a"] completes [{{ name }}]. *)
Lemma placeholder_in_name_survives :
  Script.overview_text Examples.no_template Examples.placeholder_name
    "<text>{{ name }}</text>" = Ok "<text>{{ name }}</text>"
  /\ Text.contains "{{ name }}" "<text>{{ name }}</text>" = true
  /\ Script.overview_text Examples.no_template Examples.placeholder_name
       "{{ stars }} and {{ stars }}" = Ok "7 and 7"
  /\ Spec.plain (name Examples.letter_a) = true
  /\ Script.overview_text Examples.no_template Examples.letter_a
       "{{ n{{ name }}me }}" = Ok "{{ name }}".
Proof. repeat split; vm_compute; reflexivity. Qed.

(** ** The lines-changed figure *)

(** C7: [generate_overview] puts, in place of [{{ lines_changed }}], the sum
    of the two components of the lines-changed pair, written in decimal with
    a comma between groups of three digits counted from the right: so it
    does between any two texts free of braces, and for any template the
    output is the template after the substitutions of [overview_values],
    which pair the placeholder with that text. *)
Theorem lines_changed_rendering
    (template : string -> string -> result string) (s : Stats) (pre post : string) :
  Text.has_char Text.backslash (name s) = false ->
  Text.has_char "{" pre = false ->
  Text.has_char "{" post = false ->
  let changed := fst (lines_changed s) + snd (lines_changed s) in
  Script.overview_text template s (pre +:+ "{{ lines_changed }}" +:+ post)
  = Ok (pre +:+ Py.format_comma changed +:+ post)
  /\ Spec.without_commas (Py.format_comma changed) = Py.str_int changed
  /\ Py.format_comma changed
     = (if changed <? 0 then "-" else "") +:+ Py.format_comma (Z.abs changed)
  /\ Spec.grouped_in_threes (Py.split "," (Py.format_comma (Z.abs changed)))
  /\ In ("{{ lines_changed }}", Py.format_comma changed) (Spec.overview_values s)
  /\ forall any_svg,
       Script.overview_text template s any_svg
       = Ok (Spec.substitute (Spec.overview_values s) any_svg).
Proof.
  intros Hname Hpre Hpost changed.
  assert (Hnum : forall z, Text.has_char Text.backslash (Py.format_comma z) = false).
  { intros z. apply SubstFacts.plain_no_backslash, FormatFacts.numeric_plain,
      FormatFacts.format_comma_numeric. }
  assert (Hkeep : forall t r,
    Spec.is_token t = true ->
    Text.starts_with t ("{{ lines_changed }}" +:+ post) = false ->
    Text.replace_all t r (pre +:+ "{{ lines_changed }}" +:+ post)
    = pre +:+ "{{ lines_changed }}" +:+ post).
  { intros t r Ht Hmiss.
    destruct (SubstFacts.is_token_shape t Ht) as (c & body & -> & _ & _).
    rewrite TextFacts.replace_all_prefix by exact Hpre.
    rewrite SubstFacts.replace_all_other by (trivial; reflexivity).
    rewrite (TextFacts.replace_all_absent _ r post); [reflexivity|].
    now apply TextFacts.contains_absent. }
  assert (Hdone : forall t r,
    Spec.is_token t = true ->
    Text.replace_all t r (pre +:+ Py.format_comma changed +:+ post)
    = pre +:+ Py.format_comma changed +:+ post).
  { intros t r Ht.
    destruct (SubstFacts.is_token_shape t Ht) as (c & body & -> & _ & _).
    apply TextFacts.replace_all_absent, TextFacts.contains_absent.
    rewrite !TextFacts.has_char_app, Hpre, Hpost.
    now rewrite (SubstFacts.plain_no_brace _
                   (FormatFacts.numeric_plain _ (FormatFacts.format_comma_numeric changed))). }
  split; [|split; [|split; [|split; [|split]]]].
  - unfold Script.overview_text.
    rewrite SubstFacts.re_sub_literal by exact Hname. cbn [rbind].
    rewrite Hkeep by reflexivity.
    rewrite SubstFacts.re_sub_literal by apply Hnum. cbn [rbind].
    rewrite Hkeep by reflexivity.
    rewrite SubstFacts.re_sub_literal by apply Hnum. cbn [rbind].
    rewrite Hkeep by reflexivity.
    rewrite SubstFacts.re_sub_literal by apply Hnum. cbn [rbind].
    rewrite Hkeep by reflexivity.
    rewrite SubstFacts.re_sub_literal by apply Hnum. cbn [rbind]. fold changed.
    rewrite (TextFacts.replace_all_prefix "{" _ _ pre) by exact Hpre.
    rewrite TextFacts.replace_all_hit by discriminate.
    rewrite (TextFacts.replace_all_absent _ _ post)
      by now apply TextFacts.contains_absent.
    rewrite SubstFacts.re_sub_literal by apply Hnum. cbn [rbind].
    rewrite Hdone by reflexivity.
    rewrite SubstFacts.re_sub_literal by apply Hnum.
    now rewrite Hdone by reflexivity.
  - unfold Py.format_comma, Py.str_int.
    pose proof (FormatFacts.without_commas_group3 _
                  (FormatFacts.digits_all (Z.abs_N changed))) as H.
    destruct (changed <? 0); [|exact H].
    rewrite !TextFacts.app_cons, !TextFacts.app_nil_l. cbn [Spec.without_commas Ascii.eqb].
    now rewrite H.
  - unfold Py.format_comma.
    assert ((Z.abs changed <? 0) = false) as -> by (apply Z.ltb_ge, Z.abs_nonneg).
    replace (Z.abs_N (Z.abs changed)) with (Z.abs_N changed) by now destruct changed.
    reflexivity.
  - unfold Py.format_comma.
    assert ((Z.abs changed <? 0) = false) as -> by (apply Z.ltb_ge, Z.abs_nonneg).
    rewrite TextFacts.app_nil_l.
    apply FormatFacts.grouped_group3;
      [apply FormatFacts.digits_not_empty|apply FormatFacts.digits_all].
  - cbn [Spec.overview_values In]. tauto.
  - intros any_svg. now apply PlaceholderFacts.overview_text_substitute.
Qed.

Lemma lines_changed_rendering_witness :
  Script.overview_text Examples.no_template Examples.octocat
    ("<b>" +:+ "{{ lines_changed }}" +:+ "</b>")
  = Ok ("<b>" +:+ "1,234,567" +:+ "</b>")
  /\ Spec.without_commas "1,234,567" = "1234567"
  /\ "1,234,567" = "" +:+ "1,234,567"
  /\ Spec.grouped_in_threes ["1"; "234"; "567"]
  /\ In ("{{ lines_changed }}", "1,234,567") (Spec.overview_values Examples.octocat)
  /\ forall any_svg,
       Script.overview_text Examples.no_template Examples.octocat any_svg
       = Ok (Spec.substitute (Spec.overview_values Examples.octocat) any_svg).
Proof.
  exact (lines_changed_rendering Examples.no_template Examples.octocat "<b>" "</b>"
           eq_refl eq_refl eq_refl).
Defined.

(** ** Further properties: preparation and validation *)

Module PrepFacts.
Import World Script Spec Props.

Lemma read_file_same (p : string) (w : world) : (read_file p w).1 = w.
Proof. unfold read_file. repeat (case_match; try reflexivity). Qed.

(** The steps of [check_permissions], when it passes. *)
Lemma check_permissions_passed (w w' : world) :
  check_permissions w = (w', Ok tt) ->
  (os_path_isdir "templates" w).2 = Ok true
  /\ (os_path_isfile "templates/overview.svg" w).2 = Ok true
  /\ (os_path_isfile "templates/languages.svg" w).2 = Ok true
  /\ (os_access "templates/overview.svg" R_OK w).2 = Ok true
  /\ (os_access "templates/languages.svg" R_OK w).2 = Ok true
  /\ (os_access "generated" W_OK w).2 = Ok true.
Proof.
  unfold check_permissions, bind, raise, ret.
  destruct (os_path_isdir "templates" w) as [w1 [b1|e1]] eqn:E1.
  2:{ discriminate. }
  assert (w1 = w) as -> by (unfold os_path_isdir in E1; congruence).
  destruct b1; cbn [negb]; [|discriminate].
  destruct (os_path_isfile "templates/overview.svg" w) as [w2 [b2|e2]] eqn:E2.
  2:{ discriminate. }
  assert (w2 = w) as -> by (unfold os_path_isfile in E2; congruence).
  destruct b2; cbn [negb]; [|discriminate].
  destruct (os_path_isfile "templates/languages.svg" w) as [w3 [b3|e3]] eqn:E3.
  2:{ discriminate. }
  assert (w3 = w) as -> by (unfold os_path_isfile in E3; congruence).
  destruct b3; cbn [negb]; [|discriminate].
  destruct (os_access "templates/overview.svg" R_OK w) as [w4 [b4|e4]] eqn:E4.
  2:{ discriminate. }
  assert (w4 = w) as -> by (unfold os_access in E4; congruence).
  destruct b4; cbn [negb]; [|discriminate].
  destruct (os_access "templates/languages.svg" R_OK w) as [w5 [b5|e5]] eqn:E5.
  2:{ discriminate. }
  assert (w5 = w) as -> by (unfold os_access in E5; congruence).
  destruct b5; cbn [negb]; [|discriminate].
  destruct (os_access "generated" W_OK w) as [w6 [b6|e6]] eqn:E6.
  2:{ discriminate. }
  destruct b6; cbn [negb]; [|discriminate].
  intros _. repeat split; reflexivity.
Qed.

(** [stat] on a name of the working directory and on a name one level
    down. *)
Lemma stat_here (w : world) (p : string) :
  dirname p = None ->
  stat w p
  = if may w (cwd_mode w) (cwd_cls w) X_OK
    then match fs w !! p with Some n => inr n | None => inl ENOENT end
    else inl EACCES.
Proof.
  intros Hd. unfold stat, parent. rewrite Hd.
  now destruct (may w (cwd_mode w) (cwd_cls w) X_OK).
Qed.

Lemma stat_below (w : world) (p d : string) :
  dirname p = Some d ->
  stat w p
  = if may w (cwd_mode w) (cwd_cls w) X_OK
    then match fs w !! d with
         | Some (Dir m c) =>
             if may w m c X_OK
             then match fs w !! p with Some n => inr n | None => inl ENOENT end
             else inl EACCES
         | Some (File _ _ _) => inl ENOTDIR
         | None => inl ENOENT
         end
    else inl EACCES.
Proof.
  intros Hd. unfold stat, parent. rewrite Hd.
  destruct (may w (cwd_mode w) (cwd_cls w) X_OK); [|reflexivity]. cbn [negb].
  destruct (fs w !! d) as [[m c|m c x]|]; try reflexivity.
  now destruct (may w m c X_OK).
Qed.

(** [check_permissions] when each of its six tests passes. *)
Lemma check_permissions_steps (w : world) :
  (os_path_isdir "templates" w).2 = Ok true ->
  (os_path_isfile "templates/overview.svg" w).2 = Ok true ->
  (os_path_isfile "templates/languages.svg" w).2 = Ok true ->
  (os_access "templates/overview.svg" R_OK w).2 = Ok true ->
  (os_access "templates/languages.svg" R_OK w).2 = Ok true ->
  (os_access "generated" W_OK w).2 = Ok true ->
  check_permissions w = (w, Ok tt).
Proof.
  unfold os_path_isdir, os_path_isfile, os_access. cbn [snd].
  intros [= A] [= B] [= C] [= D] [= E] [= F].
  unfold check_permissions, bind, os_path_isdir, os_path_isfile, os_access.
  rewrite A. cbn [negb]. rewrite B. cbn [negb]. rewrite C. cbn [negb].
  rewrite D. cbn [negb]. rewrite E. cbn [negb]. rewrite F. reflexivity.
Qed.

End PrepFacts.

(** X1: [generate_output_folder] raises, with nothing created and nothing
    printed, [FileExistsError] when ["generated"] is there as a regular
    file, and [PermissionError] when the working directory cannot be
    searched, or when ["generated"] is missing and the working directory
    cannot be written. *)
Theorem generate_output_folder_failure (w : World.world) (e : exn) :
  (World.may w (World.cwd_mode w) (World.cwd_cls w) World.X_OK = true
   /\ (exists m c d, World.fs w !! "generated" = Some (World.File m c d))
   /\ e = FileExistsError "generated")
  \/ ((World.may w (World.cwd_mode w) (World.cwd_cls w) World.X_OK = false
       \/ (World.fs w !! "generated" = None
           /\ World.may w (World.cwd_mode w) (World.cwd_cls w) World.W_OK = false))
      /\ e = PermissionError "generated") ->
  Script.generate_output_folder w = (w, Raise e).
Proof.
  intros H.
  unfold Script.generate_output_folder, World.bind, World.os_path_isdir,
    World.os_mkdir.
  rewrite (PrepFacts.stat_here w "generated") by reflexivity.
  unfold World.parent. change (World.dirname "generated") with (@None string).
  destruct (World.may w (World.cwd_mode w) (World.cwd_cls w) World.X_OK) eqn:Ex.
  - destruct H as [(_ & (m & c & d & Hf) & ->)|([Hx|[Hn Hw]] & ->)];
      [|discriminate Hx|].
    + rewrite Hf. cbv beta iota delta [negb]. rewrite Ex, Hf. reflexivity.
    + rewrite Hn. cbv beta iota delta [negb]. rewrite Ex, Hn.
      cbv beta iota delta [negb]. unfold World.parent_writable. now rewrite Hw.
  - destruct H as [(Hx & _)|(_ & ->)]; [discriminate Hx|].
    cbv beta iota delta [negb]. rewrite Ex. reflexivity.
Qed.

Lemma generate_output_folder_failure_witness :
  Script.generate_output_folder Cases.world_with_file
  = (Cases.world_with_file, Raise (FileExistsError "generated"))
  /\ Script.generate_output_folder Cases.read_only_world
     = (Cases.read_only_world, Raise (PermissionError "generated")).
Proof.
  split.
  - apply (generate_output_folder_failure Cases.world_with_file
             (FileExistsError "generated")).
    left. split; [reflexivity|]. split; [|reflexivity].
    eexists _, _, _. vm_compute. reflexivity.
  - apply (generate_output_folder_failure Cases.read_only_world
             (PermissionError "generated")).
    right. split; [|reflexivity]. right. split; vm_compute; reflexivity.
Defined.

(** X2: [check_permissions] changes nothing, and it returns normally
    exactly when the working directory and ["templates"] can be searched,
    ["templates"] is a directory, both templates are regular files the
    process may read, and ["generated"] is there, as a directory or not,
    and the process may write it. *)
Theorem check_permissions_guarantees (w : World.world) :
  (Script.check_permissions w).1 = w
  /\ ((Script.check_permissions w).2 = Ok tt
      <-> World.may w (World.cwd_mode w) (World.cwd_cls w) World.X_OK = true
          /\ (exists m c,
                World.fs w !! "templates" = Some (World.Dir m c)
                /\ World.may w m c World.X_OK = true)
          /\ (exists m c d,
                World.fs w !! "templates/overview.svg" = Some (World.File m c d)
                /\ World.may w m c World.R_OK = true)
          /\ (exists m c d,
                World.fs w !! "templates/languages.svg" = Some (World.File m c d)
                /\ World.may w m c World.R_OK = true)
          /\ (exists n,
                World.fs w !! "generated" = Some n
                /\ World.may w (World.node_mode n) (World.node_cls n) World.W_OK
                   = true)).
Proof.
  split; [apply MainFacts.check_permissions_pure|]. split.
  - intros H. pose proof (MainFacts.check_permissions_pure w) as Hp.
    destruct (Script.check_permissions w) as [w' r] eqn:Hc. cbn [fst snd] in *.
    subst w' r.
    destruct (PrepFacts.check_permissions_passed _ _ Hc) as (A & B & C & D & E & F).
    unfold World.os_path_isdir, World.os_path_isfile, World.os_access in *.
    cbn [snd] in *.
    rewrite (PrepFacts.stat_here w "templates") in A by reflexivity.
    rewrite (PrepFacts.stat_below w "templates/overview.svg" "templates") in B, D
      by reflexivity.
    rewrite (PrepFacts.stat_below w "templates/languages.svg" "templates") in C, E
      by reflexivity.
    rewrite (PrepFacts.stat_here w "generated") in F by reflexivity.
    destruct (World.may w (World.cwd_mode w) (World.cwd_cls w) World.X_OK);
      [|discriminate A].
    split; [reflexivity|].
    destruct (World.fs w !! "templates") as [[m c|m c x]|]; try discriminate A.
    destruct (World.may w m c World.X_OK) eqn:Htx; [|discriminate B].
    split; [now exists m, c|].
    destruct (World.fs w !! "templates/overview.svg") as [[m1 c1|m1 c1 d1]|];
      try discriminate B.
    destruct (World.fs w !! "templates/languages.svg") as [[m2 c2|m2 c2 d2]|];
      try discriminate C.
    cbn [World.node_mode World.node_cls] in D, E.
    injection D as D. injection E as E.
    split; [now exists m1, c1, d1|]. split; [now exists m2, c2, d2|].
    destruct (World.fs w !! "generated") as [n|]; [|discriminate F].
    injection F as F. now exists n.
  - intros (Hx & (m & c & Ht & Htx) & (m1 & c1 & d1 & Ho & Hor)
            & (m2 & c2 & d2 & Hl & Hlr) & (n & Hg & Hgw)).
    rewrite PrepFacts.check_permissions_steps; [reflexivity|..];
      unfold World.os_path_isdir, World.os_path_isfile, World.os_access; cbn [snd].
    + rewrite (PrepFacts.stat_here w "templates") by reflexivity.
      now rewrite Hx, Ht.
    + rewrite (PrepFacts.stat_below w "templates/overview.svg" "templates")
        by reflexivity.
      now rewrite Hx, Ht, Htx, Ho.
    + rewrite (PrepFacts.stat_below w "templates/languages.svg" "templates")
        by reflexivity.
      now rewrite Hx, Ht, Htx, Hl.
    + rewrite (PrepFacts.stat_below w "templates/overview.svg" "templates")
        by reflexivity.
      rewrite Hx, Ht, Htx, Ho. cbn [World.node_mode World.node_cls].
      now rewrite Hor.
    + rewrite (PrepFacts.stat_below w "templates/languages.svg" "templates")
        by reflexivity.
      rewrite Hx, Ht, Htx, Hl. cbn [World.node_mode World.node_cls].
      now rewrite Hlr.
    + rewrite (PrepFacts.stat_here w "generated") by reflexivity.
      now rewrite Hx, Hg, Hgw.
Qed.

(** [check_permissions] does not ask what ["generated"] is: a regular file
    of that name, writable, passes. *)
Example check_permissions_takes_a_file :
  Script.check_permissions
    (Examples.world_of
       (<["generated" := World.File 420 World.Owner "text"]> Examples.templates) ∅)
  = (Examples.world_of
       (<["generated" := World.File 420 World.Owner "text"]> Examples.templates) ∅,
     Ok tt).
Proof. vm_compute. reflexivity. Qed.

(** ** Further properties: the renderers *)

Module RenderFacts.
Import World Script Spec Props.

Lemma generate_overview_render
    (template : string -> string -> result string) (s : Stats) :
  generate_overview template s
  = render "templates/overview.svg" "generated/overview.svg"
      (overview_text template s) "Generated file: generated/overview.svg".
Proof. reflexivity. Qed.

Lemma generate_languages_render
    (template : string -> string -> result string) (s : Stats) :
  generate_languages template s
  = render "templates/languages.svg" "generated/languages.svg"
      (languages_text template s) "Generated file: generated/languages.svg".
Proof. reflexivity. Qed.

Lemma same_process_refl (w : world) : same_process w w.
Proof. now repeat split. Qed.

Lemma same_process_trans (w1 w2 w3 : world) :
  same_process w1 w2 -> same_process w2 w3 -> same_process w1 w3.
Proof.
  intros (A1 & A2 & A3 & A4 & A5) (B1 & B2 & B3 & B4 & B5).
  repeat split; congruence.
Qed.

Lemma printed_refl (w : world) : printed w w.
Proof. exists []. cbn. now rewrite app_nil_r. Qed.

Lemma printed_trans (w1 w2 w3 : world) :
  printed w1 w2 -> printed w2 w3 -> printed w1 w3.
Proof.
  intros [l1 H1] [l2 H2]. exists (l1 ++ l2).
  now rewrite H2, H1, map_app, app_assoc.
Qed.

(** *** The steps of a renderer *)

Lemma read_file_result (p : string) (w w' : world) (r : result string) :
  read_file p w = (w', r) -> w' = w.
Proof. intros H. pose proof (PrepFacts.read_file_same p w) as E. now rewrite H in E. Qed.

Lemma write_file_raise (p d : string) (w w' : world) (e : exn) :
  write_file p d w = (w', Raise e) -> w' = w.
Proof.
  unfold write_file. repeat (case_match; try discriminate); congruence.
Qed.

(** A successful write puts the text at [p], in a new file of mode
    [0o666 & ~umask] or in the file that was there, which was writable. *)
Lemma write_file_ok (p d : string) (w w' : world) :
  write_file p d w = (w', Ok tt) ->
  exists m c,
    w' = with_fs (<[p := File m c d]> (fs w)) w
    /\ ((fs w !! p = None /\ m = Z.land 438 (Z.lnot (umask w)) /\ c = Owner)
        \/ (exists d0, fs w !! p = Some (File m c d0) /\ may w m c W_OK = true)).
Proof.
  unfold write_file.
  destruct (parent w p) as [e|dir]; [discriminate|].
  destruct (fs w !! p) as [[m c|m c d0]|] eqn:E; [discriminate| |].
  - destruct (may w m c W_OK) eqn:Em; [|discriminate].
    intros H. injection H as <-. exists m, c. split; [reflexivity|]. right. eauto.
  - destruct (parent_writable w dir); [|discriminate].
    intros H. injection H as <-. eexists _, _. split; [reflexivity|]. now left.
Qed.

(** A successful [generate_output_folder] leaves the file system as it was,
    or adds the directory, with mode 777. *)
Lemma generate_output_folder_ok (w w' : world) :
  generate_output_folder w = (w', Ok tt) ->
  same_process w w' /\ printed w w'
  /\ (exists m c, fs w' !! "generated" = Some (Dir m c))
  /\ (fs w' = fs w
      \/ (fs w !! "generated" = None
          /\ fs w' = <["generated" := Dir 511 Owner]> (fs w))).
Proof.
  intros H. pose proof (FolderFacts.generate_output_folder_cases w) as Hc.
  destruct (stat w "generated") as [e|[m c|m c d]] eqn:Est.
  - destruct Hc as [[e' He]|(_ & Hn & Hc)]; [congruence|].
    rewrite Hc in H. injection H as <-. cbn.
    split; [now repeat split|]. split; [now eexists [_]|].
    split; [|now right]. rewrite lookup_insert_eq. eauto.
  - rewrite Hc in H. injection H as <-. cbn.
    split; [now repeat split|]. split; [now eexists [_]|].
    split; [|now left]. unfold stat in Est.
    destruct (parent w "generated"); [discriminate|].
    destruct (fs w !! "generated"); [|discriminate]. injection Est as ->. eauto.
  - destruct Hc as [[e' He]|(_ & Hn & Hc)]; [congruence|].
    unfold stat in Est. destruct (parent w "generated"); [discriminate|].
    rewrite Hn in Est. discriminate.
Qed.

Lemma generate_output_folder_raise (w w' : world) (e : exn) :
  generate_output_folder w = (w', Raise e) -> w' = w.
Proof.
  intros H. pose proof (FolderFacts.generate_output_folder_cases w) as Hc.
  destruct (stat w "generated") as [x|[m c|m c d]].
  - destruct Hc as [[e' He]|(_ & _ & Hc)]; congruence.
  - congruence.
  - destruct Hc as [[e' He]|(_ & _ & Hc)]; congruence.
Qed.

(** A renderer, step by step. *)
Lemma render_cases (tp op : string) (text : string -> result string)
    (msg : string) (w : world) :
  render tp op text msg w
  = match read_file tp w with
    | (w0, Raise e) => (w0, Raise e)
    | (w0, Ok tpl) =>
        match text tpl with
        | Raise e => (w0, Raise e)
        | Ok out =>
            match generate_output_folder w0 with
            | (w1, Raise e) => (w1, Raise e)
            | (w1, Ok _) =>
                match write_file op out w1 with
                | (w2, Raise e) => (w2, Raise e)
                | (w2, Ok _) => print msg w2
                end
            end
        end
    end.
Proof.
  unfold render, bind, lift.
  destruct (read_file tp w) as [w0 [tpl|e]]; [|reflexivity].
  destruct (text tpl) as [out|e]; [|reflexivity].
  destruct (generate_output_folder w0) as [w1 [[]|e]]; [|reflexivity].
  destruct (write_file op out w1) as [w2 [[]|e]]; reflexivity.
Qed.

(** What a renderer that returns normally has done. *)
Lemma render_ok (tp op : string) (text : string -> result string)
    (msg : string) (w w' : world) :
  op <> "generated" ->
  render tp op text msg w = (w', Ok tt) ->
  exists tpl out m c w1,
    read_file tp w = (w, Ok tpl)
    /\ text tpl = Ok out
    /\ generate_output_folder w = (w1, Ok tt)
    /\ write_file op out w1 = (with_fs (<[op := File m c out]> (fs w1)) w1, Ok tt)
    /\ w' = with_log (log w1 ++ [EvPrint msg])
              (with_fs (<[op := File m c out]> (fs w1)) w1)
    /\ ((fs w1 !! op = None /\ m = Z.land 438 (Z.lnot (umask w)) /\ c = Owner)
        \/ (exists d0, fs w1 !! op = Some (File m c d0) /\ may w m c W_OK = true)).
Proof.
  intros Hop. rewrite render_cases.
  destruct (read_file tp w) as [w0 [tpl|e]] eqn:Er; [|discriminate].
  pose proof (read_file_result _ _ _ _ Er) as ->.
  destruct (text tpl) as [out|e] eqn:Et; [|discriminate].
  destruct (generate_output_folder w) as [w1 [[]|e]] eqn:Eg; [|discriminate].
  destruct (write_file op out w1) as [w2 [[]|e]] eqn:Ew; [|discriminate].
  destruct (write_file_ok _ _ _ _ Ew) as (m & c & -> & Hm).
  destruct (generate_output_folder_ok _ _ Eg) as ((_ & _ & Hroot & Hum & _) & _).
  intros H. unfold print in H. injection H as <-.
  exists tpl, out, m, c, w1. repeat split; trivial.
  unfold may in *. now rewrite <- Hroot, <- Hum.
Qed.

End RenderFacts.

(** X3: when [generate_overview] returns normally, the file
    [generated/overview.svg] holds the template after the seven
    substitutions, ["generated"] is a directory, and no other entry of the
    file system has changed. *)
Theorem generate_overview_writes
    (template : string -> string -> result string) (s : Stats)
    (w w' : World.world) :
  Script.generate_overview template s w = (w', Ok tt) ->
  exists tpl out m c,
    World.read_file "templates/overview.svg" w = (w, Ok tpl)
    /\ Script.overview_text template s tpl = Ok out
    /\ World.fs w' !! "generated/overview.svg" = Some (World.File m c out)
    /\ (exists gm gc, World.fs w' !! "generated" = Some (World.Dir gm gc))
    /\ forall p, p <> "generated" -> p <> "generated/overview.svg" ->
         World.fs w' !! p = World.fs w !! p.
Proof.
  rewrite RenderFacts.generate_overview_render. intros H.
  apply RenderFacts.render_ok in H; [|discriminate].
  destruct H as (tpl & out & m & c & w1 & Hr & Ht & Hg & _ & -> & _).
  destruct (RenderFacts.generate_output_folder_ok _ _ Hg) as (_ & _ & [gm [gc Hd]] & Hfs).
  exists tpl, out, m, c. split; [exact Hr|]. split; [exact Ht|]. cbn.
  split; [apply lookup_insert_eq|]. split.
  - exists gm, gc. now rewrite lookup_insert_ne by discriminate.
  - intros p Hp1 Hp2. rewrite lookup_insert_ne by congruence.
    destruct Hfs as [->|[_ ->]]; [reflexivity|]. now rewrite lookup_insert_ne by congruence.
Qed.

Lemma generate_overview_writes_witness :
  exists tpl out m c,
    World.read_file "templates/overview.svg" Cases.ready_world
    = (Cases.ready_world, Ok tpl)
    /\ Script.overview_text Examples.no_template Examples.octocat tpl = Ok out
    /\ World.fs (Script.generate_overview Examples.no_template Examples.octocat
                   Cases.ready_world).1 !! "generated/overview.svg"
       = Some (World.File m c out)
    /\ (exists gm gc,
          World.fs (Script.generate_overview Examples.no_template Examples.octocat
                      Cases.ready_world).1 !! "generated"
          = Some (World.Dir gm gc))
    /\ forall p, p <> "generated" -> p <> "generated/overview.svg" ->
         World.fs (Script.generate_overview Examples.no_template Examples.octocat
                     Cases.ready_world).1 !! p
         = World.fs Cases.ready_world !! p.
Proof.
  apply (generate_overview_writes Examples.no_template Examples.octocat
           Cases.ready_world).
  vm_compute. reflexivity.
Defined.

(** X4: when [generate_languages] cannot read its template, or when the
    sort or a substitution raises (as for a missing size), it raises that
    error having touched nothing: no directory is created, no file is
    written and nothing is printed. *)
Theorem generate_languages_aborts_untouched
    (template : string -> string -> result string) (s : Stats)
    (w : World.world) (e : exn) :
  (World.read_file "templates/languages.svg" w).2 = Raise e
  \/ (exists tpl,
        World.read_file "templates/languages.svg" w = (w, Ok tpl)
        /\ Script.languages_text template s tpl = Raise e) ->
  Script.generate_languages template s w = (w, Raise e).
Proof.
  rewrite RenderFacts.generate_languages_render, RenderFacts.render_cases.
  intros [H|(tpl & Hr & Ht)].
  - destruct (World.read_file "templates/languages.svg" w) as [w0 r] eqn:Er.
    pose proof (RenderFacts.read_file_result _ _ _ _ Er) as ->.
    cbn [snd] in H. now rewrite H.
  - now rewrite Hr, Ht.
Qed.

Lemma generate_languages_aborts_untouched_witness :
  exists msg,
    Script.generate_languages Examples.no_template
      (Examples.tied ("Python", Examples.lang 500)
         ("Rust", {| size := None; color := None; prop := None |})
         ("C", Examples.lang 100))
      Cases.ready_world
    = (Cases.ready_world, Raise (TypeError msg)).
Proof.
  eexists.
  apply (generate_languages_aborts_untouched Examples.no_template
           (Examples.tied ("Python", Examples.lang 500)
              ("Rust", {| size := None; color := None; prop := None |})
              ("C", Examples.lang 100))
           Cases.ready_world).
  right. eexists. split; vm_compute; reflexivity.
Defined.

(** ** Further properties: what a step depends on *)

Module FrameFacts.
Import World Script Spec Props.

Lemma may_same (w u : world) (m : Z) (c : who) (a : perm) :
  same_process w u -> may u m c a = may w m c a.
Proof. intros (_ & _ & H & _). unfold may. now rewrite H. Qed.

Lemma parent_frame (p : string) (w u : world) :
  same_process w u ->
  (forall d, dirname p = Some d -> fs u !! d = fs w !! d) ->
  parent u p = parent w p.
Proof.
  intros Hs Hd. pose proof Hs as (E1 & E2 & _). unfold parent.
  rewrite E1, E2, (may_same w u) by exact Hs.
  destruct (dirname p) as [d|]; [|reflexivity].
  rewrite (Hd d eq_refl).
  destruct (fs w !! d) as [[m c|m c x]|]; try reflexivity.
  now rewrite (may_same w u).
Qed.

Lemma stat_frame (p : string) (w u : world) :
  agree_at p w u -> stat u p = stat w p.
Proof.
  intros (Hs & Hp & Hd). unfold stat.
  now rewrite (parent_frame p w u Hs Hd), Hp.
Qed.

Lemma read_file_frame (p : string) (w u : world) (d : string) :
  agree_at p w u -> read_file p w = (w, Ok d) -> read_file p u = (u, Ok d).
Proof.
  intros H. unfold read_file. rewrite (stat_frame p w u H).
  destruct (stat w p) as [e|[m c|m c x]]; try discriminate.
  destruct H as (Hs & _). rewrite (may_same w u) by exact Hs.
  destruct (may w m c R_OK); [|discriminate]. congruence.
Qed.

(** Reading depends on the entry, on the directory that holds it and on the
    process only. *)
Lemma read_file_agree (p : string) (w u : world) :
  agree_at p w u -> (read_file p u).2 = (read_file p w).2.
Proof.
  intros H. unfold read_file. rewrite (stat_frame p w u H).
  destruct (stat w p) as [e|[m c|m c x]]; try reflexivity.
  destruct H as (Hs & _). rewrite (may_same w u) by exact Hs.
  now destruct (may w m c R_OK).
Qed.

End FrameFacts.

(** ** Further properties: a whole run *)

Module RunFacts.
Import World Script Spec Props.

(** A read that succeeded in a state that agrees with [w] at the file
    succeeds in [w], with the same text. *)
Lemma read_file_back (p : string) (w u : world) (d : string) :
  agree_at p w u -> read_file p u = (u, Ok d) -> read_file p w = (w, Ok d).
Proof.
  intros H Hr. pose proof (FrameFacts.read_file_agree p w u H) as E.
  rewrite Hr in E. cbn [snd] in E.
  pose proof (PrepFacts.read_file_same p w) as Hw.
  destruct (read_file p w) as [w0 r]. cbn [fst snd] in *. congruence.
Qed.

Lemma render_printed (tp op : string) (text : string -> result string)
    (msg : string) (w : world) :
  printed w (render tp op text msg w).1.
Proof.
  rewrite RenderFacts.render_cases.
  destruct (read_file tp w) as [w0 [tpl|e]] eqn:Er;
    pose proof (RenderFacts.read_file_result _ _ _ _ Er) as ->;
    [|apply RenderFacts.printed_refl].
  destruct (text tpl) as [out|e]; [|apply RenderFacts.printed_refl].
  destruct (generate_output_folder w) as [w1 [[]|e]] eqn:Eg.
  2:{ rewrite (RenderFacts.generate_output_folder_raise _ _ _ Eg).
      apply RenderFacts.printed_refl. }
  destruct (RenderFacts.generate_output_folder_ok _ _ Eg) as (_ & Hp & _).
  destruct (write_file op out w1) as [w2 [[]|e]] eqn:Ew.
  - destruct (RenderFacts.write_file_ok _ _ _ _ Ew) as (m & c & -> & _).
    eapply RenderFacts.printed_trans; [exact Hp|]. now exists [msg].
  - now rewrite (RenderFacts.write_file_raise _ _ _ _ _ Ew).
Qed.

Section Run.
Variable template : string -> string -> result string.
Variable fetch : stats_config -> Stats.

(** [main] past both preparation steps and both credential checks: the two
    renderers run inside the session, the languages badge first. *)
Lemma main_run (w w1 : world) (c : ascii) (t user : string) :
  generate_output_folder w = (w1, Ok tt) ->
  check_permissions w1 = (w1, Ok tt) ->
  env w !! "ACCESS_TOKEN" = Some (String c t) ->
  env w !! "GITHUB_ACTOR" = Some user ->
  main template fetch w
  = let s := fetch (config_of (env w) user (String c t)) in
    let (wb, r1) :=
      generate_languages template s
        (in_session (config_of (env w) user (String c t)) w1) in
    let (wc, r2) := generate_overview template s wb in
    (with_log (log wc ++ [EvSessionClose]) wc,
     match r1 with Raise e => Raise e | Ok _ => r2 end).
Proof.
  intros HG HC Ht Hu.
  pose proof (MainFacts.generate_output_folder_quiet w) as (He & _ & _).
  rewrite HG in He. cbn [fst] in He.
  unfold main.
  rewrite (MainFacts.bind_ok _ _ _ _ _ HG), (MainFacts.bind_ok _ _ _ _ _ HC).
  rewrite (MainFacts.bind_ok _ _ w1 w1 (env w !! "ACCESS_TOKEN"))
    by (unfold os_getenv; now rewrite He).
  rewrite Ht. cbn [truthy negb].
  rewrite (MainFacts.bind_ok _ _ w1 w1 (env w !! "GITHUB_ACTOR"))
    by (unfold os_getenv; now rewrite He).
  rewrite Hu.
  rewrite (MainFacts.bind_ok _ _ w1 w1 (env w !! "EXCLUDED"))
    by (unfold os_getenv; now rewrite He).
  rewrite (MainFacts.bind_ok _ _ w1 w1 (env w !! "EXCLUDED_LANGS"))
    by (unfold os_getenv; now rewrite He).
  rewrite (MainFacts.bind_ok _ _ w1 w1 (env w !! "EXCLUDE_FORKED_REPOS"))
    by (unfold os_getenv; now rewrite He).
  cbn [default from_option id]. cbv zeta.
  change (Build_stats_config user (String c t) _ _ _)
    with (config_of (env w) user (String c t)).
  unfold with_session, bind, emit, gather. cbv beta iota.
  cbn [log with_log fs cwd_mode cwd_cls is_root umask env].
  rewrite <- (app_assoc (log w1)).
  change (with_log (log w1 ++ [EvSessionOpen] ++ [EvStatsNew _]) _)
    with (in_session (config_of (env w) user (String c t)) w1).
  destruct (generate_languages template _ _) as [wb r1].
  destruct (generate_overview template _ wb) as [wc r2]. reflexivity.
Qed.

End Run.
End RunFacts.

(** X5: in every run, [main] opens at most one session; when it opens one,
    it constructs exactly one provider in it and closes it at the end,
    whether the renderers fail or not.  All else in the log is printed
    messages. *)
Theorem main_session_bracket
    (template : string -> string -> result string)
    (fetch : stats_config -> Stats) (w : World.world) :
  (exists msgs,
     World.log (Script.main template fetch w).1
     = World.log w ++ map World.EvPrint msgs)
  \/ (exists msgs cfg msgs',
        World.log (Script.main template fetch w).1
        = World.log w ++ map World.EvPrint msgs
            ++ [World.EvSessionOpen; World.EvStatsNew cfg]
            ++ map World.EvPrint msgs' ++ [World.EvSessionClose]).
Proof.
  pose proof (MainFacts.generate_output_folder_quiet w) as (_ & [m0 Hl] & _).
  destruct (Script.generate_output_folder w) as [w1 [[]|x]] eqn:HG; cbn [fst] in Hl.
  2:{ left. exists m0. unfold Script.main.
      now rewrite (MainFacts.bind_raise _ _ _ _ _ HG). }
  pose proof (MainFacts.check_permissions_pure w1) as Hp.
  destruct (Script.check_permissions w1) as [w2 [[]|x]] eqn:HC;
    cbn [fst] in Hp; subst w2.
  2:{ left. exists m0. unfold Script.main.
      rewrite (MainFacts.bind_ok _ _ _ _ _ HG).
      now rewrite (MainFacts.bind_raise _ _ _ _ _ HC). }
  pose proof (MainFacts.main_after_preparation template fetch w w1 w1 HG HC) as Hm.
  destruct (World.env w !! "ACCESS_TOKEN") as [[|c t]|] eqn:Et;
    [left; exists m0; now rewrite Hm| |left; exists m0; now rewrite Hm].
  destruct (World.env w !! "GITHUB_ACTOR") as [user|] eqn:Eu;
    [|left; exists m0; now rewrite Hm].
  right. rewrite (RunFacts.main_run template fetch w w1 c t user HG HC Et Eu).
  cbv zeta.
  set (cfg := Props.config_of (World.env w) user (String c t)).
  pose proof (RunFacts.render_printed "templates/languages.svg" "generated/languages.svg"
                (Script.languages_text template (fetch cfg))
                "Generated file: generated/languages.svg"
                (Props.in_session cfg w1)) as [m1 H1].
  rewrite <- RenderFacts.generate_languages_render in H1.
  destruct (Script.generate_languages template (fetch cfg) (Props.in_session cfg w1))
    as [wb r1].
  pose proof (RunFacts.render_printed "templates/overview.svg" "generated/overview.svg"
                (Script.overview_text template (fetch cfg))
                "Generated file: generated/overview.svg" wb) as [m2 H2].
  rewrite <- RenderFacts.generate_overview_render in H2.
  destruct (Script.generate_overview template (fetch cfg) wb) as [wc r2].
  cbn [fst World.log World.with_log Props.in_session] in *.
  exists m0, cfg, (m1 ++ m2). rewrite H2, H1, Hl, map_app.
  rewrite <- !app_assoc. reflexivity.
Qed.

(** X6: when [main] returns normally, both credentials were set and both
    badges are written: each output file holds the text read from its
    template after the substitutions, for the snapshot of the provider
    configured from the environment; apart from the two badges and the
    directory ["generated"], the file system is as before. *)
Theorem main_writes_both_badges
    (template : string -> string -> result string)
    (fetch : stats_config -> Stats) (w w' : World.world) :
  Script.main template fetch w = (w', Ok tt) ->
  exists user token overview_svg languages_svg overview languages,
    World.env w !! "GITHUB_ACTOR" = Some user
    /\ World.env w !! "ACCESS_TOKEN" = Some token /\ token <> ""
    /\ World.read_file "templates/overview.svg" w = (w, Ok overview_svg)
    /\ World.read_file "templates/languages.svg" w = (w, Ok languages_svg)
    /\ Script.overview_text template
         (fetch (Props.config_of (World.env w) user token)) overview_svg = Ok overview
    /\ Script.languages_text template
         (fetch (Props.config_of (World.env w) user token)) languages_svg = Ok languages
    /\ (exists m c,
          World.fs w' !! "generated/overview.svg" = Some (World.File m c overview))
    /\ (exists m c,
          World.fs w' !! "generated/languages.svg" = Some (World.File m c languages))
    /\ forall p,
         p <> "generated" -> p <> "generated/overview.svg" ->
         p <> "generated/languages.svg" ->
         World.fs w' !! p = World.fs w !! p.
Proof.
  intros H.
  pose proof (MainFacts.generate_output_folder_quiet w) as (_ & _ & Hf).
  destruct (Script.generate_output_folder w) as [w1 [[]|x]] eqn:HG; cbn [fst] in Hf.
  2:{ unfold Script.main in H.
      rewrite (MainFacts.bind_raise _ _ _ _ _ HG) in H. discriminate H. }
  pose proof (MainFacts.check_permissions_pure w1) as Hp.
  destruct (Script.check_permissions w1) as [w2 [[]|x]] eqn:HC;
    cbn [fst] in Hp; subst w2.
  2:{ unfold Script.main in H. rewrite (MainFacts.bind_ok _ _ _ _ _ HG) in H.
      rewrite (MainFacts.bind_raise _ _ _ _ _ HC) in H. discriminate H. }
  pose proof (MainFacts.main_after_preparation template fetch w w1 w1 HG HC) as Hm.
  destruct (World.env w !! "ACCESS_TOKEN") as [[|c t]|] eqn:Et;
    [rewrite Hm in H; discriminate H| |rewrite Hm in H; discriminate H].
  destruct (World.env w !! "GITHUB_ACTOR") as [user|] eqn:Eu;
    [|rewrite Hm in H; discriminate H].
  clear Hm.
  rewrite (RunFacts.main_run template fetch w w1 c t user HG HC Et Eu) in H.
  cbv zeta in H.
  set (cfg := Props.config_of (World.env w) user (String c t)) in *.
  destruct (Script.generate_languages template (fetch cfg) (Props.in_session cfg w1))
    as [wb r1] eqn:EL.
  destruct (Script.generate_overview template (fetch cfg) wb) as [wc r2] eqn:EO.
  injection H as <- Hr. destruct r1 as [[]|e1]; [|discriminate Hr]. subst r2.
  rewrite RenderFacts.generate_languages_render in EL.
  apply RenderFacts.render_ok in EL; [|discriminate].
  destruct EL as (tl & ol & ml & cl & wl & Hrl & Htl & Hgl & _ & -> & _).
  rewrite RenderFacts.generate_overview_render in EO.
  apply RenderFacts.render_ok in EO; [|discriminate].
  destruct EO as (to & oo & mo & co & wo & Hro & Hto & Hgo & _ & -> & _).
  assert (Hs1 : Props.same_process w w1)
    by apply (RenderFacts.generate_output_folder_ok _ _ HG).
  destruct (RenderFacts.generate_output_folder_ok _ _ Hgl) as (Hs2 & _ & _ & Hfl).
  assert (Hs3 : Props.same_process w wl)
    by (eapply RenderFacts.same_process_trans; [exact Hs1|exact Hs2]).
  destruct (RenderFacts.generate_output_folder_ok _ _ Hgo) as (_ & _ & _ & Hfo).
  assert (Hwl : forall p, p <> "generated" -> World.fs wl !! p = World.fs w !! p).
  { intros p Hne. rewrite <- (Hf p Hne).
    destruct Hfl as [->|[_ ->]]; [reflexivity|]. now rewrite lookup_insert_ne by congruence. }
  assert (Hwo : forall p, p <> "generated" -> p <> "generated/languages.svg" ->
                          World.fs wo !! p = World.fs w !! p).
  { intros p Hne1 Hne2. rewrite <- (Hwl p Hne1).
    destruct Hfo as [->|[_ ->]]; cbn [World.fs World.with_fs World.with_log];
      now rewrite ?(lookup_insert_ne _ "generated") by congruence;
      rewrite lookup_insert_ne by congruence. }
  assert (Hwo' : World.fs wo !! "generated/languages.svg"
                 = Some (World.File ml cl ol)).
  { destruct Hfo as [->|[_ ->]]; cbn [World.fs World.with_fs World.with_log];
      rewrite ?(lookup_insert_ne _ "generated") by discriminate;
      apply lookup_insert_eq. }
  exists user, (String c t), to, tl, oo, ol.
  split; [reflexivity|]. split; [reflexivity|]. split; [discriminate|].
  cbn [World.fs World.with_fs World.with_log Props.in_session] in *.
  split.
  { eapply RunFacts.read_file_back; [|exact Hro].
    split; [exact Hs3|]. cbn [World.fs World.with_fs World.with_log].
    split.
    - rewrite lookup_insert_ne by discriminate. now apply Hwl.
    - intros d Hd. vm_compute in Hd. injection Hd as <-.
      rewrite lookup_insert_ne by discriminate. now apply Hwl. }
  split.
  { eapply RunFacts.read_file_back; [|exact Hrl].
    split; [exact Hs1|]. cbn [World.fs World.with_fs World.with_log].
    split.
    - now apply Hf.
    - intros d Hd. vm_compute in Hd. injection Hd as <-. now apply Hf. }
  split; [exact Hto|]. split; [exact Htl|].
  split; [exists mo, co; apply lookup_insert_eq|].
  split.
  { exists ml, cl. now rewrite lookup_insert_ne by discriminate. }
  intros p H1 H2 H3. rewrite lookup_insert_ne by congruence. now apply Hwo.
Qed.

Lemma main_writes_both_badges_witness :
  let run := Script.main Examples.no_template (fun _ => Examples.octocat) in
  exists user token overview_svg languages_svg overview languages,
    World.env Cases.ready_world !! "GITHUB_ACTOR" = Some user
    /\ World.env Cases.ready_world !! "ACCESS_TOKEN" = Some token /\ token <> ""
    /\ World.read_file "templates/overview.svg" Cases.ready_world
       = (Cases.ready_world, Ok overview_svg)
    /\ World.read_file "templates/languages.svg" Cases.ready_world
       = (Cases.ready_world, Ok languages_svg)
    /\ Script.overview_text Examples.no_template
         ((fun _ => Examples.octocat)
            (Props.config_of (World.env Cases.ready_world) user token))
         overview_svg = Ok overview
    /\ Script.languages_text Examples.no_template
         ((fun _ => Examples.octocat)
            (Props.config_of (World.env Cases.ready_world) user token))
         languages_svg = Ok languages
    /\ (exists m c,
          World.fs (run Cases.ready_world).1 !! "generated/overview.svg"
          = Some (World.File m c overview))
    /\ (exists m c,
          World.fs (run Cases.ready_world).1 !! "generated/languages.svg"
          = Some (World.File m c languages))
    /\ forall p,
         p <> "generated" -> p <> "generated/overview.svg" ->
         p <> "generated/languages.svg" ->
         World.fs (run Cases.ready_world).1 !! p = World.fs Cases.ready_world !! p.
Proof.
  apply (main_writes_both_badges Examples.no_template (fun _ => Examples.octocat)
           Cases.ready_world).
  vm_compute. reflexivity.
Defined.

(** ** Further properties: running again *)

Module RerunFacts.
Import World Script Spec Props FrameFacts.

Lemma check_permissions_frame (w u : world) :
  agree_at "templates" w u ->
  agree_at "templates/overview.svg" w u ->
  agree_at "templates/languages.svg" w u ->
  agree_at "generated" w u ->
  check_permissions w = (w, Ok tt) -> check_permissions u = (u, Ok tt).
Proof.
  intros H1 H2 H3 H4 H.
  destruct (PrepFacts.check_permissions_passed _ _ H) as (A & B & C & D & E & F).
  pose proof H1 as (Hs & _).
  unfold os_path_isdir, os_path_isfile, os_access in A, B, C, D, E, F.
  cbn [snd] in A, B, C, D, E, F.
  rewrite <- (stat_frame _ w u H1) in A. rewrite <- (stat_frame _ w u H2) in B, D.
  rewrite <- (stat_frame _ w u H3) in C, E. rewrite <- (stat_frame _ w u H4) in F.
  injection A as A. injection B as B. injection C as C.
  injection D as D. injection E as E. injection F as F.
  assert (D' : match stat u "templates/overview.svg" with
               | inl _ => false
               | inr n => may u (node_mode n) (node_cls n) R_OK
               end = true).
  { destruct (stat u "templates/overview.svg"); [discriminate|].
    now rewrite (may_same w u) by exact Hs. }
  assert (E' : match stat u "templates/languages.svg" with
               | inl _ => false
               | inr n => may u (node_mode n) (node_cls n) R_OK
               end = true).
  { destruct (stat u "templates/languages.svg"); [discriminate|].
    now rewrite (may_same w u) by exact Hs. }
  assert (F' : match stat u "generated" with
               | inl _ => false
               | inr n => may u (node_mode n) (node_cls n) W_OK
               end = true).
  { destruct (stat u "generated"); [discriminate|].
    now rewrite (may_same w u) by exact Hs. }
  unfold check_permissions, bind, os_path_isdir, os_path_isfile, os_access, ret.
  do 6 (rewrite ?A, ?B, ?C, ?D', ?E', ?F'; cbv beta iota delta [negb]).
  reflexivity.
Qed.

(** After a successful [generate_output_folder] the directory is found. *)
Lemma generate_output_folder_found (w w1 : world) :
  generate_output_folder w = (w1, Ok tt) ->
  exists m c, stat w1 "generated" = inr (Dir m c).
Proof.
  intros H. pose proof (FolderFacts.generate_output_folder_cases w) as Hc.
  destruct (stat w "generated") as [e|[m c|m c d]] eqn:Est.
  - destruct Hc as [[e' He]|([d Hd] & Hn & Hc)]; [congruence|].
    rewrite Hc in H. injection H as <-. exists 511, Owner.
    unfold stat.
    change (parent (with_log _ (with_fs _ w)) "generated") with (parent w "generated").
    rewrite Hd. cbn [fs with_fs with_log]. now rewrite lookup_insert_eq.
  - rewrite Hc in H. injection H as <-. exists m, c. exact Est.
  - destruct Hc as [[e' He]|(_ & Hn & Hc)]; [congruence|].
    unfold stat in Est. destruct (parent w "generated"); [discriminate|].
    rewrite Hn in Est. discriminate.
Qed.

(** Where the directory is found, [generate_output_folder] only reports. *)
Lemma generate_output_folder_noop (w : world) (m : Z) (c : who) :
  stat w "generated" = inr (Dir m c) ->
  generate_output_folder w
  = (with_log (log w ++ [EvPrint "Directory already exists: generated"]) w, Ok tt).
Proof.
  intros H. pose proof (FolderFacts.generate_output_folder_cases w) as Hc.
  now rewrite H in Hc.
Qed.

Lemma write_file_parent (p d : string) (w w' : world) :
  write_file p d w = (w', Ok tt) -> exists dir, parent w p = inr dir.
Proof.
  unfold write_file. destruct (parent w p) as [e|dir]; [discriminate|]. eauto.
Qed.

(** A renderer whose badge is already in place, and writable, rewrites it
    and leaves the file system as it is. *)
Lemma render_fixpoint (tp op : string) (text : string -> result string)
    (msg : string) (u : world) (tpl out : string) (m gm : Z) (c gc : who)
    (dir : option string) :
  read_file tp u = (u, Ok tpl) -> text tpl = Ok out ->
  stat u "generated" = inr (Dir gm gc) ->
  parent u op = inr dir ->
  fs u !! op = Some (File m c out) -> may u m c W_OK = true ->
  exists u',
    render tp op text msg u = (u', Ok tt)
    /\ fs u' = fs u /\ same_process u u'.
Proof.
  intros Hr Ht Hg Hp Hf Hm. rewrite RenderFacts.render_cases, Hr, Ht.
  rewrite (generate_output_folder_noop u gm gc Hg).
  unfold write_file.
  change (parent (with_log _ u) op) with (parent u op). rewrite Hp.
  cbn [fs with_log]. rewrite Hf.
  change (may (with_log _ u) m c W_OK) with (may u m c W_OK). rewrite Hm.
  eexists. split; [reflexivity|]. cbn. split; [|now repeat split].
  now apply insert_id.
Qed.

Lemma created_writable (w : world) :
  is_root w = true \/ Z.testbit (umask w) 7 = false ->
  may w (Z.land 438 (Z.lnot (umask w))) Owner W_OK = true.
Proof.
  intros [H|H]; unfold may; [now rewrite H|].
  apply orb_true_iff. right.
  change (perm_bit Owner W_OK) with 7.
  rewrite Z.land_spec, Z.lnot_spec by discriminate. now rewrite H.
Qed.

End RerunFacts.

Module AgainFacts.
Import World Script Spec Props.

Section Again.
Variable template : string -> string -> result string.
Variable fetch : stats_config -> Stats.

(** The steps of a run of [main] that returns normally. *)
Lemma main_ok_steps (w w' : world) :
  main template fetch w = (w', Ok tt) ->
  exists w1 c t user wb wc,
    generate_output_folder w = (w1, Ok tt)
    /\ check_permissions w1 = (w1, Ok tt)
    /\ env w !! "ACCESS_TOKEN" = Some (String c t)
    /\ env w !! "GITHUB_ACTOR" = Some user
    /\ generate_languages template (fetch (config_of (env w) user (String c t)))
         (in_session (config_of (env w) user (String c t)) w1) = (wb, Ok tt)
    /\ generate_overview template (fetch (config_of (env w) user (String c t))) wb
       = (wc, Ok tt)
    /\ w' = with_log (log wc ++ [EvSessionClose]) wc.
Proof.
  intros H.
  destruct (generate_output_folder w) as [w1 [[]|x]] eqn:HG.
  2:{ unfold main in H. rewrite (MainFacts.bind_raise _ _ _ _ _ HG) in H.
      discriminate H. }
  pose proof (MainFacts.check_permissions_pure w1) as Hp.
  destruct (check_permissions w1) as [w2 [[]|x]] eqn:HC; cbn [fst] in Hp; subst w2.
  2:{ unfold main in H. rewrite (MainFacts.bind_ok _ _ _ _ _ HG) in H.
      rewrite (MainFacts.bind_raise _ _ _ _ _ HC) in H. discriminate H. }
  pose proof (MainFacts.main_after_preparation template fetch w w1 w1 HG HC) as Hm.
  destruct (env w !! "ACCESS_TOKEN") as [[|c t]|] eqn:Et;
    [rewrite Hm in H; discriminate H| |rewrite Hm in H; discriminate H].
  destruct (env w !! "GITHUB_ACTOR") as [user|] eqn:Eu;
    [|rewrite Hm in H; discriminate H].
  clear Hm.
  rewrite (RunFacts.main_run template fetch w w1 c t user HG HC Et Eu) in H.
  cbv zeta in H.
  destruct (generate_languages template _ _) as [wb r1] eqn:EL.
  destruct (generate_overview template _ wb) as [wc r2] eqn:EO.
  injection H as <- Hr. destruct r1 as [[]|e1]; [|discriminate Hr]. subst r2.
  exists w1, c, t, user, wb, wc. repeat split; trivial.
Qed.

(** A renderer that returns normally where the directory is found leaves
    the badge in place, writable when the process may write what it
    creates, and changes no other entry. *)
Lemma render_settles (tp op : string) (text : string -> result string)
    (msg : string) (w w' : world) (gm : Z) (gc : who) :
  op <> "generated" ->
  stat w "generated" = inr (Dir gm gc) ->
  is_root w = true \/ Z.testbit (umask w) 7 = false ->
  render tp op text msg w = (w', Ok tt) ->
  exists tpl out m c dir,
    read_file tp w = (w, Ok tpl) /\ text tpl = Ok out
    /\ parent w op = inr dir
    /\ fs w' = <[op := File m c out]> (fs w)
    /\ may w m c W_OK = true
    /\ same_process w w'.
Proof.
  intros Hop Hg Hu H. apply RenderFacts.render_ok in H; [|exact Hop].
  destruct H as (tpl & out & m & c & w1 & Hr & Ht & HG & Hw & -> & Hm).
  rewrite (RerunFacts.generate_output_folder_noop w gm gc Hg) in HG.
  injection HG as <-.
  destruct (RerunFacts.write_file_parent _ _ _ _ Hw) as [dir Hd].
  exists tpl, out, m, c, dir. split; [exact Hr|]. split; [exact Ht|].
  split; [exact Hd|]. split; [reflexivity|]. split; [|now repeat split].
  destruct Hm as [(_ & -> & ->)|(d0 & _ & Hm)]; [|exact Hm].
  now apply RerunFacts.created_writable.
Qed.

(** A renderer that has returned normally returns normally again, and
    changes nothing, in any state that agrees with the one it left on its
    template, on the directory and on its badge. *)
Lemma render_repeats (tp op : string) (text : string -> result string)
    (msg : string) (w w' u : world) (gm : Z) (gc : who) :
  op <> "generated" -> dirname op = Some "generated" ->
  stat w "generated" = inr (Dir gm gc) ->
  is_root w = true \/ Z.testbit (umask w) 7 = false ->
  render tp op text msg w = (w', Ok tt) ->
  agree_at tp w u -> agree_at "generated" w u ->
  fs u !! op = fs w' !! op ->
  exists u',
    render tp op text msg u = (u', Ok tt)
    /\ fs u' = fs u /\ same_process u u'.
Proof.
  intros Hop Hdir Hg Hu H Ht Hgen Hf.
  destruct (render_settles tp op text msg w w' gm gc Hop Hg Hu H)
    as (tpl & out & m & c & dir & Hr & Htx & Hp & Hfs & Hm & _).
  pose proof Ht as (Hs & _).
  rewrite Hfs, lookup_insert_eq in Hf.
  apply (RerunFacts.render_fixpoint tp op text msg u tpl out m gm c gc dir).
  - now apply (FrameFacts.read_file_frame tp w u).
  - exact Htx.
  - now rewrite (FrameFacts.stat_frame "generated" w u Hgen).
  - rewrite (FrameFacts.parent_frame op w u Hs); [exact Hp|].
    intros d Hd. rewrite Hdir in Hd. injection Hd as <-. now destruct Hgen as (_ & E & _).
  - exact Hf.
  - now rewrite (FrameFacts.may_same w u).
Qed.

End Again.
End AgainFacts.

Ltac solve_paths :=
  try discriminate;
  try (let d := fresh "d" in
       let Hd := fresh "Hd" in
       intros d Hd; vm_compute in Hd;
       first [discriminate Hd|injection Hd as <-; split; discriminate]).

(** X7: when [main] has returned normally, and the process is root or its
    umask leaves the owner the right to write, a second run in the state
    the first one left returns normally too and leaves the file system as
    it is: both badges are rewritten with the same text. *)
Theorem main_again
    (template : string -> string -> result string)
    (fetch : stats_config -> Stats) (w w' : World.world) :
  Script.main template fetch w = (w', Ok tt) ->
  World.is_root w = true \/ Z.testbit (World.umask w) 7 = false ->
  exists w'',
    Script.main template fetch w' = (w'', Ok tt) /\ World.fs w'' = World.fs w'.
Proof.
  intros H Hu.
  destruct (AgainFacts.main_ok_steps template fetch _ _ H)
    as (w1 & c & t & user & wb & wc & HG & HC & Et & Eu & EL & EO & ->).
  set (cfg := Props.config_of (World.env w) user (String c t)) in *.
  destruct (RerunFacts.generate_output_folder_found _ _ HG) as (gm & gc & Hg1).
  destruct (RenderFacts.generate_output_folder_ok _ _ HG) as (Hs1 & _).
  assert (Hu1 : World.is_root w1 = true \/ Z.testbit (World.umask w1) 7 = false).
  { destruct Hs1 as (_ & _ & -> & -> & _). exact Hu. }
  rewrite RenderFacts.generate_languages_render in EL.
  rewrite RenderFacts.generate_overview_render in EO.
  destruct (AgainFacts.render_settles "templates/languages.svg"
              "generated/languages.svg" _ _ (Props.in_session cfg w1) wb gm gc
              ltac:(discriminate) Hg1 Hu1 EL)
    as (tl & ol & ml & cl & dl & _ & _ & _ & Hfl & _ & Hsl).
  assert (Hgb : World.stat wb "generated" = inr (World.Dir gm gc)).
  { rewrite <- Hg1. apply (FrameFacts.stat_frame "generated" (Props.in_session cfg w1) wb).
    split; [exact Hsl|]. split; [|intros d Hd; vm_compute in Hd; discriminate Hd].
    rewrite Hfl. now rewrite lookup_insert_ne by discriminate. }
  assert (Hub : World.is_root wb = true \/ Z.testbit (World.umask wb) 7 = false).
  { destruct Hsl as (_ & _ & -> & -> & _). exact Hu1. }
  destruct (AgainFacts.render_settles "templates/overview.svg"
              "generated/overview.svg" _ _ wb wc gm gc
              ltac:(discriminate) Hgb Hub EO)
    as (to & oo & mo & co & dv & _ & _ & _ & Hfo & _ & Hso).
  (* the state the first run left *)
  set (w' := World.with_log (World.log wc ++ [World.EvSessionClose]) wc).
  assert (Hfs : World.fs w'
                = <["generated/overview.svg" := World.File mo co oo]>
                    (<["generated/languages.svg" := World.File ml cl ol]>
                       (World.fs w1))).
  { cbn [w' World.fs World.with_log]. now rewrite Hfo, Hfl. }
  assert (Hs' : Props.same_process w1 w').
  { apply (RenderFacts.same_process_trans _ wb); [exact Hsl|].
    apply (RenderFacts.same_process_trans _ wc); [exact Hso|]. now repeat split. }
  assert (Hag : forall p,
    p <> "generated/overview.svg" -> p <> "generated/languages.svg" ->
    (forall d, World.dirname p = Some d ->
               d <> "generated/overview.svg" /\ d <> "generated/languages.svg") ->
    Props.agree_at p w1 w').
  { intros p H1 H2 H3. split; [exact Hs'|]. split.
    - rewrite Hfs. now rewrite !lookup_insert_ne by congruence.
    - intros d Hd. destruct (H3 d Hd). rewrite Hfs.
      now rewrite !lookup_insert_ne by congruence. }
  assert (Hg' : World.stat w' "generated" = inr (World.Dir gm gc)).
  { rewrite <- Hg1. apply FrameFacts.stat_frame, Hag; solve_paths. }
  pose proof (RerunFacts.generate_output_folder_noop w' gm gc Hg') as HG'.
  set (w1' := World.with_log
                (World.log w' ++ [World.EvPrint "Directory already exists: generated"])
                w') in *.
  assert (HC' : Script.check_permissions w1' = (w1', Ok tt)).
  { apply (RerunFacts.check_permissions_frame w1 w1'); [| | | |exact HC];
      apply (Hag _); solve_paths. }
  assert (He : World.env w' = World.env w).
  { destruct Hs' as (_ & _ & _ & _ & ->). now destruct Hs1 as (_ & _ & _ & _ & ->). }
  rewrite (RunFacts.main_run template fetch w' w1' c t user HG' HC')
    by now rewrite He.
  cbv zeta. rewrite He. fold cfg.
  (* the languages badge again *)
  destruct (AgainFacts.render_repeats "templates/languages.svg"
              "generated/languages.svg" _ _ (Props.in_session cfg w1) wb
              (Props.in_session cfg w1') gm gc
              ltac:(discriminate) eq_refl Hg1 Hu1 EL) as (u1 & E1 & F1 & S1).
  { apply (Hag "templates/languages.svg"); solve_paths. }
  { apply (Hag "generated"); solve_paths. }
  { cbn [Props.in_session w1' World.fs World.with_log]. fold w'. rewrite Hfs, Hfl.
    now rewrite lookup_insert_ne, !lookup_insert_eq by discriminate. }
  rewrite RenderFacts.generate_languages_render, E1.
  (* the overview badge again *)
  destruct (AgainFacts.render_repeats "templates/overview.svg"
              "generated/overview.svg" _ _ wb wc u1 gm gc
              ltac:(discriminate) eq_refl Hgb Hub EO) as (u2 & E2 & F2 & S2).
  { split; [|split].
    - apply (RenderFacts.same_process_trans _ wc); [exact Hso|].
      apply (RenderFacts.same_process_trans _ (Props.in_session cfg w1')); [|exact S1].
      now repeat split.
    - rewrite F1. cbn [Props.in_session w1' World.fs World.with_log]. fold w'.
      rewrite Hfs, Hfl. now rewrite lookup_insert_ne by discriminate.
    - intros d Hd. vm_compute in Hd. injection Hd as <-.
      rewrite F1. cbn [Props.in_session w1' World.fs World.with_log]. fold w'.
      rewrite Hfs, Hfl. now rewrite lookup_insert_ne by discriminate. }
  { split; [|split].
    - apply (RenderFacts.same_process_trans _ wc); [exact Hso|].
      apply (RenderFacts.same_process_trans _ (Props.in_session cfg w1')); [|exact S1].
      now repeat split.
    - rewrite F1. cbn [Props.in_session w1' World.fs World.with_log]. fold w'.
      rewrite Hfs, Hfl. now rewrite lookup_insert_ne by discriminate.
    - intros d Hd. vm_compute in Hd. discriminate Hd. }
  { rewrite F1. cbn [Props.in_session w1' World.fs World.with_log]. fold w'.
    now rewrite Hfs, Hfo, Hfl. }
  rewrite RenderFacts.generate_overview_render, E2.
  eexists. split; [reflexivity|]. cbn [World.fs World.with_log].
  rewrite F2, F1. reflexivity.
Qed.

Lemma main_again_witness :
  let run := Script.main Examples.no_template (fun _ => Examples.octocat) in
  exists w'',
    run (run Cases.ready_world).1 = (w'', Ok tt)
    /\ World.fs w'' = World.fs (run Cases.ready_world).1.
Proof.
  apply (main_again Examples.no_template (fun _ => Examples.octocat)
           Cases.ready_world).
  - vm_compute. reflexivity.
  - right. reflexivity.
Defined.

(** Under a umask that masks the owner's write bit the first run creates
    read-only badges, and the second run cannot rewrite them. *)
Example main_again_masked :
  let run := Script.main Examples.no_template (fun _ => Examples.octocat) in
  (run Cases.masked_world).2 = Ok tt
  /\ (run (run Cases.masked_world).1).2
     = Raise (PermissionError "generated/languages.svg").
Proof. split; vm_compute; reflexivity. Qed.

(** ** Further properties: what a failing run leaves behind *)

Module LeftoverFacts.
Import World Script Spec Props.

Lemma generate_output_folder_creates (w : world) :
  fs w !! "generated" = None ->
  may w (cwd_mode w) (cwd_cls w) X_OK = true ->
  may w (cwd_mode w) (cwd_cls w) W_OK = true ->
  generate_output_folder w
  = (with_log (log w ++ [EvPrint "Created directory: generated with permissions 777"])
       (with_fs (<["generated" := Dir 511 Owner]> (fs w)) w), Ok tt).
Proof.
  intros Hn Hx Hw. pose proof (FolderFacts.generate_output_folder_cases w) as Hc.
  assert (Hp : parent w "generated" = inr None).
  { unfold parent. rewrite Hx. reflexivity. }
  assert (Hs : stat w "generated" = inl ENOENT).
  { unfold stat. now rewrite Hp, Hn. }
  rewrite Hs in Hc. destruct Hc as [[e He]|(_ & _ & Hc)]; [|exact Hc].
  exfalso. revert He.
  unfold generate_output_folder, bind, os_path_isdir, os_mkdir.
  rewrite Hs. cbv beta iota delta [negb]. rewrite Hp, Hn.
  unfold parent_writable. rewrite Hw. cbv beta iota.
  unfold os_chmod, stat.
  change (parent (with_fs _ w) "generated") with (parent w "generated").
  rewrite Hp. cbn [fs with_fs]. rewrite lookup_insert_eq.
  cbn [node_cls]. rewrite orb_true_r. cbv beta iota. discriminate.
Qed.

(** No step after the first touches an entry ["generated"] that is there. *)
Lemma render_keeps_folder (tp op : string) (text : string -> result string)
    (msg : string) (w : world) (n : node) :
  op <> "generated" ->
  fs w !! "generated" = Some n ->
  fs (render tp op text msg w).1 !! "generated" = Some n.
Proof.
  intros Hop Hn. rewrite RenderFacts.render_cases.
  destruct (read_file tp w) as [w0 [tpl|e]] eqn:Er;
    pose proof (RenderFacts.read_file_result _ _ _ _ Er) as ->; [|exact Hn].
  destruct (text tpl) as [out|e]; [|exact Hn].
  destruct (generate_output_folder w) as [w1 [[]|e]] eqn:Eg.
  2:{ now rewrite (RenderFacts.generate_output_folder_raise _ _ _ Eg). }
  assert (Hn1 : fs w1 !! "generated" = Some n).
  { destruct (RenderFacts.generate_output_folder_ok _ _ Eg) as (_ & _ & _ & [->|[E _]]);
      congruence. }
  destruct (write_file op out w1) as [w2 [[]|e]] eqn:Ew.
  - destruct (RenderFacts.write_file_ok _ _ _ _ Ew) as (m & c & -> & _).
    cbn. now rewrite lookup_insert_ne by congruence.
  - now rewrite (RenderFacts.write_file_raise _ _ _ _ _ Ew).
Qed.

End LeftoverFacts.

(** X8: [main] prepares the output folder before it checks anything: where
    ["generated"] is missing and the working directory can be searched and
    written, every run leaves the directory behind, with mode 777, also a
    run that fails on its templates or its credentials. *)
Theorem main_leaves_folder
    (template : string -> string -> result string)
    (fetch : stats_config -> Stats) (w : World.world) :
  World.fs w !! "generated" = None ->
  World.may w (World.cwd_mode w) (World.cwd_cls w) World.X_OK = true ->
  World.may w (World.cwd_mode w) (World.cwd_cls w) World.W_OK = true ->
  World.fs (Script.main template fetch w).1 !! "generated"
  = Some (World.Dir 511 World.Owner).
Proof.
  intros Hn Hx Hw.
  pose proof (LeftoverFacts.generate_output_folder_creates w Hn Hx Hw) as HG.
  set (w1 := World.with_log _ _) in HG.
  assert (H1 : World.fs w1 !! "generated" = Some (World.Dir 511 World.Owner))
    by apply lookup_insert_eq.
  pose proof (MainFacts.check_permissions_pure w1) as Hp.
  destruct (Script.check_permissions w1) as [w2 [[]|x]] eqn:HC;
    cbn [fst] in Hp; subst w2.
  2:{ unfold Script.main. rewrite (MainFacts.bind_ok _ _ _ _ _ HG).
      now rewrite (MainFacts.bind_raise _ _ _ _ _ HC). }
  pose proof (MainFacts.main_after_preparation template fetch w w1 w1 HG HC) as Hm.
  destruct (World.env w !! "ACCESS_TOKEN") as [[|c t]|] eqn:Et;
    [now rewrite Hm| |now rewrite Hm].
  destruct (World.env w !! "GITHUB_ACTOR") as [user|] eqn:Eu; [|now rewrite Hm].
  rewrite (RunFacts.main_run template fetch w w1 c t user HG HC Et Eu). cbv zeta.
  set (cfg := Props.config_of (World.env w) user (String c t)).
  pose proof (LeftoverFacts.render_keeps_folder "templates/languages.svg"
                "generated/languages.svg"
                (Script.languages_text template (fetch cfg))
                "Generated file: generated/languages.svg"
                (Props.in_session cfg w1) _ ltac:(discriminate) H1) as Hb.
  rewrite <- RenderFacts.generate_languages_render in Hb.
  destruct (Script.generate_languages template (fetch cfg) (Props.in_session cfg w1))
    as [wb r1].
  pose proof (LeftoverFacts.render_keeps_folder "templates/overview.svg"
                "generated/overview.svg"
                (Script.overview_text template (fetch cfg))
                "Generated file: generated/overview.svg"
                wb _ ltac:(discriminate) Hb) as Hc.
  rewrite <- RenderFacts.generate_overview_render in Hc.
  destruct (Script.generate_overview template (fetch cfg) wb) as [wc r2].
  exact Hc.
Qed.

Lemma main_leaves_folder_witness :
  World.fs (Script.main Examples.no_template (fun _ => Examples.octocat)
              Examples.fresh_world).1 !! "generated"
  = Some (World.Dir 511 World.Owner).
Proof.
  apply (main_leaves_folder Examples.no_template (fun _ => Examples.octocat)
           Examples.fresh_world); reflexivity.
Defined.

(** X9: a missing template directory is reported before the credentials
    are looked at: once the output folder is prepared, [main] raises the
    [FileNotFoundError] of [check_permissions], whatever the environment. *)
Theorem main_reports_templates_first
    (template : string -> string -> result string)
    (fetch : stats_config -> Stats) (w w1 : World.world) :
  Script.generate_output_folder w = (w1, Ok tt) ->
  World.fs w !! "templates" = None ->
  Script.main template fetch w
  = (w1, Raise (FileNotFoundError "The 'templates' directory does not exist")).
Proof.
  intros HG Hn.
  pose proof (MainFacts.generate_output_folder_quiet w) as (_ & _ & Hf).
  rewrite HG in Hf. cbn [fst] in Hf.
  unfold Script.main. rewrite (MainFacts.bind_ok _ _ _ _ _ HG).
  apply MainFacts.bind_raise.
  unfold Script.check_permissions, World.bind, World.os_path_isdir, World.stat.
  rewrite (Hf "templates") by discriminate. rewrite Hn.
  now destruct (World.parent w1 "templates").
Qed.

Lemma main_reports_templates_first_witness :
  Script.main Examples.no_template (fun _ => Examples.octocat)
    Cases.world_without_templates
  = ((Script.generate_output_folder Cases.world_without_templates).1,
     Raise (FileNotFoundError "The 'templates' directory does not exist")).
Proof.
  apply (main_reports_templates_first Examples.no_template (fun _ => Examples.octocat)
           Cases.world_without_templates).
  - vm_compute. reflexivity.
  - reflexivity.
Defined.

(** ** Further properties: the exclusion lists *)

Module ConfigFacts.
Import Text TextFacts Py Script Props.

Lemma rstrip_idempotent (s : string) : rstrip (rstrip s) = rstrip s.
Proof.
  induction s as [|c s IH]; [reflexivity|]. cbn [rstrip].
  destruct (rstrip s) as [|a t] eqn:E.
  - destruct (isspace c) eqn:Ec; [reflexivity|]. cbn [rstrip]. now rewrite Ec.
  - cbn [rstrip] in *. now rewrite IH.
Qed.

Lemma lstrip_left_trimmed (s : string) : left_trimmed (lstrip s) = true.
Proof.
  induction s as [|c s IH]; [reflexivity|]. cbn [lstrip].
  destruct (isspace c) eqn:Ec; [exact IH|]. cbn [left_trimmed]. now rewrite Ec.
Qed.

Lemma lstrip_trimmed (s : string) : left_trimmed s = true -> lstrip s = s.
Proof.
  destruct s as [|c s]; [reflexivity|]. cbn [left_trimmed lstrip].
  now intros ->%negb_true_iff.
Qed.

Lemma rstrip_left_trimmed (s : string) :
  left_trimmed s = true -> left_trimmed (rstrip s) = true.
Proof.
  destruct s as [|c s]; [reflexivity|]. cbn [left_trimmed rstrip].
  intros Hc. destruct (rstrip s); [|exact Hc].
  apply negb_true_iff in Hc. rewrite Hc. cbn [left_trimmed]. now rewrite Hc.
Qed.

(** [s.strip().strip() == s.strip()] *)
Lemma strip_idempotent (s : string) : strip (strip s) = strip s.
Proof.
  unfold strip.
  rewrite (lstrip_trimmed (rstrip (lstrip s)))
    by apply rstrip_left_trimmed, lstrip_left_trimmed.
  apply rstrip_idempotent.
Qed.

Lemma lstrip_keeps_absent (c : ascii) (s : string) :
  has_char c s = false -> has_char c (lstrip s) = false.
Proof.
  induction s as [|a s IH]; [reflexivity|]. cbn [lstrip]. intros H.
  destruct (isspace a); [|exact H]. apply IH.
  cbn [has_char] in H. now apply orb_false_iff in H.
Qed.

Lemma rstrip_keeps_absent (c : ascii) (s : string) :
  has_char c s = false -> has_char c (rstrip s) = false.
Proof.
  induction s as [|a s IH]; [reflexivity|]. cbn [rstrip has_char].
  intros [Ha Hs]%orb_false_iff. specialize (IH Hs).
  destruct (rstrip s) as [|b t].
  - destruct (isspace a); [reflexivity|]. cbn [has_char]. now rewrite Ha.
  - cbn [has_char] in *. now rewrite Ha, IH.
Qed.

Lemma strip_keeps_absent (c : ascii) (s : string) :
  has_char c s = false -> has_char c (strip s) = false.
Proof. intros H. now apply rstrip_keeps_absent, lstrip_keeps_absent. Qed.

Lemma split_not_nil (sep : ascii) (s : string) : split sep s <> [].
Proof.
  destruct s as [|c s]; [discriminate|]. cbn [split].
  destruct (Ascii.eqb c sep); [discriminate|]. now destruct (split sep s).
Qed.

(** No piece of [s.split(sep)] holds the separator. *)
Lemma split_pieces (sep : ascii) (s : string) :
  Forall (fun piece => has_char sep piece = false) (split sep s).
Proof.
  induction s as [|c s IH]; [repeat constructor|]. cbn [split].
  destruct (Ascii.eqb c sep) eqn:E; [now constructor|].
  destruct (split sep s) as [|w ws]; [repeat constructor|].
  - cbn [has_char]. rewrite orb_false_r. apply eqb_false. apply eqb_false in E. congruence.
  - apply Forall_cons in IH as [Hw Hws]. constructor; [|exact Hws].
    cbn [has_char]. rewrite Hw, orb_false_r.
    apply eqb_false. apply eqb_false in E. congruence.
Qed.

Lemma join_cons (sep c : ascii) (w : string) (ws : list string) :
  join sep (String c w :: ws) = String c (join sep (w :: ws)).
Proof. now destruct ws. Qed.

(** [sep.join(s.split(sep)) == s] *)
Lemma join_split (sep : ascii) (s : string) : join sep (split sep s) = s.
Proof.
  induction s as [|c s IH]; [reflexivity|]. cbn [split].
  destruct (Ascii.eqb c sep) eqn:E.
  - apply eqb_true in E as ->. pose proof (split_not_nil sep s) as Hn.
    destruct (split sep s) as [|w ws]; [congruence|].
    cbn [join]. rewrite app_nil_l. now rewrite <- IH.
  - pose proof (split_not_nil sep s) as Hn.
    destruct (split sep s) as [|w ws]; [congruence|].
    now rewrite join_cons, IH.
Qed.

End ConfigFacts.

(** X10: the exclusion set [main] builds from [EXCLUDED] or
    [EXCLUDED_LANGS]: there is one only for a value that is set and not
    empty; its elements are the pieces between the commas of the value,
    each stripped of its surrounding white space, so it is never empty, and
    no element holds a comma or begins or ends with white space. *)
Theorem parse_set_elements (v : option string) (names : gset string) :
  Script.parse_set v = Some names ->
  exists r,
    v = Some r /\ r <> ""
    /\ Props.join "," (Py.split "," r) = r
    /\ (forall x, x ∈ names <-> exists piece, piece ∈ Py.split "," r /\ x = Py.strip piece)
    /\ names <> ∅
    /\ forall x, x ∈ names -> Py.strip x = x /\ Text.has_char "," x = false.
Proof.
  destruct v as [[|c r]|]; try discriminate.
  change (Script.parse_set (Some (String c r)))
    with (Some (list_to_set (map Py.strip (Py.split "," (String c r))) : gset string)).
  pose proof (ConfigFacts.split_not_nil "," (String c r)) as Hn.
  pose proof (ConfigFacts.split_pieces "," (String c r)) as Hf.
  pose proof (ConfigFacts.join_split "," (String c r)) as Hj.
  set (pieces := Py.split "," (String c r)) in *.
  intros [= <-]. exists (String c r). fold pieces. clearbody pieces.
  assert (Hin : forall x,
    x ∈ (list_to_set (map Py.strip pieces) : gset string)
    <-> exists piece, piece ∈ pieces /\ x = Py.strip piece).
  { intros x. rewrite elem_of_list_to_set.
    change (map Py.strip) with (fmap (M := list) Py.strip).
    rewrite list_elem_of_fmap. split; intros (y & H1 & H2); exists y; now split. }
  split; [reflexivity|]. split; [discriminate|].
  split; [exact Hj|]. split; [exact Hin|]. split.
  - destruct pieces as [|w ws]; [congruence|]. intros Hempty.
    assert (Hw : Py.strip w ∈ (∅ : gset string)).
    { rewrite <- Hempty. apply Hin. exists w. split; [|reflexivity]. constructor. }
    now apply not_elem_of_empty in Hw.
  - intros x (piece & Hp & ->)%Hin. split; [apply ConfigFacts.strip_idempotent|].
    apply ConfigFacts.strip_keeps_absent.
    rewrite Forall_forall in Hf. now apply Hf.
Qed.

Lemma parse_set_elements_witness :
  exists r,
    Some "a, b ,c" = Some r /\ r <> ""
    /\ Props.join "," (Py.split "," r) = r
    /\ (forall x, x ∈ ({[ "a"; "b"; "c" ]} : gset string)
                  <-> exists piece, piece ∈ Py.split "," r /\ x = Py.strip piece)
    /\ ({[ "a"; "b"; "c" ]} : gset string) <> ∅
    /\ forall x, x ∈ ({[ "a"; "b"; "c" ]} : gset string) ->
                 Py.strip x = x /\ Text.has_char "," x = false.
Proof.
  apply (parse_set_elements (Some "a, b ,c") {[ "a"; "b"; "c" ]}).
  vm_compute. reflexivity.
Defined.

(** ** Further properties: the text of the badges *)

Module BadgeFacts.
Import Text TextFacts Py Script Spec Props.

(** The loop in closed form. *)
Lemma render_loop_closed (l : list (string * lang_data)) (i : Z)
    (progress lang_list : string) :
  render_loop i l progress lang_list
  = Ok (progress +:+ Text.concat (map segment_of l),
        lang_list +:+ Text.concat (imap (fun k t => item_of (i + Z.of_nat k) t) l)).
Proof.
  revert i progress lang_list.
  induction l as [|[lang data] l IH]; intros i progress lang_list.
  - cbn [render_loop map imap Text.concat]. now rewrite !TextFacts.app_nil_r.
  - rewrite LanguagesFacts.render_loop_step, IH.
    cbn [map imap Text.concat]. rewrite !TextFacts.app_assoc.
    unfold item_of at 2. cbn [fst snd]. rewrite Z.add_0_r.
    change delay_between with 150.
    do 5 f_equal. apply imap_ext. intros k t _.
    unfold compose. f_equal. lia.
Qed.

Lemma value_of_in (t r : string) (pairs : list (string * string)) :
  value_of t pairs = Some r -> In t (map fst pairs).
Proof.
  induction pairs as [|[u ru] pairs IH]; [discriminate|]. cbn [value_of map fst In].
  destruct (String.eqb u t) eqn:E; [|auto].
  apply String.eqb_eq in E. now left.
Qed.

(** Substitutions leave a text without opening brace as it is. *)
Lemma substitute_plain (pairs : list (string * string)) (s : string) :
  forallb is_token (map fst pairs) = true ->
  has_char "{" s = false -> substitute pairs s = s.
Proof.
  intros Ht Hs. induction pairs as [|[u ru] pairs IH]; [reflexivity|].
  cbn [forallb map fst] in Ht. apply andb_true_iff in Ht as [Hu Ht].
  cbn [substitute fold_left fst snd].
  destruct (SubstFacts.is_token_shape u Hu) as (c & body & -> & _).
  rewrite replace_all_absent by now apply contains_absent.
  now apply IH.
Qed.

(** A placeholder alone between two texts without brace gets the value of
    its first pair; the other substitutions pass it by. *)
Lemma substitute_alone (pairs : list (string * string)) (t r pre post : string) :
  forallb is_token (map fst pairs) = true ->
  forallb (fun pr => negb (has_char "{" (snd pr))) pairs = true ->
  has_char "{" pre = false -> has_char "{" post = false ->
  (forall u, In u (map fst pairs) -> u <> t -> starts_with u (t +:+ post) = false) ->
  value_of t pairs = Some r ->
  substitute pairs (pre +:+ t +:+ post) = pre +:+ r +:+ post.
Proof.
  intros Ht Hr Hpre Hpost Hd Hv.
  assert (Htok : is_token t = true).
  { rewrite forallb_forall in Ht. apply Ht. now apply (value_of_in t r). }
  induction pairs as [|[u ru] pairs IH]; [discriminate|].
  cbn [forallb map fst snd] in Ht, Hr.
  apply andb_true_iff in Ht as [Hu Ht]. apply andb_true_iff in Hr as [Hru Hr].
  apply negb_true_iff in Hru.
  cbn [substitute fold_left fst snd]. cbn [value_of] in Hv.
  destruct (SubstFacts.is_token_shape u Hu) as (c & body & Eu & _).
  destruct (String.eqb u t) eqn:E.
  - apply String.eqb_eq in E. subst t. injection Hv as <-.
    rewrite Eu at 1. rewrite replace_all_prefix by exact Hpre. rewrite <- Eu.
    rewrite replace_all_hit by (rewrite Eu; discriminate).
    rewrite (replace_all_absent u ru post)
      by (rewrite Eu; now apply contains_absent).
    apply substitute_plain; [exact Ht|].
    now rewrite !has_char_app, Hpre, Hru, Hpost.
  - apply String.eqb_neq in E.
    rewrite Eu at 1. rewrite replace_all_prefix by exact Hpre. rewrite <- Eu.
    rewrite SubstFacts.replace_all_other;
      [|exact Hu|exact Htok|apply Hd; [now left|exact E]].
    rewrite (replace_all_absent u ru post)
      by (rewrite Eu; now apply contains_absent).
    apply IH; trivial.
    intros u' Hin. apply Hd. now right.
Qed.

End BadgeFacts.

(** X11: the loop of [generate_languages] never fails; for each entry, in
    order, it appends one bar segment and one list item, and the item of
    the entry at position [k] (counted from 0) carries the animation delay
    [150 * k] ms. *)
Theorem render_loop_items (l : list (string * lang_data)) :
  Script.render_loop 0 l "" ""
  = Ok (Text.concat (map Props.segment_of l),
        Text.concat (imap (fun k t => Props.item_of (Z.of_nat k) t) l)).
Proof.
  rewrite BadgeFacts.render_loop_closed. rewrite !TextFacts.app_nil_l.
  reflexivity.
Qed.

(** X12: in a template made of one overview placeholder between two texts
    without opening brace, [generate_overview] puts the value of that
    placeholder, and of no other, in its place (the name being free of brace
    and backslash). *)
Theorem overview_placeholder_alone
    (template : string -> string -> result string) (s : Stats)
    (t r pre post : string) :
  Spec.plain (name s) = true ->
  In (t, r) (Spec.overview_values s) ->
  Text.has_char "{" pre = false -> Text.has_char "{" post = false ->
  Script.overview_text template s (pre +:+ t +:+ post) = Ok (pre +:+ r +:+ post).
Proof.
  intros Hname Hin Hpre Hpost.
  rewrite PlaceholderFacts.overview_text_substitute
    by now apply SubstFacts.plain_no_backslash.
  f_equal. apply BadgeFacts.substitute_alone; trivial.
  - cbn [forallb Spec.overview_values snd].
    rewrite (SubstFacts.plain_no_brace _ Hname).
    now rewrite !(SubstFacts.plain_no_brace _ (PlaceholderFacts.format_comma_plain _)).
  - intros u Hu Hne. cbn [Spec.overview_values In] in Hin.
    cbn [Spec.overview_values map fst In] in Hu.
    repeat (destruct Hin as [[= <- <-]|Hin];
            [repeat (destruct Hu as [<-|Hu]; [first [congruence|reflexivity]|]);
             destruct Hu|]).
    destruct Hin.
  - cbn [Spec.overview_values In] in Hin.
    repeat (destruct Hin as [[= <- <-]|Hin]; [reflexivity|]). destruct Hin.
Qed.

Lemma overview_placeholder_alone_witness :
  Script.overview_text Examples.no_template Examples.octocat
    ("<text>" +:+ "{{ lines_changed }}" +:+ "</text>")
  = Ok ("<text>" +:+ "1,234,567" +:+ "</text>").
Proof.
  apply (overview_placeholder_alone Examples.no_template Examples.octocat
           "{{ lines_changed }}" "1,234,567" "<text>" "</text>");
    [reflexivity| |reflexivity|reflexivity].
  do 4 right. left. reflexivity.
Defined.

(** X13: take a languages template with the two placeholders once each,
    [{{ progress }}] first, between texts without opening brace, and entries
    that all have a size and whose names and colors hold neither brace nor
    backslash. [generate_languages] then returns the template with the bar
    segments of the sorted entries in place of the first placeholder and
    their list items, with delays 0, 150, 300, ... ms, in place of the
    second. *)
Theorem languages_badge_text
    (template : string -> string -> result string) (s : Stats)
    (pre mid post : string) :
  Forall (fun t => size (snd t) <> None
                   /\ Spec.plain (fst t) = true
                   /\ Spec.plain (Script.resolve_color (snd t)) = true) (languages s) ->
  Text.has_char "{" pre = false -> Text.has_char "{" mid = false ->
  Text.has_char "{" post = false ->
  exists sl,
    Script.sorted_languages s = Ok sl
    /\ Script.languages_text template s
         (pre +:+ "{{ progress }}" +:+ mid +:+ "{{ lang_list }}" +:+ post)
       = Ok (pre +:+ Text.concat (map Props.segment_of sl)
             +:+ mid
             +:+ Text.concat (imap (fun k t => Props.item_of (Z.of_nat k) t) sl)
             +:+ post).
Proof.
  intros Hl Hpre Hmid Hpost.
  assert (Hsz : Forall (Spec.keyed (fun t : string * lang_data => size (snd t)))
                  (languages s))
    by (eapply Forall_impl; [exact Hl|]; now intros t (H & _)).
  destruct (OrderFacts.sorted_reverse_keyed _ (languages s) Hsz) as (sl & E & P & _).
  exists sl. split; [exact E|].
  unfold Script.languages_text, Script.sorted_languages. rewrite E. cbn [rbind].
  assert (Hpl : Forall (fun t => Spec.plain (fst t) = true
                                 /\ Spec.plain (Script.resolve_color (snd t)) = true) sl).
  { rewrite <- P. eapply Forall_impl; [exact Hl|]. now intros t (_ & H). }
  destruct (PlaceholderFacts.render_loop_plain sl 0 "" "" Hpl eq_refl eq_refl)
    as (frags & Ef & Hp & Hq).
  rewrite BadgeFacts.render_loop_closed, !TextFacts.app_nil_l in *.
  injection Ef as <-. cbn [fst snd] in Hp, Hq |- *. cbn [rbind fst snd].
  set (progress := Text.concat (map Props.segment_of sl)) in *.
  set (lang_list := Text.concat (imap _ sl)) in *.
  rewrite SubstFacts.re_sub_literal by now apply SubstFacts.plain_no_backslash.
  cbn [rbind].
  rewrite SubstFacts.re_sub_literal by now apply SubstFacts.plain_no_backslash.
  f_equal.
  apply SubstFacts.plain_no_brace in Hp, Hq.
  (* the first substitution *)
  rewrite (TextFacts.replace_all_prefix "{" "{ progress }}") by exact Hpre.
  rewrite TextFacts.replace_all_hit by discriminate.
  rewrite (TextFacts.replace_all_prefix "{" "{ progress }}") by exact Hmid.
  rewrite (SubstFacts.replace_all_other "{{ progress }}" progress "{{ lang_list }}" post)
    by reflexivity.
  rewrite (TextFacts.replace_all_absent "{{ progress }}" progress post)
    by now apply TextFacts.contains_absent.
  (* the second substitution *)
  rewrite <- (TextFacts.app_assoc progress mid), <- (TextFacts.app_assoc pre).
  rewrite (TextFacts.replace_all_prefix "{" "{ lang_list }}")
    by now rewrite !TextFacts.has_char_app, Hpre, Hp, Hmid.
  rewrite TextFacts.replace_all_hit by discriminate.
  rewrite (TextFacts.replace_all_absent "{{ lang_list }}" lang_list post)
    by now apply TextFacts.contains_absent.
  now rewrite !TextFacts.app_assoc.
Qed.

Lemma languages_badge_text_witness :
  exists sl,
    Script.sorted_languages Examples.octocat = Ok sl
    /\ Script.languages_text Examples.no_template Examples.octocat
         ("<div>" +:+ "{{ progress }}" +:+ "</div><ul>" +:+ "{{ lang_list }}" +:+ "</ul>")
       = Ok ("<div>" +:+ Text.concat (map Props.segment_of sl)
             +:+ "</div><ul>"
             +:+ Text.concat (imap (fun k t => Props.item_of (Z.of_nat k) t) sl)
             +:+ "</ul>").
Proof.
  apply (languages_badge_text Examples.no_template Examples.octocat
           "<div>" "</div><ul>" "</ul>");
    [|reflexivity|reflexivity|reflexivity].
  repeat constructor; discriminate.
Defined.

(** X14: the sort of [generate_languages] returns exactly when the mapping
    has at most one entry or every entry has a size; with at most one entry
    nothing is compared, and the mapping is gone through as it is, with or
    without size. *)
Theorem sorted_languages_returns (s : Stats) :
  ((exists sl, Script.sorted_languages s = Ok sl)
   <-> (length (languages s) <= 1)%nat
       \/ Forall (fun t => size (snd t) <> None) (languages s))
  /\ ((length (languages s) <= 1)%nat ->
      Script.sorted_languages s = Ok (languages s)).
Proof.
  assert (Hone : (length (languages s) <= 1)%nat ->
                 Script.sorted_languages s = Ok (languages s)).
  { unfold Script.sorted_languages. destruct (languages s) as [|x [|y l]]; cbn [length].
    - reflexivity.
    - reflexivity.
    - lia. }
  split; [|exact Hone]. split.
  - intros [sl E].
    destruct (Nat.le_gt_cases (length (languages s)) 1) as [Hle|Hgt]; [now left|right].
    destruct (SortFacts.unkeyed_or_keyed
                (fun t : string * lang_data => size (snd t)) (rev (languages s)))
      as [Hex|Hall].
    + destruct (SortFacts.sort_unkeyed
                  (fun t : string * lang_data => size (snd t)) (rev (languages s)))
        as [msg Em];
        [rewrite length_rev; lia|exact Hex|].
      unfold Script.sorted_languages, Py.sorted in E. cbn [negb] in E.
      rewrite Em in E. discriminate E.
    + apply Forall_forall. intros t Ht. rewrite Forall_forall in Hall.
      apply Hall. now apply list_elem_of_In, in_rev, list_elem_of_In in Ht.
  - intros [Hle|Hall]; [eexists; now apply Hone|].
    destruct (OrderFacts.sorted_reverse_keyed _ (languages s) Hall) as (sl & E & _).
    now exists sl.
Qed.

(** ** Entries without ["prop"] or without ["color"] *)

Module EntryFacts.
Import Text TextFacts Py World Script Spec Props.




End EntryFacts.







